(** * Simple Undetected Prevalence Estimator: input and output processing

    A shallow embedding of [src/scripts/input_processing.py] and
    [src/scripts/output_processing.py].

    The two scripts are straight-line Python programs over values decoded
    from JSON.  Values are modelled by the inductive type [json]; a Python
    [dict] is an association list in insertion order; a Python [str] is the
    string of its UTF-8 bytes; a Python [float] is a binary64 number of the
    Standard Library's [SpecFloat]; exceptions are the
    error side of the [result] monad; the files the scripts read and write are
    a finite map from file names to contents, threaded through the [script]
    monad together with the two logs. *)

From Stdlib Require Import ZArith String Ascii List Bool Lia.
From Stdlib Require Import SpecFloat DecimalString.
From stdpp Require Import base option list strings gmap.

#[local] Set Warnings "-register-all".

Import ListNotations.
Local Open Scope Z_scope.
Local Open Scope string_scope.

(** ** Exceptions and the error monad *)

(** The exception classes the two scripts can meet.  [SystemExit] carries the
    status passed to [sys.exit]; [JSONDecodeError] and [UnicodeEncodeError]
    are subclasses of [ValueError]. *)
Inductive exn : Type :=
| KeyError
| TypeError
| AttributeError
| ValueError
| UnicodeEncodeError
| OverflowError
| FileNotFoundError
| JSONDecodeError
| CsvError
| SystemExit (code : Z).

Inductive result (A : Type) : Type :=
| OK (a : A)
| Raise (e : exn).
Arguments OK {A} a.
Arguments Raise {A} e.

#[global] Instance result_ret : MRet result := fun A a => OK a.
#[global] Instance result_bind : MBind result := fun A B k m =>
  match m with
  | OK a => k a
  | Raise e => Raise e
  end.

(** [for x in l: body], threading an accumulator and stopping at the first
    exception. *)
Fixpoint for_each {A S : Type} (body : S -> A -> result S) (l : list A) (s : S)
  : result S :=
  match l with
  | [] => OK s
  | x :: l' => s' ← body s x; for_each body l' s'
  end.

(** A list comprehension [[f x for x in l]] whose element expression may
    raise. *)
Fixpoint map_result {A B : Type} (f : A -> result B) (l : list A)
  : result (list B) :=
  match l with
  | [] => OK []
  | x :: l' => y ← f x; ys ← map_result f l'; OK (y :: ys)
  end.

(** ** Values decoded from JSON *)

(** Python floats are IEEE 754 binary64 numbers. *)
Definition prec : Z := 53.
Definition emax : Z := 1024.
Definition float : Type := spec_float.

Inductive json : Type :=
| JNull
| JBool (b : bool)
| JInt (z : Z)
| JFloat (f : float)
| JStr (s : string)
| JArr (l : list json)
| JObj (d : list (string * json)).

(** A Python [dict] with string keys: bindings in insertion order, one per
    key. *)
Definition dict : Type := list (string * json).

Module Dict.

(** [d.get(k)], with [None] for Python's [None] default. *)
Fixpoint get (k : string) (d : dict) : option json :=
  match d with
  | [] => None
  | (k', v) :: d' => if String.eqb k' k then Some v else get k d'
  end.

(** [k in d] *)
Definition mem (k : string) (d : dict) : bool :=
  match get k d with Some _ => true | None => false end.

(** [d[k] = v]: an existing key keeps its position, a new key goes last. *)
Fixpoint set (k : string) (v : json) (d : dict) : dict :=
  match d with
  | [] => [(k, v)]
  | (k', v') :: d' =>
      if String.eqb k' k then (k, v) :: d' else (k', v') :: set k v d'
  end.

(** [del d[k]] for a key that is present, and the dictionary left by
    [d.pop(k)]. *)
Fixpoint remove (k : string) (d : dict) : dict :=
  match d with
  | [] => []
  | (k', v') :: d' =>
      if String.eqb k' k then d' else (k', v') :: remove k d'
  end.

Definition keys (d : dict) : list string := map fst d.

(** [d[k]] *)
Definition item (k : string) (d : dict) : result json :=
  match get k d with
  | Some v => OK v
  | None => Raise KeyError
  end.

End Dict.

(** [v[k]] for a string subscript [k]: only a dictionary accepts it. *)
Definition getitem (v : json) (k : string) : result json :=
  match v with
  | JObj d => Dict.item k d
  | _ => Raise TypeError
  end.

(** [v.get(k)]: an attribute of dictionaries only. *)
Definition dot_get (v : json) (k : string) : result (option json) :=
  match v with
  | JObj d => OK (Dict.get k d)
  | _ => Raise AttributeError
  end.

(** [v.items()] *)
Definition dot_items (v : json) : result dict :=
  match v with
  | JObj d => OK d
  | _ => Raise AttributeError
  end.

(** [v == s] for a string literal [s] *)
Definition eq_str (v : json) (s : string) : bool :=
  match v with
  | JStr s' => String.eqb s' s
  | _ => false
  end.

(** ** Texts *)

(** A text is kept as its UTF-8 bytes.  A lone surrogate, which [json.load]
    delivers from an escape such as [\ud800], has no UTF-8 form; it is kept
    as the three bytes the same scheme gives its code point. *)
Module Text.

(** The code points of a text: [acc] holds the bits read of a character of
    several bytes, [pending] the number of bytes it still lacks. *)
Fixpoint decode_from (acc : N) (pending : nat) (s : string) : list N :=
  match s with
  | EmptyString => []
  | String c s' =>
      let n := N_of_ascii c in
      match pending with
      | O =>
          if N.ltb n 128 then n :: decode_from 0 0 s'
          else if N.ltb n 224 then decode_from (n - 192) 1 s'
          else if N.ltb n 240 then decode_from (n - 224) 2 s'
          else decode_from (n - 240) 3 s'
      | S O => (acc * 64 + (n - 128))%N :: decode_from 0 0 s'
      | S p => decode_from (acc * 64 + (n - 128)) p s'
      end
  end.

Definition code_points (s : string) : list N := decode_from 0 0 s.

(** A byte that continues a character. *)
Definition is_continuation (c : ascii) : bool :=
  let n := N_of_ascii c in N.leb 128 n && N.ltb n 192.

(** The text goes on inside a character. *)
Definition continues (s : string) : bool :=
  match s with
  | String c _ => is_continuation c
  | EmptyString => false
  end.

(** The characters of a text, each as a text of its own. *)
Fixpoint characters (s : string) : list string :=
  match s with
  | EmptyString => []
  | String c s' =>
      match characters s' with
      | g :: gs =>
          if continues s' then String c g :: gs
          else String c EmptyString :: g :: gs
      | [] => [String c EmptyString]
      end
  end.

Definition is_surrogate (cp : N) : bool :=
  N.leb 55296 cp && N.leb cp 57343.

(** The text can be written to a file opened in text mode: the encoder
    (UTF-8, the default of [open] on the Linux container the scripts are
    written for) refuses surrogates and nothing else. *)
Definition encodable (s : string) : bool :=
  negb (existsb is_surrogate (code_points s)).

(** The interpreter refuses to convert between an [int] and a text of more
    digits than this (the default of
    [sys.int_info.default_max_str_digits]). *)
Definition max_str_digits : nat := 4300.

(** The integer has more digits than that. *)
Definition long_int (z : Z) : bool :=
  Z.leb (10 ^ Z.of_nat max_str_digits) (Z.abs z).

(** [str(v)] raises [ValueError]: [v] is an integer too long to print, or a
    list or dictionary that holds one at any depth ([str] of a container is
    the [repr] of its parts). *)
Fixpoint str_raises (v : json) : bool :=
  match v with
  | JInt z => long_int z
  | JArr l => existsb str_raises l
  | JObj d => existsb (fun kv => str_raises (snd kv)) d
  | _ => false
  end.

(** The text of [str(v)] cannot be encoded.  Only a text itself can hold a
    surrogate: the [repr] of a text inside a container escapes it. *)
Definition unencodable (v : json) : bool :=
  match v with
  | JStr s => negb (encodable s)
  | _ => false
  end.

End Text.

(** ** Python arithmetic on decoded numbers *)

Module Float.

Definition of_Z (z : Z) : float := binary_normalize prec emax z 0 false.

Definition mul : float -> float -> float := SFmul prec emax.
Definition add : float -> float -> float := SFadd prec emax.
Definition div : float -> float -> float := SFdiv prec emax.
Definition eqb : float -> float -> bool := SFeqb.

(** The quotient of two integers rounded once to the nearest float, as
    Python's true division of [int]s computes it.  A zero dividend is
    handled apart; the divisor is positive in every use. *)
Definition of_quotient (a b : Z) : float :=
  match a, b with
  | Z0, _ => S754_zero false
  | Zpos p, Zpos q => div (S754_finite false p 0) (S754_finite false q 0)
  | Zneg p, Zpos q => div (S754_finite true p 0) (S754_finite false q 0)
  | Zpos p, Zneg q => div (S754_finite false p 0) (S754_finite true q 0)
  | Zneg p, Zneg q => div (S754_finite true p 0) (S754_finite true q 0)
  | _, Z0 => S754_nan
  end.

(** The integer nearest to [m * 2^e], ties to the even one. *)
Definition round_half_even (m : positive) (e : Z) : Z :=
  match e with
  | Zneg d =>
      let unit := Z.pow_pos 2 d in
      let q := Z.pos m / unit in
      let r := Z.pos m mod unit in
      match 2 * r ?= unit with
      | Lt => q
      | Gt => q + 1
      | Eq => if Z.even q then q else q + 1
      end
  | _ => Z.pos m * 2 ^ e
  end.

End Float.

(** [float(n)] for an [int]: the nearest float, or [OverflowError]. *)
Definition int_to_float (z : Z) : result float :=
  match Float.of_Z z with
  | S754_infinity _ => Raise OverflowError
  | f => OK f
  end.

(** [a / b] for two [int]s with [b] non-zero. *)
Definition int_truediv (a b : Z) : result float :=
  match Float.of_quotient a b with
  | S754_infinity _ => Raise OverflowError
  | f => OK f
  end.

Definition Z_of_bool (b : bool) : Z := if b then 1 else 0.

(** [v / 1_000_000] *)
Definition truediv_million (v : json) : result float :=
  match v with
  | JInt z => int_truediv z 1000000
  | JBool b => int_truediv (Z_of_bool b) 1000000
  | JFloat f => OK (Float.div f (Float.of_Z 1000000))
  | _ => Raise TypeError
  end.

(** [v * f] for a float [f] *)
Definition mul_float (v : json) (f : float) : result float :=
  match v with
  | JInt z => x ← int_to_float z; OK (Float.mul x f)
  | JBool b => x ← int_to_float (Z_of_bool b); OK (Float.mul x f)
  | JFloat x => OK (Float.mul x f)
  | _ => Raise TypeError
  end.

(** [round(f)] with one argument: the nearest integer, ties to even. *)
Definition py_round (f : float) : result Z :=
  match f with
  | S754_zero _ => OK 0
  | S754_finite false m e => OK (Float.round_half_even m e)
  | S754_finite true m e => OK (- Float.round_half_even m e)
  | S754_infinity _ => Raise OverflowError
  | S754_nan => Raise ValueError
  end.

(** [a += b].  Numbers add as numbers ([bool] counts as [int]; an [int] met
    by a float is converted first), strings and lists concatenate, a list is
    extended by the items of a string or the keys of a dictionary; every other
    pair of operands is a [TypeError]. *)
Definition as_int (v : json) : option Z :=
  match v with
  | JInt z => Some z
  | JBool b => Some (Z_of_bool b)
  | _ => None
  end.

Definition as_float (v : json) : option (result float) :=
  match v with
  | JInt z => Some (int_to_float z)
  | JBool b => Some (int_to_float (Z_of_bool b))
  | JFloat f => Some (OK f)
  | _ => None
  end.

(** The items of a text: its characters. *)
Definition chars (s : string) : list json := map JStr (Text.characters s).

Definition py_iadd (a b : json) : result json :=
  match as_int a, as_int b with
  | Some x, Some y => OK (JInt (x + y))
  | _, _ =>
      match as_float a, as_float b with
      | Some x, Some y => fx ← x; fy ← y; OK (JFloat (Float.add fx fy))
      | _, _ =>
          match a, b with
          | JStr x, JStr y => OK (JStr (x ++ y))
          | JArr x, JArr y => OK (JArr (x ++ y))
          | JArr x, JStr y => OK (JArr (x ++ chars y))
          | JArr x, JObj y => OK (JArr (x ++ map (fun kv => JStr (fst kv)) y))
          | _, _ => Raise TypeError
          end
      end
  end.

(** [v == True] *)
Definition eq_True (v : json) : bool :=
  match v with
  | JBool b => b
  | JInt z => Z.eqb z 1
  | JFloat f => Float.eqb f (Float.of_Z 1)
  | _ => false
  end.

(** [for x in v]: the items a loop over [v] visits. *)
Definition iter (v : json) : result (list json) :=
  match v with
  | JArr l => OK l
  | JStr s => OK (chars s)
  | JObj d => OK (map (fun kv => JStr (fst kv)) d)
  | _ => Raise TypeError
  end.

(** [k in v] for a string [k] *)
Definition contains (v : json) (k : string) : result bool :=
  match v with
  | JObj d => OK (Dict.mem k d)
  | JArr l => OK (existsb (fun x => eq_str x k) l)
  | JStr s => OK (match String.index 0 k s with Some _ => true | None => false end)
  | _ => Raise TypeError
  end.

(** ** input_processing.py: the transformations *)

Module Input.

(** *** Process Subadmin Areas *)

(** The body of the loop that builds [subadmin_areas_data]. *)
Definition subadmin_area_dict (sa : json) : result dict :=
  id ← getitem sa "_id";
  let d := Dict.set "_id" id [] in
  name ← getitem sa "name";
  let d := Dict.set "name" name d in
  full_name ← getitem sa "full_name";
  let d := Dict.set "full_name" full_name d in
  aland ← getitem sa "aland";
  OK (Dict.set "aland" aland d).

Definition subadmin_areas_data (subadmin_areas : list json)
  : result (list dict) :=
  map_result subadmin_area_dict subadmin_areas.

(** *** Process Demography: density conversion *)

Definition deer_density : string := "deer density".
Definition converted_metric : string :=
  "total population (converted from density)".

(** [sa.get('_id') == sa_id] *)
Definition id_matches (sa : dict) (sa_id : string) : bool :=
  match Dict.get "_id" sa with
  | Some i => eq_str i sa_id
  | None => false
  end.

(** [int(round(original_density_value * (sa['aland'] / 1_000_000)))] *)
Definition new_total_population (sa : dict) (original_density_value : json)
  : result Z :=
  aland ← Dict.item "aland" sa;
  aland_sq_km ← truediv_million aland;
  product ← mul_float original_density_value aland_sq_km;
  py_round product.

(** The scan [for sa in subadmin_areas_data] for one data point: the first
    area whose [_id] is [sa_id] converts the value and ends the scan. *)
Fixpoint convert_data_point (areas : list dict) (sa_id : string)
    (original_density_value : json) (data : dict) : result dict :=
  match areas with
  | [] => OK data
  | sa :: areas' =>
      if id_matches sa sa_id then
        n ← new_total_population sa original_density_value;
        OK (Dict.set sa_id (JInt n) data)
      else convert_data_point areas' sa_id original_density_value data
  end.

(** [for sa_id, original_density_value in demo['data'].items()].  The loop
    assigns only to the key it is visiting, so the items it visits are those
    the dictionary had on entry. *)
Definition convert_data (areas : list dict) (data : dict) : result dict :=
  for_each (fun d kv => convert_data_point areas (fst kv) (snd kv) d)
           data data.

(** The body of the first [for demo in demography] loop. *)
Definition convert_demo (areas : list dict) (demo : json) : result json :=
  metric ← dot_get demo "metric";
  match metric with
  | Some m =>
      if eq_str m deer_density then
        data ← getitem demo "data";
        items ← dot_items data;
        data' ← convert_data areas items;
        match demo with
        | JObj d =>
            OK (JObj (Dict.set "metric" (JStr converted_metric)
                        (Dict.set "data" (JObj data') d)))
        | _ => Raise AttributeError
        end
      else OK demo
  | None => OK demo
  end.

Definition convert_demography (areas : list dict) (demography : list json)
  : result (list json) :=
  map_result (convert_demo areas) demography.

(** *** Process Demography: totals per sub-administrative area *)

(** The body of the inner loop of the summation. *)
Definition add_data_point (totals : dict) (kv : string * json)
  : result dict :=
  let (key, value) := kv in
  match Dict.get key totals with
  | Some total => total' ← py_iadd total value; OK (Dict.set key total' totals)
  | None => OK (Dict.set key value totals)
  end.

Definition add_demo (totals : dict) (demo : json) : result dict :=
  data ← getitem demo "data";
  items ← dot_items data;
  for_each add_data_point items totals.

Definition demography_data_dict (demography : list json) : result dict :=
  for_each add_demo demography [].

Definition demography_row (kv : string * json) : dict :=
  [("_id", JStr (fst kv)); ("value", snd kv)].

Definition demography_data (demography : list json) : result (list dict) :=
  totals ← demography_data_dict demography;
  OK (map demography_row totals).

(** *** Process Samples *)

(** [[test for test in tests if test["selected_definitive"] == True]] *)
Fixpoint tests_selected_definitive (tests : list json) : result (list json) :=
  match tests with
  | [] => OK []
  | test :: tests' =>
      flag ← getitem test "selected_definitive";
      rest ← tests_selected_definitive tests';
      OK (if eq_True flag then test :: rest else rest)
  end.

(** [test["result"] if "result" in test else None] *)
Definition result_of_test (test : json) : result json :=
  has ← contains test "result";
  if (has : bool) then getitem test "result" else OK JNull.

Definition resolve_result (sample_record : dict) : result dict :=
  tests ← Dict.item "tests" sample_record;
  tests ← iter tests;
  selected ← tests_selected_definitive tests;
  if Nat.eqb (length selected) 0 then
    OK (Dict.set "result" JNull sample_record)
  else if Nat.ltb 1 (length selected) then
    OK sample_record
  else if Nat.eqb (length selected) 1 then
    match selected with
    | test :: _ =>
        r ← result_of_test test;
        OK (Dict.set "result" r sample_record)
    | [] => OK sample_record
    end
  else OK sample_record.

Definition resolve_area (sample_record : dict) : result dict :=
  match Dict.get "_sub_administrative_area" sample_record with
  | Some area =>
      has ← contains area "_id";
      if (has : bool) then
        id ← getitem area "_id";
        OK (Dict.set "sub_administrative_area_id" id sample_record)
      else OK (Dict.set "sub_administrative_area_id" JNull sample_record)
  | None => OK (Dict.set "sub_administrative_area_id" JNull sample_record)
  end.

(** [rename_key(dict_, old_key, new_key)] *)
Definition rename_key (dict_ : dict) (old_key new_key : string) : dict :=
  match Dict.get old_key dict_ with
  | Some v => Dict.set new_key v (Dict.remove old_key dict_)
  | None => dict_
  end.

(** The body of [for sample_record in sample_data]. *)
Definition process_sample (sample_record : json) : result dict :=
  match sample_record with
  | JObj r =>
      r ← resolve_result r;
      r ← resolve_area r;
      OK (if Dict.mem "_id" r then rename_key r "_id" "id" else r)
  | _ => Raise TypeError
  end.

Definition process_samples (sample_data : list json) : result (list dict) :=
  map_result process_sample sample_data.

End Input.

(** ** The csv writer *)

(** [csv.DictWriter] is built in all four places with
    [quoting = csv.QUOTE_NONNUMERIC] and [extrasaction = 'ignore'] and the
    default [restval] (the empty string); only [fieldnames] varies. *)
Module Csv.

(** One field of a written line.  The text of a float, a list or a
    dictionary is Python's [str] of it and is kept symbolic. *)
Inductive cell : Type :=
| Quoted (text : string)
| QuotedStr (v : json)
| Bare (v : json).

(** What the writer does with one field under [QUOTE_NONNUMERIC]: a field is
    quoted unless it is a number ([int], [float], [bool]); [None] gives the
    empty text. *)
Definition is_number (v : json) : bool :=
  match v with
  | JInt _ | JFloat _ | JBool _ => true
  | _ => false
  end.

Definition field (v : json) : cell :=
  match v with
  | JNull => Quoted EmptyString
  | JStr s => Quoted s
  | JInt _ | JFloat _ | JBool _ => Bare v
  | JArr _ | JObj _ => QuotedStr v
  end.

Definition is_quoted (c : cell) : bool :=
  match c with
  | Quoted _ | QuotedStr _ => true
  | Bare _ => false
  end.

Definition quotechar : ascii := ascii_of_nat 34.

(** Quote characters inside a quoted field are doubled. *)
Fixpoint escape (s : string) : string :=
  match s with
  | EmptyString => EmptyString
  | String c s' =>
      if Ascii.eqb c quotechar then String c (String c (escape s'))
      else String c (escape s')
  end.

(** The characters of a field, where no [str] of a float or a container is
    needed. *)
Definition render (c : cell) : option string :=
  match c with
  | Quoted s =>
      Some (String quotechar (escape s ++ String quotechar EmptyString))
  | Bare (JInt z) => Some (DecimalString.NilZero.string_of_int (Z.to_int z))
  | Bare (JBool true) => Some "True"
  | Bare (JBool false) => Some "False"
  | _ => None
  end.

(** [rowdict.get(key, restval) for key in fieldnames] *)
Definition dict_to_list (fieldnames : list string) (rowdict : dict)
  : list json :=
  map (fun key => default (JStr EmptyString) (Dict.get key rowdict))
      fieldnames.

Definition writeheader (fieldnames : list string) : list cell :=
  map (fun key => field (JStr key)) fieldnames.

Definition writerow (fieldnames : list string) (rowdict : dict)
  : list cell :=
  map field (dict_to_list fieldnames rowdict).

Definition writerows (fieldnames : list string) (rowdicts : list dict)
  : list (list cell) :=
  map (writerow fieldnames) rowdicts.

(** Why a row cannot be written.  The writer asks [str] of every field that
    is neither text nor [None], in the order of the columns, and hands the
    finished line to the file, which encodes it: an integer too long to
    print is a [ValueError], and after that a text with a surrogate is a
    [UnicodeEncodeError].  Nothing of such a row reaches the file. *)
Definition row_error (fieldnames : list string) (rowdict : dict)
  : option exn :=
  let values := dict_to_list fieldnames rowdict in
  if existsb Text.str_raises values then Some ValueError
  else if existsb Text.unencodable values then Some UnicodeEncodeError
  else None.

(** [writer.writerows(rowdicts)]: the lines that reach the file, and the
    exception of the first row that cannot be written, after which no row
    is tried. *)
Fixpoint written (fieldnames : list string) (rowdicts : list dict)
  : list (list cell) * option exn :=
  match rowdicts with
  | [] => ([], None)
  | rowdict :: rowdicts' =>
      match row_error fieldnames rowdict with
      | Some e => ([], Some e)
      | None =>
          let (lines, failure) := written fieldnames rowdicts' in
          (writerow fieldnames rowdict :: lines, failure)
      end
  end.

End Csv.

(** ** Files, logs and the script monad *)

(** A piece of a formatted line: text of the script itself (a literal, or
    the date from the clock), [str] of a value interpolated by an f-string,
    or the description of an exception. *)
Inductive piece : Type :=
| PStr (s : string)
| PVal (v : json)
| PExn (e : exn).

Definition line : Type := list piece.

Inductive level : Type := INFO | ERROR.

(** The contents of a file under [base_path], by the reader or writer that
    understands it. *)
Inductive file : Type :=
| FJson (v : json)
| FNdjson (records : list json)
| FTable (rows : list dict)
| FCsv (lines : list (list Csv.cell)).

Record world : Type := mkWorld {
  files : gmap string file;
  info_html : list (string * line);
  execution_log : list (level * line);
  stdout : list line
}.

Definition script (A : Type) : Type := world -> result A * world.

#[global] Instance script_ret : MRet script := fun A a w => (OK a, w).
#[global] Instance script_bind : MBind script := fun A B k m w =>
  match m w with
  | (OK a, w') => k a w'
  | (Raise e, w') => (Raise e, w')
  end.

Definition lift {A : Type} (r : result A) : script A := fun w => (r, w).

Definition raise {A : Type} (e : exn) : script A := fun w => (Raise e, w).

(** [sys.exit(code)] *)
Definition sys_exit {A : Type} (code : Z) : script A := raise (SystemExit code).

(** [try: body / except <class>: handler], for the classes [catches]
    accepts. *)
Definition try_except {A : Type} (body : script A) (catches : exn -> bool)
    (handler : exn -> script A) : script A :=
  fun w =>
    match body w with
    | (Raise e, w') => if catches e then handler e w' else (Raise e, w')
    | r => r
    end.

Definition is_FileNotFoundError (e : exn) : bool :=
  match e with FileNotFoundError => true | _ => false end.

(** [except Exception]: every class but [SystemExit]. *)
Definition is_Exception (e : exn) : bool :=
  match e with SystemExit _ => false | _ => true end.

Definition open_read (name : string) : script file :=
  fun w =>
    match files w !! name with
    | Some f => (OK f, w)
    | None => (Raise FileNotFoundError, w)
    end.

Definition write_file (name : string) (f : file) : script unit :=
  fun w =>
    (OK tt, mkWorld (<[name := f]> (files w)) (info_html w)
                    (execution_log w) (stdout w)).

Definition json_load (f : file) : result json :=
  match f with
  | FJson v => OK v
  | _ => Raise JSONDecodeError
  end.

Definition ndjson_load (f : file) : result (list json) :=
  match f with
  | FNdjson l => OK l
  | _ => Raise JSONDecodeError
  end.

(** [list(csv.DictReader(f))]: the rows of a delimited table, one dictionary
    per row. *)
Definition DictReader (f : file) : result (list dict) :=
  match f with
  | FTable rows => OK rows
  | _ => Raise CsvError
  end.

Definition logging (lv : level) (msg : line) : script unit :=
  fun w =>
    (OK tt, mkWorld (files w) (info_html w)
                    (execution_log w ++ [(lv, msg)]) (stdout w)).

Definition print (msg : line) : script unit :=
  fun w =>
    (OK tt, mkWorld (files w) (info_html w) (execution_log w)
                    (stdout w ++ [msg])).

(** Why a line cannot be written: [str] of an interpolated value raises
    while the line is put together, or the file cannot encode the finished
    line. *)
Definition piece_raises (p : piece) : bool :=
  match p with
  | PVal v => Text.str_raises v
  | _ => false
  end.

Definition piece_unencodable (p : piece) : bool :=
  match p with
  | PVal v => Text.unencodable v
  | _ => false
  end.

Definition line_error (l : line) : option exn :=
  if existsb piece_raises l then Some ValueError
  else if existsb piece_unencodable l then Some UnicodeEncodeError
  else None.

(** [model_log_html(line, html_element)]: one more line of info.html, or
    none when the line cannot be written. *)
Definition model_log_html (l : line) (html_element : string) : script unit :=
  fun w =>
    match line_error l with
    | Some e => (Raise e, w)
    | None =>
        (OK tt, mkWorld (files w) (info_html w ++ [(html_element, l)])
                        (execution_log w) (stdout w))
    end.

Definition attachments_json_path : string := "attachments.json".

(** [add_item_to_json_file_list(file_path, new_item)] *)
Definition add_item_to_json_file_list (file_path : string) (new_item : json)
  : script unit :=
  try_except
    (f ← open_read file_path;
     data ← lift (json_load f);
     match data with
     | JArr l => write_file file_path (FJson (JArr (l ++ [new_item])))
     | _ => raise ValueError
     end)
    (fun e => match e with
              | FileNotFoundError | JSONDecodeError | ValueError
              | UnicodeEncodeError => true
              | _ => false
              end)
    (fun e =>
       match e with
       | FileNotFoundError =>
           print [PStr "Error: File '"; PStr file_path; PStr "' not found."]
       | JSONDecodeError =>
           print [PStr "Error: Invalid JSON in '"; PStr file_path; PStr "'."]
       | _ => print [PStr "Error: "; PExn e]
       end;;
       raise e).

(** An entry of the attachments list. *)
Definition attachment (filename content_type role : string) : json :=
  JObj [("filename", JStr filename); ("content_type", JStr content_type);
        ("role", JStr role)].

(** The process: run the script; [sys.exit] gives its status, an exception
    nobody caught goes to the hook installed as [sys.excepthook] and the
    interpreter ends with status 1. *)
Definition run (excepthook : exn -> script unit) (main : script unit)
    (w : world) : Z * world :=
  match main w with
  | (OK _, w') => (0, w')
  | (Raise (SystemExit code), w') => (code, w')
  | (Raise e, w') => (1, snd (excepthook e w'))
  end.

(** ** input_processing.py: the script *)

Module InputScript.

Import Input.

Definition parameters_file_path : string := "params.json".
Definition subadmin_file_path : string := "sub_administrative_area.ndJson".
Definition sample_file_path : string := "sample.ndJson".
Definition demography_file_path : string := "demography.ndJson".

Definition subadmin_csv : string := "sub_administrative_area.csv".
Definition demography_csv : string := "demography.csv".
Definition sample_csv : string := "sample.csv".
Definition params_csv : string := "params.csv".

Definition subadmin_fieldnames : list string :=
  ["_id"; "full_name"; "name"; "aland"].
Definition demography_fieldnames : list string := ["_id"; "value"].
Definition sample_fieldnames : list string :=
  ["id"; "species"; "sample_source"; "season_year"; "age_group"; "sex";
   "result"; "sub_administrative_area_id"].
Definition params_fieldnames : list string := ["alpha"; "sensitivity"].

Definition newline : string := String (ascii_of_nat 10) EmptyString.

Fixpoint spaces (n : nat) : string :=
  match n with
  | O => EmptyString
  | S n' => String (ascii_of_nat 32) (spaces n')
  end.

(** [format_helper] of [json_stringify], one (key, value) item at a time;
    the result is the list of lines.  The key and the value are interpolated
    into the line. *)
Fixpoint format_item (indent lvl : nat) (key : string) (value : json)
  {struct value} : list line :=
  match value with
  | JObj d =>
      [PStr (spaces lvl); PVal (JStr key); PStr ":"]
      :: (fix format_helper (data : list (string * json)) : list line :=
            match data with
            | [] => []
            | (k, v) :: data' =>
                (format_item indent (lvl + indent) k v ++ format_helper data')%list
            end) d
  | _ => [[PStr (spaces lvl); PVal (JStr key); PStr ": "; PVal value]]
  end.

Definition format_helper (indent lvl : nat) (data : dict) : list line :=
  flat_map (fun kv => format_item indent lvl (fst kv) (snd kv)) data.

(** ['\n'.join(lines)] *)
Fixpoint join_lines (ls : list line) : line :=
  match ls with
  | [] => []
  | [l] => l
  | l :: ls' => (l ++ PStr newline :: join_lines ls')%list
  end.

Definition json_stringify (data : dict) : line :=
  join_lines (format_helper 3 3 data).

(** [sys.excepthook] of this script *)
Definition handle_uncaught_exception (e : exn) : script unit :=
  logging ERROR [PStr "Uncaught exception:"; PExn e].

(** SETUP FILE STRUCTURE and SETUP LOGGING.  The log file is opened with
    mode ['w'] and info.html is emptied. *)
Definition setup (now_html now_log : string) : script unit :=
  write_file attachments_json_path (FJson (JArr []));;
  add_item_to_json_file_list attachments_json_path
    (attachment "execution_log.log" "text/plain" "downloadable");;
  add_item_to_json_file_list attachments_json_path
    (attachment "info.html" "text/html" "feedback");;
  (fun w => (OK tt, mkWorld (files w) [] [] (stdout w)));;
  model_log_html [PStr "Model Execution Summary"] "h3";;
  model_log_html [PStr "Model: Simple Undetected Prevalence Estimator Model"]
                 "p";;
  model_log_html [PStr ("Date: " ++ now_html ++ " GMT")] "p";;
  logging INFO [PStr "Model: Simple Undetected Prevalence Estimator Model"];;
  logging INFO [PStr ("Date: " ++ now_log ++ " GMT")];;
  logging INFO [PStr "This log records data for debugging purposes in the case of a model execution error."].

(** Process Parameters: the parameter set with [_provider] removed. *)
Definition process_parameters : script dict :=
  params ← try_except
    (f ← open_read parameters_file_path;
     params ← lift (json_load f);
     logging INFO [PStr "Parameter file loaded successfully"];;
     mret params)
    is_FileNotFoundError
    (fun _ =>
       logging ERROR [PStr "params.json File does not exist."];;
       model_log_html [PStr "ERROR"] "h4";;
       model_log_html [PStr "Parameters (params.json) file not found."] "p";;
       sys_exit 1);
  provider_admin_area ← lift (
    provider ← getitem params "_provider";
    area ← getitem provider "_administrative_area";
    getitem area "administrative_area");
  model_log_html [PStr "Provider area: "; PVal provider_admin_area] "p";;
  match params with
  | JObj d =>
      let params := Dict.remove "_provider" d in
      model_log_html [PStr "User provided parameters"] "h4";;
      model_log_html (json_stringify params) "p";;
      mret params
  | _ => raise TypeError
  end.

(** [with open(name, 'w', newline='') as f], [writeheader] and
    [writerows]: the file is emptied and receives the header, then the rows
    one by one; when a row cannot be written the file is closed with the
    lines before it and the exception goes on. *)
Definition write_csv (name : string) (fieldnames : list string)
    (rowdicts : list dict) : script unit :=
  let (lines, failure) := Csv.written fieldnames rowdicts in
  write_file name (FCsv (Csv.writeheader fieldnames :: lines));;
  match failure with
  | Some e => raise e
  | None => mret tt
  end.

(** Process Subadmin Areas *)
Definition process_subadmin_areas : script (list dict) :=
  subadmin_areas ← try_except
    (f ← open_read subadmin_file_path;
     l ← lift (ndjson_load f);
     logging INFO
       [PStr "sub_administrative_area.ndJson file loaded successfully"];;
     mret l)
    is_FileNotFoundError
    (fun _ =>
       logging ERROR
         [PStr "sub_administrative_area.ndJson File does not exist."];;
       model_log_html [PStr "ERROR"] "h4";;
       model_log_html
         [PStr "Subadmin areas (sub_administrative_area.ndJson) file was expected but not found."]
         "p";;
       sys_exit 1);
  areas ← lift (subadmin_areas_data subadmin_areas);
  write_csv subadmin_csv subadmin_fieldnames areas;;
  mret areas.

(** A value interpolated into an f-string: [str] of it is taken at once. *)
Definition interpolate (v : json) : result piece :=
  if Text.str_raises v then Raise ValueError else OK (PVal v).

(** The line of info.html that names one demography record; each field is
    looked up and interpolated before the next one is looked up. *)
Definition log_demo (demo : json) : script unit :=
  species ← lift (getitem demo "species" ≫= interpolate);
  metric ← lift (getitem demo "metric" ≫= interpolate);
  season_year ← lift (getitem demo "season_year" ≫= interpolate);
  model_log_html [species; PStr " "; metric;
                  PStr " for season-year "; season_year] "p".

Fixpoint log_demography (demography : list json) : script unit :=
  match demography with
  | [] => mret tt
  | demo :: rest => log_demo demo;; log_demography rest
  end.

(** Process Demography *)
Definition process_demography (areas : list dict) : script unit :=
  demography ← try_except
    (f ← open_read demography_file_path;
     l ← lift (ndjson_load f);
     logging INFO [PStr "Demography file loaded successfully"];;
     mret l)
    is_FileNotFoundError
    (fun _ =>
       logging ERROR [PStr "demography.json file does not exist."];;
       model_log_html [PStr "ERROR"] "h4";;
       model_log_html
         [PStr "Demography (demography.json) file was expected but not found."]
         "p";;
       sys_exit 1);
  demography ← lift (convert_demography areas demography);
  rows ← lift (demography_data demography);
  model_log_html [PStr "Demographic data"] "h4";;
  log_demography demography;;
  write_csv demography_csv demography_fieldnames rows.

(** Process Samples *)
Definition process_sample_file : script unit :=
  sample_data ← try_except
    (f ← open_read sample_file_path;
     l ← lift (ndjson_load f);
     logging INFO [PStr "Sample file loaded successfully"];;
     mret l)
    is_FileNotFoundError
    (fun _ =>
       logging ERROR [PStr "sample.ndJjon File does not exist."];;
       model_log_html [PStr "ERROR"] "h4";;
       model_log_html
         [PStr "Sample (sample.ndJson) file was expected but not found."]
         "p";;
       sys_exit 1);
  sample_data ← lift (process_samples sample_data);
  write_csv sample_csv sample_fieldnames sample_data.

(** The script from top to bottom.  The two strings are what the clock
    gives for the two date lines. *)
Definition main (now_html now_log : string) : script unit :=
  setup now_html now_log;;
  params ← process_parameters;
  areas ← process_subadmin_areas;
  process_demography areas;;
  process_sample_file;;
  write_csv params_csv params_fieldnames [params].

Definition input_processing (now_html now_log : string) (w : world)
  : Z * world :=
  run handle_uncaught_exception (main now_html now_log) w.

End InputScript.

(** ** Python's [int()] and [float()] *)

(** The two constructors on texts: surrounding white space is dropped, a
    sign may lead, digits may be grouped by single underscores.  Both read a
    text that is not all ASCII through a translation first: a white-space
    character outside ASCII counts as a space and a decimal digit of any
    script as the ASCII digit of its value. *)
Module Parse.

(** The white space outside ASCII ([str.isspace]). *)
Definition is_unicode_space (cp : N) : bool :=
  existsb (N.eqb cp) [133; 160; 5760; 8232; 8233; 8239; 8287; 12288]%N
  || (N.leb 8192 cp && N.leb cp 8202).

(** The first code point of each run of ten decimal digits, zero to nine
    (the characters of category Nd of Unicode 14.0, which Python 3.11
    carries). *)
Definition decimal_digit_zeros : list N :=
  [1632; 1776; 1984; 2406; 2534; 2662; 2790; 2918; 3046; 3174; 3302;
   3430; 3558; 3664; 3792; 3872; 4160; 4240; 6112; 6160; 6470; 6608;
   6784; 6800; 6992; 7088; 7232; 7248; 42528; 43216; 43264; 43472;
   43504; 43600; 44016; 65296; 66720; 68912; 69734; 69872; 69942; 70096;
   70384; 70736; 70864; 71248; 71360; 71472; 71904; 72016; 72784; 73040;
   73120; 92768; 92864; 93008; 120782; 120792; 120802; 120812; 120822;
   123200; 123632; 125264; 130032]%N.

Definition decimal_value (cp : N) : option N :=
  match List.find (fun zero => N.leb zero cp && N.ltb cp (zero + 10))
                  decimal_digit_zeros with
  | Some zero => Some (cp - zero)%N
  | None => None
  end.

Definition question_mark : ascii := ascii_of_nat 63.

(** What the parsers read for one character. *)
Definition translate (cp : N) : ascii :=
  if N.ltb cp 128 then ascii_of_N cp
  else if is_unicode_space cp then ascii_of_nat 32
  else match decimal_value cp with
       | Some d => ascii_of_N (48 + d)
       | None => question_mark
       end.

Definition translated (s : string) : list ascii :=
  map translate (Text.code_points s).

Definition is_space (c : ascii) : bool :=
  let n := nat_of_ascii c in
  (Nat.leb 9 n && Nat.leb n 13) || Nat.eqb n 32.

Fixpoint lstrip (s : list ascii) : list ascii :=
  match s with
  | c :: s' => if is_space c then lstrip s' else s
  | [] => []
  end.

Definition strip (s : list ascii) : list ascii :=
  rev (lstrip (rev (lstrip s))).

Definition digit (c : ascii) : option Z :=
  let n := nat_of_ascii c in
  if Nat.leb 48 n && Nat.leb n 57 then Some (Z.of_nat (n - 48)) else None.

Definition underscore : ascii := ascii_of_nat 95.

(** The rest of a digit part: [(["_"] digit)*].  Returns the value read so
    far, the number of digits read and what is left. *)
Fixpoint digits_rest (acc : Z) (count : nat) (s : list ascii)
  : Z * nat * list ascii :=
  match s with
  | c :: s' =>
      match digit c with
      | Some d => digits_rest (10 * acc + d) (S count) s'
      | None =>
          if Ascii.eqb c underscore then
            match s' with
            | c2 :: s'' =>
                match digit c2 with
                | Some d => digits_rest (10 * acc + d) (S count) s''
                | None => (acc, count, s)
                end
            | [] => (acc, count, s)
            end
          else (acc, count, s)
      end
  | [] => (acc, count, [])
  end.

(** [digit (["_"] digit)*] *)
Definition digitpart (s : list ascii) : option (Z * nat * list ascii) :=
  match s with
  | c :: s' =>
      match digit c with
      | Some d => Some (digits_rest d 1 s')
      | None => None
      end
  | [] => None
  end.

(** An optional sign: [true] for a minus. *)
Definition sign (s : list ascii) : bool * list ascii :=
  match s with
  | c :: s' =>
      if Ascii.eqb c (ascii_of_nat 45) then (true, s')
      else if Ascii.eqb c (ascii_of_nat 43) then (false, s')
      else (false, s)
  | [] => (false, [])
  end.

Definition int_of_string (s : string) : option Z :=
  let (neg, body) := sign (strip (translated s)) in
  match digitpart body with
  | Some (v, count, []) =>
      if Nat.ltb Text.max_str_digits count then None
      else Some (if neg then - v else v)
  | _ => None
  end.

Definition lower (c : ascii) : ascii :=
  let n := nat_of_ascii c in
  if Nat.leb 65 n && Nat.leb n 90 then ascii_of_nat (n + 32) else c.

Definition is_dot (c : ascii) : bool := Ascii.eqb c (ascii_of_nat 46).
Definition is_e (c : ascii) : bool := Ascii.eqb (lower c) (ascii_of_nat 101).

(** [[digitpart] "." digitpart | digitpart ["."]]: the digits as one
    integer, how many of them follow the point, and what is left. *)
Definition number (s : list ascii) : option (Z * nat * list ascii) :=
  match s with
  | c :: s' =>
      if is_dot c then
        match digitpart s' with
        | Some (v, n, rest) => Some (v, n, rest)
        | None => None
        end
      else
        match digitpart s with
        | Some (v, _, c2 :: rest) =>
            if is_dot c2 then
              match rest with
              | c3 :: rest' =>
                  match digit c3 with
                  | Some d =>
                      let '(v', n, rest'') := digits_rest (10 * v + d) 1 rest'
                      in Some (v', n, rest'')
                  | None => Some (v, O, rest)
                  end
              | [] => Some (v, O, [])
              end
            else Some (v, O, c2 :: rest)
        | Some (v, _, []) => Some (v, O, [])
        | None => None
        end
  | [] => None
  end.

(** [("e" | "E") [sign] digitpart], absent when nothing is left. *)
Definition exponent (s : list ascii) : option Z :=
  match s with
  | [] => Some 0
  | c :: s' =>
      if is_e c then
        let (neg, body) := sign s' in
        match digitpart body with
        | Some (v, _, []) => Some (if neg then - v else v)
        | _ => None
        end
      else None
  end.

(** The float nearest to [m * 10^e]. *)
Definition decimal (neg : bool) (m e : Z) : float :=
  let m := if neg then - m else m in
  match m with
  | Z0 => S754_zero neg
  | _ =>
      if Z.leb 0 e then Float.of_Z (m * 10 ^ e)
      else Float.of_quotient m (10 ^ (- e))
  end.

Definition float_of_string (s : string) : option float :=
  let (neg, body) := sign (strip (translated s)) in
  let word := string_of_list_ascii (map lower body) in
  if String.eqb word "inf" || String.eqb word "infinity" then
    Some (S754_infinity neg)
  else if String.eqb word "nan" then Some S754_nan
  else
    match number body with
    | Some (m, n, rest) =>
        match exponent rest with
        | Some e => Some (decimal neg m (e - Z.of_nat n))
        | None => None
        end
    | None => None
    end.

End Parse.

(** The integer part of [m * 2^e], as [int()] of a float keeps it. *)
Definition truncate (m : positive) (e : Z) : Z :=
  match e with
  | Zneg d => Z.pos m / Z.pow_pos 2 d
  | _ => Z.pos m * 2 ^ e
  end.

(** [int(v)] *)
Definition py_int (v : json) : result Z :=
  match v with
  | JStr s =>
      match Parse.int_of_string s with
      | Some z => OK z
      | None => Raise ValueError
      end
  | JInt z => OK z
  | JBool b => OK (Z_of_bool b)
  | JFloat (S754_zero _) => OK 0
  | JFloat (S754_finite false m e) => OK (truncate m e)
  | JFloat (S754_finite true m e) => OK (- truncate m e)
  | JFloat (S754_infinity _) => Raise OverflowError
  | JFloat S754_nan => Raise ValueError
  | _ => Raise TypeError
  end.

(** [float(v)] *)
Definition py_float (v : json) : result float :=
  match v with
  | JStr s =>
      match Parse.float_of_string s with
      | Some f => OK f
      | None => Raise ValueError
      end
  | JInt z => int_to_float z
  | JBool b => int_to_float (Z_of_bool b)
  | JFloat f => OK f
  | _ => Raise TypeError
  end.

(** ** output_processing.py *)

Module Output.

Definition text_fields : list string :=
  ["SubAdminID"; "SubAdminName"; "Result"].
Definition integer_fields : list string := ["n"; "N"].
Definition float_fields : list string := ["bayes"; "freq"; "freq.se"].

(** The bodies of the three inner loops.  [except ValueError] turns a
    failed parse into [None]; any other exception goes on. *)
Definition coerce_text (each_row : dict) (each_field : string)
  : result dict :=
  v ← Dict.item each_field each_row;
  if eq_str v "NA" then OK (Dict.set each_field JNull each_row)
  else OK each_row.

Definition coerce_integer (each_row : dict) (each_field : string)
  : result dict :=
  v ← Dict.item each_field each_row;
  if eq_str v "NA" then OK (Dict.set each_field JNull each_row)
  else
    match py_int v with
    | OK z => OK (Dict.set each_field (JInt z) each_row)
    | Raise ValueError => OK (Dict.set each_field JNull each_row)
    | Raise e => Raise e
    end.

Definition coerce_float (each_row : dict) (each_field : string)
  : result dict :=
  v ← Dict.item each_field each_row;
  if eq_str v "NA" then OK (Dict.set each_field JNull each_row)
  else
    match py_float v with
    | OK f => OK (Dict.set each_field (JFloat f) each_row)
    | Raise ValueError => OK (Dict.set each_field JNull each_row)
    | Raise e => Raise e
    end.

(** The body of [for each_row in model_output_dictlist]. *)
Definition coerce_row (each_row : dict) : result dict :=
  r ← for_each coerce_text text_fields each_row;
  r ← for_each coerce_integer integer_fields r;
  for_each coerce_float float_fields r.

Definition coerce (model_output_dictlist : list dict) : result (list dict) :=
  map_result coerce_row model_output_dictlist.

End Output.

Module OutputScript.

Import Output.

Definition model_output_file : string :=
  "attachments/SimpleUndetectedPrevalenceEstimatorOutput.csv".
Definition model_output_json_path : string := "attachments/output.json".

(** [sys.excepthook] of this script *)
Definition handle_uncaught_exception (e : exn) : script unit :=
  logging ERROR [PExn e; PStr " error has occurred with value: "; PExn e;
                 PStr ". Traceback: "; PExn e].

(** The [try] block around the conversion and its [except Exception]. *)
Definition convert_fields (model_output_dictlist : list dict)
  : script (list dict) :=
  try_except
    (lift (coerce model_output_dictlist))
    is_Exception
    (fun e =>
       logging ERROR
         [PStr "Failed to convert model output field value to floating point.";
          PExn e];;
       model_log_html [PStr "ERROR: Failed to create output file."] "p";;
       sys_exit 1).

(** The script from top to bottom; the log file is opened with mode ['a']. *)
Definition main : script unit :=
  model_log_html [PStr "Model Exports"] "h3";;
  f ← open_read model_output_file;
  model_output_dictlist ← lift (DictReader f);
  model_output_dictlist ← convert_fields model_output_dictlist;
  write_file model_output_json_path
    (FJson (JArr (map JObj model_output_dictlist)));;
  add_item_to_json_file_list attachments_json_path
    (attachment "output.json" "application/json" "primary");;
  model_log_html [PStr "Model exports successfully created."] "p".

Definition output_processing (w : world) : Z * world :=
  run handle_uncaught_exception main w.

End OutputScript.

(** * Vocabulary of the statements *)

(** ** Area records *)



(** ** Density conversion *)

(** The first area, in list order, whose [_id] is [sa_id]. *)
Definition first_match (areas : list dict) (sa_id : string) : option dict :=
  List.find (fun sa => Input.id_matches sa sa_id) areas.

(** What one data point of a density record becomes: the population computed
    from the first matching area, or the value itself without one. *)
Definition converted_value (areas : list dict) (sa_id : string) (v : json)
  : result json :=
  match first_match areas sa_id with
  | Some sa => n ← Input.new_total_population sa v; OK (JInt n)
  | None => OK v
  end.




(** The record and the area of the worked example: 2,000,000 square metres
    and a density of 5.0. *)
Definition example_area : dict :=
  [("_id", JStr "36001"); ("name", JStr "Albany");
   ("full_name", JStr "Albany County"); ("aland", JInt 2000000)].

Definition example_density_record : json :=
  JObj [("species", JStr "deer"); ("metric", JStr "deer density");
        ("season_year", JStr "2023");
        ("data", JObj [("36001", JFloat (Float.of_Z 5))])].

(** ** Totals per area *)

(** [items] is the data mapping of the record [demo], as the summation reads
    it. *)
Definition reads_data (demo : json) (items : dict) : Prop :=
  (data ← getitem demo "data"; dot_items data) = OK items.

(** The keys of a list of data points without repetition, each at the place
    of its first occurrence; [seen] holds the keys met before. *)
Fixpoint first_seen (seen keys : list string) : list string :=
  match keys with
  | [] => []
  | k :: keys' =>
      if existsb (String.eqb k) seen then first_seen seen keys'
      else k :: first_seen (k :: seen) keys'
  end.

(** The values given for the area [k], in the order of the data points. *)
Definition contributions (k : string) (points : list (string * json))
  : list json :=
  map snd (List.filter (fun kv => String.eqb (fst kv) k) points).

(** [first + v1 + v2 + ...], added from left to right. *)
Definition sum_from (first : json) (rest : list json) : result json :=
  for_each py_iadd rest first.

(** The running total of one area: nothing before its first value. *)
Definition running (total : option json) (vs : list json)
  : result (option json) :=
  for_each (fun o v =>
              match o with
              | Some t => t' ← py_iadd t v; OK (Some t')
              | None => OK (Some v)
              end) vs total.

(** The three records of the worked example of the summation. *)
Definition example_counts : list json :=
  [JObj [("species", JStr "deer"); ("metric", JStr "total population");
         ("season_year", JStr "2022"); ("data", JObj [("X", JInt 10)])];
   JObj [("species", JStr "elk"); ("metric", JStr "total population");
         ("season_year", JStr "2022"); ("data", JObj [("X", JInt 5)])];
   JObj [("species", JStr "deer"); ("metric", JStr "total population");
         ("season_year", JStr "2023"); ("data", JObj [("Y", JInt 3)])]].

(** ** Samples *)

(** The demography stage wrote the totals [rows] to demography.csv. *)
Definition wrote_totals (rows : list dict) (before after : gmap string file)
  : Prop :=
  after =
    <["demography.csv" :=
        FCsv (Csv.writeheader ["_id"; "value"]
                :: Csv.writerows ["_id"; "value"] rows)]> before.

(** A test is a dictionary with a [selected_definitive] field. *)
Definition is_test (t : json) : Prop :=
  exists td flag, t = JObj td /\ Dict.get "selected_definitive" td = Some flag.

(** The test has [selected_definitive = true]. *)
Definition is_definitive (t : json) : bool :=
  match t with
  | JObj td =>
      match Dict.get "selected_definitive" td with
      | Some flag => eq_True flag
      | None => false
      end
  | _ => false
  end.

(** [out] is what the loop over the samples leaves of the record [sample],
    as far as its result goes: null without a definitive test, the result of
    the single definitive test (null if it has none), and the result the
    record had, if any, with several definitive tests. *)
Definition resolved (sample : json) (out : dict) : Prop :=
  forall sample_record tests,
    sample = JObj sample_record ->
    Dict.get "tests" sample_record = Some (JArr tests) ->
    Forall is_test tests ->
    (List.filter is_definitive tests = [] ->
     Dict.get "result" out = Some JNull) /\
    (forall td,
        List.filter is_definitive tests = [JObj td] ->
        Dict.get "result" out =
          Some (match Dict.get "result" td with
                | Some v => v
                | None => JNull
                end)) /\
    (forall t1 t2 more,
        List.filter is_definitive tests = t1 :: t2 :: more ->
        Dict.get "result" out = Dict.get "result" sample_record).

(** A sample the loop accepts: a dictionary whose [tests] is a sequence of
    tests and whose area, if it names one, is a dictionary. *)
Definition well_formed_sample (sample : json) : Prop :=
  exists sample_record tests,
    sample = JObj sample_record /\
    Dict.get "tests" sample_record = Some (JArr tests) /\
    Forall is_test tests /\
    (Dict.get "_sub_administrative_area" sample_record = None \/
     exists area,
       Dict.get "_sub_administrative_area" sample_record = Some (JObj area)).

(** The sample stage wrote the records [rows] to sample.csv. *)
Definition wrote_samples (rows : list dict) (before after : gmap string file)
  : Prop :=
  after =
    <["sample.csv" :=
        FCsv (Csv.writeheader
                ["id"; "species"; "sample_source"; "season_year";
                 "age_group"; "sex"; "result"; "sub_administrative_area_id"]
                :: Csv.writerows
                     ["id"; "species"; "sample_source"; "season_year";
                      "age_group"; "sex"; "result";
                      "sub_administrative_area_id"] rows)]> before.

(** ** Model output rows *)

Definition coerced_fields : list string :=
  (Output.text_fields ++ Output.integer_fields ++ Output.float_fields)%list.

(** Every coerced field of the row arrived, and as text. *)
Definition all_text (row : dict) : Prop :=
  forall f, In f coerced_fields -> exists s, Dict.get f row = Some (JStr s).

(** What a text, integer or float field holding the text [s] becomes. *)
Definition coerced_text (s : string) : json :=
  if String.eqb s "NA" then JNull else JStr s.

Definition coerced_integer (s : string) : json :=
  if String.eqb s "NA" then JNull
  else match Parse.int_of_string s with
       | Some z => JInt z
       | None => JNull
       end.

Definition coerced_float (s : string) : json :=
  if String.eqb s "NA" then JNull
  else match Parse.float_of_string s with
       | Some f => JFloat f
       | None => JNull
       end.

(** [row'] is [row] with its eight fields coerced: the text, integer and
    float fields hold what their text becomes, every other field holds what
    it held, and the fields come in the same order. *)
Definition coerced_row (row row' : dict) : Prop :=
  (forall f s, In f ["SubAdminID"; "SubAdminName"; "Result"] ->
               Dict.get f row = Some (JStr s) ->
               Dict.get f row' = Some (coerced_text s)) /\
  (forall f s, In f ["n"; "N"] ->
               Dict.get f row = Some (JStr s) ->
               Dict.get f row' = Some (coerced_integer s)) /\
  (forall f s, In f ["bayes"; "freq"; "freq.se"] ->
               Dict.get f row = Some (JStr s) ->
               Dict.get f row' = Some (coerced_float s)) /\
  (forall f, ~ In f coerced_fields -> Dict.get f row' = Dict.get f row) /\
  Dict.keys row' = Dict.keys row.

(** A step of the conversion reads its field, which must be there, and
    creates no field. *)
Definition step_reads (step : dict -> string -> result dict) : Prop :=
  forall r f0 r',
    step r f0 = OK r' ->
    Dict.get f0 r <> None /\
    (forall f, Dict.get f r = None -> Dict.get f r' = None).

(** A complete row with the four values of the worked example. *)
Definition example_row : dict :=
  [("SubAdminID", JStr "36001"); ("SubAdminName", JStr "Albany");
   ("n", JStr "NA"); ("N", JStr "12"); ("bayes", JStr "0.5");
   ("freq", JStr "abc"); ("freq.se", JStr "NA"); ("Result", JStr "NA")].

(** ** The scripts *)

(** What the set-up leaves: the attachments list with its two entries, and
    the two logs holding their opening lines only. *)
Definition setup_attachments : file :=
  FJson (JArr [attachment "execution_log.log" "text/plain" "downloadable";
               attachment "info.html" "text/html" "feedback"]).

Definition setup_info_html (now_html : string) : list (string * line) :=
  [("h3", [PStr "Model Execution Summary"]);
   ("p", [PStr "Model: Simple Undetected Prevalence Estimator Model"]);
   ("p", [PStr ("Date: " ++ now_html ++ " GMT")])].

Definition setup_execution_log (now_log : string) : list (level * line) :=
  [(INFO, [PStr "Model: Simple Undetected Prevalence Estimator Model"]);
   (INFO, [PStr ("Date: " ++ now_log ++ " GMT")]);
   (INFO, [PStr "This log records data for debugging purposes in the case of a model execution error."])].

(** A working directory with the four input files: one area, the density
    record of the worked example, one sample, and a parameter set with a
    field beside [alpha] and [sensitivity]. *)
Definition example_world : world :=
  mkWorld
    (<["params.json" :=
         FJson (JObj [("_provider",
                       JObj [("_administrative_area",
                              JObj [("administrative_area",
                                     JStr "New York")])]);
                      ("alpha", JInt 1); ("sensitivity", JStr "0.95");
                      ("iterations", JInt 5000)])]>
       (<["sub_administrative_area.ndJson" := FNdjson [JObj example_area]]>
          (<["demography.ndJson" := FNdjson [example_density_record]]>
             (<["sample.ndJson" :=
                  FNdjson
                    [JObj [("_id", JStr "s1"); ("species", JStr "deer");
                           ("tests",
                            JArr [JObj [("selected_definitive", JBool true);
                                        ("result", JStr "positive")]])]]]>
                ∅))))
    [] [] [].

(** The claim that every field of the four written files is quoted. *)
Definition every_field_quoted (w : world) : Prop :=
  forall name lines line c,
    In name ["sub_administrative_area.csv"; "demography.csv"; "sample.csv";
             "params.csv"] ->
    files w !! name = Some (FCsv lines) ->
    In line lines -> In c line -> Csv.is_quoted c = true.

(** The claim that a field of the parameter set is found in params.csv. *)
Definition in_params_csv (w : world) (v : json) : Prop :=
  exists lines line,
    files w !! "params.csv" = Some (FCsv lines) /\
    In line lines /\ In (Csv.field v) line.

(** Two more areas: one with another id, and one that repeats the id of
    [example_area] with another land area. *)
Definition other_area : dict :=
  [("_id", JStr "36003"); ("name", JStr "Allegany");
   ("full_name", JStr "Allegany County"); ("aland", JInt 2666000000)].


(** A density record for an area id that no area has. *)
Definition unmatched_density_record : dict :=
  [("species", JStr "deer"); ("metric", JStr "deer density");
   ("season_year", JStr "2023");
   ("data", JObj [("99999", JFloat (Float.of_Z 7))])].

(** A sample with two tests, the second one definitive. *)
Definition example_sample : dict :=
  [("_id", JStr "s1"); ("species", JStr "deer");
   ("tests",
    JArr [JObj [("selected_definitive", JBool false);
                ("result", JStr "negative")];
          JObj [("selected_definitive", JBool true);
                ("result", JStr "positive")]])].

(** A model output table whose second row lacks the field [Result]. *)
Definition broken_table : list dict :=
  [example_row;
   [("SubAdminID", JStr "36003"); ("SubAdminName", JStr "Allegany");
    ("n", JStr "4"); ("N", JStr "40"); ("bayes", JStr "0.1");
    ("freq", JStr "0.1"); ("freq.se", JStr "0.05")]].

Definition broken_world : world :=
  mkWorld (<["attachments/SimpleUndetectedPrevalenceEstimatorOutput.csv" :=
               FTable broken_table]> ∅)
          [] [] [].

(** ** Further vocabulary *)

(** A sample record whose [tests] is a sequence of tests. *)
Definition has_tests (r : dict) : Prop :=
  exists tests, Dict.get "tests" r = Some (JArr tests) /\ Forall is_test tests.

(** The fields of a sample that the resolver may touch. *)
Definition resolver_fields : list string :=
  ["result"; "sub_administrative_area_id"; "_id"; "id"].

(** A record with several keys and a sample that refers to an area. *)
Definition example_sample_with_area : dict :=
  [("_id", JStr "s2"); ("species", JStr "deer"); ("sex", JStr "female");
   ("tests", JArr []);
   ("_sub_administrative_area",
    JObj [("_id", JStr "36001"); ("name", JStr "Albany")])].

(** The record is a density record: the first loop converts it. *)
Definition is_density (demo : json) : bool :=
  match demo with
  | JObj d =>
      match Dict.get "metric" d with
      | Some m => eq_str m Input.deer_density
      | None => false
      end
  | _ => false
  end.

(** The integers given for the area [k], in the order of the data points. *)
Definition int_contributions (k : string) (points : list (string * json))
  : list Z :=
  flat_map (fun kv =>
              if String.eqb (fst kv) k then
                match snd kv with JInt z => [z] | _ => [] end
              else [])
           points.

(** A value as [csv.DictReader] delivers it: text, or [None] for a column
    the line was too short to fill. *)
Definition text_or_none (v : json) : Prop :=
  v = JNull \/ exists s, v = JStr s.

(** Every coerced field of the row arrived, as text or as [None]. *)
Definition all_text_or_none (row : dict) : Prop :=
  forall f, In f coerced_fields ->
            exists v, Dict.get f row = Some v /\ text_or_none v.

Definition numeric_fields : list string :=
  (Output.integer_fields ++ Output.float_fields)%list.

(** A row whose line stopped after the column [N]. *)
Definition short_row : dict :=
  [("SubAdminID", JStr "36001"); ("SubAdminName", JStr "Albany");
   ("Result", JStr "NA"); ("n", JStr "3"); ("N", JStr "12");
   ("bayes", JNull); ("freq", JNull); ("freq.se", JNull)].

(** The script changes no file other than those named. *)
Definition touches_only {A : Type} (names : list string) (m : script A)
  : Prop :=
  forall w name,
    ~ In name names -> files (snd (m w)) !! name = files w !! name.

(** The script only adds lines to the two logs and to the standard output. *)
Definition appends_only {A : Type} (m : script A) : Prop :=
  forall w,
    (exists more, info_html (snd (m w)) = (info_html w ++ more)%list) /\
    (exists more, execution_log (snd (m w)) = (execution_log w ++ more)%list).

(** The files the two scripts write. *)
Definition input_outputs : list string :=
  ["attachments.json"; "sub_administrative_area.csv"; "demography.csv";
   "sample.csv"; "params.csv"].

Definition output_outputs : list string :=
  ["attachments/output.json"; "attachments.json"].

(** The number of keys of a dictionary, those of nested dictionaries
    included. *)
Fixpoint count_keys (v : json) : nat :=
  match v with
  | JObj d =>
      (fix count (d : list (string * json)) : nat :=
         match d with
         | [] => O
         | (_, v') :: d' => (S (count_keys v') + count d')%nat
         end) d
  | _ => O
  end.

(** The provider's area as the script reads it from the parameter set. *)
Definition provider_area (params : json) : result json :=
  provider ← getitem params "_provider";
  area ← getitem provider "_administrative_area";
  getitem area "administrative_area".

(** When the script raises, it has changed no file other than those
    named. *)
Definition raises_within {A : Type} (names : list string) (m : script A)
  : Prop :=
  forall w e w',
    m w = (Raise e, w') ->
    forall name, ~ In name names -> files w' !! name = files w !! name.

(** The files written before params.csv. *)
Definition earlier_outputs : list string :=
  ["attachments.json"; "sub_administrative_area.csv"; "demography.csv";
   "sample.csv"].

(** What a handler for a missing input file leaves: the files as they
    were, the error in the execution log, the heading and the note in
    info.html. *)
Definition after_missing_file (w : world) (error note : string) : world :=
  mkWorld (files w)
          (info_html w ++ [("h4", [PStr "ERROR"]); ("p", [PStr note])])
          (execution_log w ++ [(ERROR, [PStr error])])
          (stdout w).

(** A parameter set without [_provider]. *)
Definition bare_params_world : world :=
  mkWorld (<["params.json" :=
               FJson (JObj [("alpha", JInt 1); ("sensitivity", JInt 1)])]> ∅)
          [] [] [].

(** The entry the output script adds to the attachments list. *)
Definition output_attachment : json :=
  attachment "output.json" "application/json" "primary".

(** A working directory after the model has run: its table of results and
    the attachments list left by the input script. *)
Definition model_done_world : world :=
  mkWorld
    (<["attachments/SimpleUndetectedPrevalenceEstimatorOutput.csv" :=
         FTable [example_row]]>
       (<["attachments.json" := setup_attachments]> ∅))
    (setup_info_html "2025-01-01 00:00:00")
    (setup_execution_log "2025-01-01 00:00:00") [].

(** The texts given for the area [k], in the order of the data points. *)
Definition str_contributions (k : string) (points : list (string * json))
  : list string :=
  flat_map (fun kv =>
              if String.eqb (fst kv) k then
                match snd kv with JStr s => [s] | _ => [] end
              else [])
           points.

(** Two records that give the count of one area as text. *)
Definition text_counts : list json :=
  [JObj [("data", JObj [("X", JStr "10")])];
   JObj [("data", JObj [("X", JStr "5")])]].

(** A density record whose density is text. *)
Definition text_density_record : dict :=
  [("species", JStr "deer"); ("metric", JStr "deer density");
   ("season_year", JStr "2023"); ("data", JObj [("36001", JStr "5.0")])].


(** The text that [json.load] gives for the escape of a lone surrogate,
    [\ud800]. *)
Definition lone_surrogate : string :=
  String (ascii_of_nat 237)
    (String (ascii_of_nat 160) (String (ascii_of_nat 128) EmptyString)).

(** The writer of the csv file [name] stopped at a row of [rows] that raised
    [e]: the file holds the header and the lines of the rows before it, and
    no other file differs between [before] and [after]. *)
Definition partial_csv (name : string) (fieldnames : list string)
    (rows : list dict) (e : exn) (before after : gmap string file) : Prop :=
  exists done bad rest,
    rows = (done ++ bad :: rest)%list /\
    Forall (fun row => Csv.row_error fieldnames row = None) done /\
    Csv.row_error fieldnames bad = Some e /\
    after = <[name := FCsv (Csv.writeheader fieldnames
                              :: Csv.writerows fieldnames done)]> before.

(** An area whose name cannot be encoded, and a working directory that
    has it as its second area. *)
Definition unwritable_area : dict :=
  [("_id", JStr "36005"); ("name", JStr lone_surrogate);
   ("full_name", JStr "Bronx County"); ("aland", JInt 109000000)].

Definition surrogate_world : world :=
  mkWorld
    (<["sub_administrative_area.ndJson" :=
         FNdjson [JObj example_area; JObj unwritable_area;
                  JObj other_area]]> ∅)
    [] [] [].
(** * Properties *)

(** ** Dictionaries *)

Section DictFacts.

Implicit Types (d : dict) (k : string) (v : json).

Lemma get_set_eq k v d : Dict.get k (Dict.set k v d) = Some v.
Proof.
  induction d as [|[k' v'] d IH]; simpl.
  - now rewrite String.eqb_refl.
  - destruct (String.eqb k' k) eqn:E; simpl.
    + now rewrite String.eqb_refl.
    + now rewrite E.
Qed.

Lemma get_set_ne k k' v d :
  k <> k' -> Dict.get k' (Dict.set k v d) = Dict.get k' d.
Proof.
  intros Hne. induction d as [|[k0 v0] d IH]; simpl.
  - apply String.eqb_neq in Hne. now rewrite Hne.
  - destruct (String.eqb k0 k) eqn:E; simpl.
    + apply String.eqb_eq in E. subst k0.
      apply String.eqb_neq in Hne. now rewrite Hne.
    + now rewrite IH.
Qed.

Lemma set_same k v d : Dict.get k d = Some v -> Dict.set k v d = d.
Proof.
  induction d as [|[k0 v0] d IH]; simpl; [discriminate|].
  destruct (String.eqb k0 k) eqn:E.
  - apply String.eqb_eq in E. intros [= ->]. now subst.
  - intros H. now rewrite IH.
Qed.

Lemma keys_set_present k v d :
  Dict.get k d <> None -> Dict.keys (Dict.set k v d) = Dict.keys d.
Proof.
  unfold Dict.keys.
  induction d as [|[k0 v0] d IH]; simpl; [congruence|].
  destruct (String.eqb k0 k) eqn:E; simpl.
  - apply String.eqb_eq in E. now subst.
  - intros H. now rewrite IH.
Qed.

Lemma keys_set_absent k v d :
  Dict.get k d = None -> Dict.keys (Dict.set k v d) = (Dict.keys d ++ [k])%list.
Proof.
  unfold Dict.keys.
  induction d as [|[k0 v0] d IH]; simpl; [reflexivity|].
  destruct (String.eqb k0 k) eqn:E; simpl; [discriminate|].
  intros H. now rewrite IH.
Qed.

Lemma get_None_keys k d : Dict.get k d = None <-> ~ In k (Dict.keys d).
Proof.
  unfold Dict.keys.
  induction d as [|[k0 v0] d IH]; simpl; [tauto|].
  destruct (String.eqb k0 k) eqn:E.
  - apply String.eqb_eq in E. subst. split; [discriminate|tauto].
  - apply String.eqb_neq in E. rewrite IH. tauto.
Qed.

Lemma get_In k v d : Dict.get k d = Some v -> In (k, v) d.
Proof.
  induction d as [|[k0 v0] d IH]; simpl; [discriminate|].
  destruct (String.eqb k0 k) eqn:E.
  - apply String.eqb_eq in E. intros [= ->]. subst. now left.
  - auto.
Qed.

Lemma In_get k v d :
  List.NoDup (Dict.keys d) -> In (k, v) d -> Dict.get k d = Some v.
Proof.
  unfold Dict.keys.
  induction d as [|[k0 v0] d IH]; simpl; [tauto|].
  intros Hnd [H|H].
  - injection H as -> ->. now rewrite String.eqb_refl.
  - apply List.NoDup_cons_iff in Hnd as [Hk0 Hnd].
    destruct (String.eqb k0 k) eqn:E; [|auto].
    apply String.eqb_eq in E. subst k0. exfalso. apply Hk0.
    change k with (fst (k, v)). now apply in_map.
Qed.

Lemma get_remove_ne k k' d :
  k <> k' -> Dict.get k' (Dict.remove k d) = Dict.get k' d.
Proof.
  intros Hne. induction d as [|[k0 v0] d IH]; simpl; [reflexivity|].
  destruct (String.eqb k0 k) eqn:E; simpl.
  - apply String.eqb_eq in E. subst k0.
    apply String.eqb_neq in Hne. now rewrite Hne.
  - now rewrite IH.
Qed.

End DictFacts.

(** ** The error monad *)

Lemma bind_OK {A B : Type} (m : result A) (k : A -> result B) (b : B) :
  m ≫= k = OK b <-> exists a, m = OK a /\ k a = OK b.
Proof.
  destruct m as [a|e]; simpl.
  - split; [eauto|]. now intros (a' & [= <-] & H).
  - split; [discriminate|]. now intros (a' & [=] & _).
Qed.

(** Inverts hypotheses that a sequence of binds returned a value. *)
Ltac inv_bind :=
  repeat match goal with
    | H : _ ≫= _ = OK _ |- _ =>
        let a := fresh "a" in
        let Ha := fresh "Ha" in
        apply bind_OK in H as (a & Ha & H)
    | H : OK _ = OK _ |- _ => injection H as H
    | H : Raise _ = OK _ |- _ => discriminate H
    end.

Lemma map_result_Forall2 {A B : Type} (f : A -> result B) l l' :
  map_result f l = OK l' <-> Forall2 (fun x y => f x = OK y) l l'.
Proof.
  revert l'. induction l as [|x l IH]; intros l'; simpl.
  - split.
    + intros [= <-]. constructor.
    + intros H. inversion H. reflexivity.
  - split.
    + intros H. inv_bind. subst l'. constructor; [assumption|]. now apply IH.
    + intros H. inversion H as [|? y ? ys Hx Hl]; subst.
      rewrite Hx. simpl. apply IH in Hl. rewrite Hl. reflexivity.
  Qed.

(** ** The script monad *)

Lemma script_bind_OK {A B : Type} (m : script A) (k : A -> script B) w b w' :
  (m ≫= k) w = (OK b, w') <->
  exists a w1, m w = (OK a, w1) /\ k a w1 = (OK b, w').
Proof.
  unfold mbind, script_bind.
  destruct (m w) as [[a|e] w1].
  - split; [eauto|]. now intros (a' & w1' & [= <- <-] & H).
  - split; [discriminate|]. now intros (a' & w1' & [=] & _).
Qed.

Lemma script_bind_Raise {A B : Type} (m : script A) (k : A -> script B)
    w e w' :
  (m ≫= k) w = (Raise e, w') <->
  m w = (Raise e, w') \/
  exists a w1, m w = (OK a, w1) /\ k a w1 = (Raise e, w').
Proof.
  unfold mbind, script_bind.
  destruct (m w) as [[a|e1] w1].
  - split; [eauto|]. intros [[=]|(a' & w1' & [= <- <-] & H)]. exact H.
  - split.
    + intros [= <- <-]. now left.
    + intros [[= <- <-]|(a' & w1' & [=] & _)]. reflexivity.
Qed.

(** What reading a file of records gives when it returns: the records of the
    file, with every file as it was. *)
Lemma read_records_OK path msg (handler : exn -> script (list json)) w l w1 :
  (forall e w0 l0 w0', handler e w0 <> (OK l0, w0')) ->
  try_except
    (f ← open_read path; l ← lift (ndjson_load f);
     logging INFO msg;; mret l)
    is_FileNotFoundError handler w = (OK l, w1) ->
  files w !! path = Some (FNdjson l) /\ files w1 = files w.
Proof.
  intros Hh. unfold try_except.
  unfold mbind at 1, script_bind at 1, open_read.
  destruct (files w !! path) as [f|].
  - destruct f as [v|records|rows|lines]; cbn;
      try discriminate.
    intros [= <- <-]. auto.
  - cbn. intros H. now apply Hh in H.
Qed.

Lemma exit_never_returns {A : Type} (m : script unit) w (a : A) w' :
  (m;; sys_exit 1) w <> (OK a, w').
Proof.
  unfold mbind, script_bind. destruct (m w) as [[[]|e] w1]; discriminate.
Qed.

(** ** Writing a csv file *)

(** The rows that reach the file are those before the first row that cannot
    be written. *)
Lemma written_spec fieldnames rowdicts :
  exists done,
    fst (Csv.written fieldnames rowdicts) = Csv.writerows fieldnames done /\
    Forall (fun row => Csv.row_error fieldnames row = None) done /\
    match snd (Csv.written fieldnames rowdicts) with
    | None => rowdicts = done
    | Some e =>
        exists bad rest,
          rowdicts = (done ++ bad :: rest)%list /\
          Csv.row_error fieldnames bad = Some e
    end.
Proof.
  induction rowdicts as [|row rows (done & Hlines & Hdone & Hrest)].
  - exists []. simpl. auto.
  - cbn [Csv.written].
    destruct (Csv.row_error fieldnames row) as [e|] eqn:Hrow.
    + exists []. cbn [fst snd]. split; [reflexivity|]. split; [constructor|].
      exists row, rows. auto.
    + exists (row :: done).
      destruct (Csv.written fieldnames rows) as [lines failure].
      cbn [fst snd] in *. split; [now rewrite Hlines|].
      split; [now constructor|].
      destruct failure as [e|].
      * destruct Hrest as (bad & rest & -> & Hbad). exists bad, rest. auto.
      * now rewrite Hrest.
Qed.

Lemma written_all fieldnames rowdicts :
  Forall (fun row => Csv.row_error fieldnames row = None) rowdicts ->
  Csv.written fieldnames rowdicts
  = (Csv.writerows fieldnames rowdicts, None).
Proof.
  induction 1 as [|row rows Hrow _ IH]; [reflexivity|].
  cbn [Csv.written]. now rewrite Hrow, IH.
Qed.

Lemma write_csv_run name fieldnames rowdicts w :
  InputScript.write_csv name fieldnames rowdicts w =
    (match snd (Csv.written fieldnames rowdicts) with
     | Some e => Raise e
     | None => OK tt
     end,
     mkWorld (<[name := FCsv (Csv.writeheader fieldnames
                                :: fst (Csv.written fieldnames rowdicts))]>
                (files w))
             (info_html w) (execution_log w) (stdout w)).
Proof.
  unfold InputScript.write_csv.
  destruct (Csv.written fieldnames rowdicts) as [lines [e|]]; reflexivity.
Qed.

(** A line of literal text is always written. *)
Lemma model_log_html_run l el w :
  line_error l = None ->
  model_log_html l el w =
    (OK tt, mkWorld (files w) (info_html w ++ [(el, l)])
                    (execution_log w) (stdout w)).
Proof. intros H. unfold model_log_html. now rewrite H. Qed.
(** ** Which files and logs a script changes *)

Section Frames.

Context {A : Type}.
Variable names : list string.

Lemma touches_ret (a : A) : touches_only names (mret a : script A).
Proof. intros w name _. reflexivity. Qed.

Lemma touches_lift (r : result A) : touches_only names (lift r).
Proof. intros w name _. reflexivity. Qed.

Lemma touches_raise (e : exn) : touches_only names (raise e : script A).
Proof. intros w name _. reflexivity. Qed.

Lemma touches_sys_exit (c : Z) : touches_only names (sys_exit c : script A).
Proof. intros w name _. reflexivity. Qed.

Lemma touches_bind {B : Type} (m : script B) (k : B -> script A) :
  touches_only names m -> (forall b, touches_only names (k b)) ->
  touches_only names (m ≫= k).
Proof.
  intros Hm Hk w name Hname. unfold mbind, script_bind.
  specialize (Hm w name Hname).
  destruct (m w) as [[b|e] w1]; simpl in *; [|exact Hm].
  rewrite <- Hm. now apply Hk.
Qed.

Lemma touches_try (body : script A) catches (handler : exn -> script A) :
  touches_only names body -> (forall e, touches_only names (handler e)) ->
  touches_only names (try_except body catches handler).
Proof.
  intros Hb Hh w name Hname. unfold try_except.
  specialize (Hb w name Hname).
  destruct (body w) as [[a|e] w1]; simpl in *; [exact Hb|].
  destruct (catches e); simpl; [|exact Hb].
  rewrite <- Hb. now apply Hh.
Qed.

Lemma appends_ret (a : A) : appends_only (mret a : script A).
Proof. intros w. split; exists []; simpl; now rewrite app_nil_r. Qed.

Lemma appends_lift (r : result A) : appends_only (lift r).
Proof. intros w. split; exists []; simpl; now rewrite app_nil_r. Qed.

Lemma appends_raise (e : exn) : appends_only (raise e : script A).
Proof. intros w. split; exists []; simpl; now rewrite app_nil_r. Qed.

Lemma appends_sys_exit (c : Z) : appends_only (sys_exit c : script A).
Proof. intros w. split; exists []; simpl; now rewrite app_nil_r. Qed.

Lemma appends_bind {B : Type} (m : script B) (k : B -> script A) :
  appends_only m -> (forall b, appends_only (k b)) ->
  appends_only (m ≫= k).
Proof.
  intros Hm Hk w. unfold mbind, script_bind.
  destruct (Hm w) as [(h1 & Hh1) (l1 & Hl1)].
  destruct (m w) as [[b|e] w1]; simpl in *; [|eauto].
  destruct (Hk b w1) as [(h2 & Hh2) (l2 & Hl2)].
  rewrite Hh2, Hl2, Hh1, Hl1, <- !app_assoc. eauto.
Qed.

Lemma appends_try (body : script A) catches (handler : exn -> script A) :
  appends_only body -> (forall e, appends_only (handler e)) ->
  appends_only (try_except body catches handler).
Proof.
  intros Hb Hh w. unfold try_except.
  destruct (Hb w) as [(h1 & Hh1) (l1 & Hl1)].
  destruct (body w) as [[a|e] w1]; simpl in *; [eauto|].
  destruct (catches e); simpl; [|eauto].
  destruct (Hh e w1) as [(h2 & Hh2) (l2 & Hl2)].
  rewrite Hh2, Hl2, Hh1, Hl1, <- !app_assoc. eauto.
Qed.

End Frames.

Lemma touches_logging names lv msg : touches_only names (logging lv msg).
Proof. intros w name _. reflexivity. Qed.

Lemma touches_print names msg : touches_only names (print msg).
Proof. intros w name _. reflexivity. Qed.

Lemma touches_model_log_html names l el :
  touches_only names (model_log_html l el).
Proof.
  intros w name _. unfold model_log_html. now destruct (line_error l).
Qed.

Lemma touches_open_read names name : touches_only names (open_read name).
Proof.
  intros w n _. unfold open_read. now destruct (files w !! name).
Qed.

Lemma touches_write_file names name f :
  In name names -> touches_only names (write_file name f).
Proof.
  intros Hin w n Hn. cbn. apply lookup_insert_ne. intros ->. contradiction.
Qed.

Lemma appends_logging lv msg : appends_only (logging lv msg).
Proof.
  intros w. split; simpl; [exists []; now rewrite app_nil_r|eauto].
Qed.

Lemma appends_print msg : appends_only (print msg).
Proof. intros w. split; exists []; simpl; now rewrite app_nil_r. Qed.

Lemma appends_model_log_html l el : appends_only (model_log_html l el).
Proof.
  intros w. unfold model_log_html.
  destruct (line_error l); split; simpl; eauto; exists [];
    now rewrite app_nil_r.
Qed.

Lemma appends_open_read name : appends_only (open_read name).
Proof.
  intros w. unfold open_read.
  destruct (files w !! name); split; exists []; simpl; now rewrite app_nil_r.
Qed.

Lemma appends_write_file name f : appends_only (write_file name f).
Proof. intros w. split; exists []; simpl; now rewrite app_nil_r. Qed.

Create HintDb frames.
#[local] Hint Resolve touches_ret touches_lift touches_raise touches_sys_exit
  touches_logging touches_print touches_model_log_html touches_open_read
  appends_ret appends_lift appends_raise appends_sys_exit appends_logging
  appends_print appends_model_log_html appends_open_read appends_write_file
  : frames.

(** Splits a frame goal along the binds and handlers of the script. *)
Ltac frame_basic :=
  repeat first
    [ apply touches_bind | apply touches_try
    | apply appends_bind | apply appends_try
    | apply touches_write_file; simpl; tauto
    | solve [auto with frames]
    | match goal with
      | |- forall _, touches_only _ _ => intro
      | |- forall _, appends_only _ => intro
      end ].

Lemma touches_add_item names path item :
  In path names -> touches_only names (add_item_to_json_file_list path item).
Proof.
  intros Hin. unfold add_item_to_json_file_list. frame_basic.
  - destruct b0; frame_basic.
  - destruct e; frame_basic.
Qed.

Lemma appends_add_item path item :
  appends_only (add_item_to_json_file_list path item).
Proof.
  unfold add_item_to_json_file_list. frame_basic.
  - destruct b0; frame_basic.
  - destruct e; frame_basic.
Qed.

Lemma touches_write_csv names name fieldnames rowdicts :
  In name names ->
  touches_only names (InputScript.write_csv name fieldnames rowdicts).
Proof.
  intros H w n Hn. rewrite write_csv_run. cbn [snd files].
  apply lookup_insert_ne. intros ->. contradiction.
Qed.

Lemma appends_write_csv name fieldnames rowdicts :
  appends_only (InputScript.write_csv name fieldnames rowdicts).
Proof.
  intros w. rewrite write_csv_run.
  split; exists []; simpl; now rewrite app_nil_r.
Qed.

(** The same, with the attachments list and a csv file as one step. *)
Ltac frame :=
  repeat first
    [ apply appends_add_item
    | apply touches_add_item; simpl; tauto
    | apply appends_write_csv
    | apply touches_write_csv; simpl; tauto
    | apply touches_bind | apply touches_try
    | apply appends_bind | apply appends_try
    | apply touches_write_file; simpl; tauto
    | solve [auto with frames]
    | match goal with
      | |- forall _, touches_only _ _ => intro
      | |- forall _, appends_only _ => intro
      end ].

Lemma touches_nothing {A : Type} (m : script A) :
  touches_only [] m -> forall w, files (snd (m w)) = files w.
Proof.
  intros H w. apply map_eq. intros name. apply H. simpl. tauto.
Qed.

Lemma touches_log_demography names demography :
  touches_only names (InputScript.log_demography demography).
Proof.
  induction demography as [|demo l IH]; simpl; [frame|].
  apply touches_bind; [unfold InputScript.log_demo; frame|intros _; exact IH].
Qed.

(** ** What the stages of the input script hand on *)

(** When the demography stage returns, demography.csv holds the totals of
    the records that the conversion returned for the records of the input
    file. *)
Lemma process_demography_returns areas w w' :
  InputScript.process_demography areas w = (OK tt, w') ->
  exists demography converted rows,
    files w !! "demography.ndJson" = Some (FNdjson demography) /\
    Input.convert_demography areas demography = OK converted /\
    Input.demography_data converted = OK rows /\
    files w' =
      <["demography.csv" :=
          FCsv (Csv.writeheader InputScript.demography_fieldnames
                  :: Csv.writerows InputScript.demography_fieldnames rows)]>
        (files w).
Proof.
  intros Hrun. unfold InputScript.process_demography in Hrun.
  apply script_bind_OK in Hrun as (l & w1 & Hread & Hrun).
  apply read_records_OK in Hread as [Hfile Hw1];
    [|intros; apply exit_never_returns].
  apply script_bind_OK in Hrun as (l' & w2 & Hconv & Hrun).
  unfold lift in Hconv. injection Hconv as Hconv <-.
  apply script_bind_OK in Hrun as (rows & w2 & Hrows & Hrun).
  unfold lift in Hrows. injection Hrows as Hrows <-.
  apply script_bind_OK in Hrun as ([] & w2 & Hlog & Hrun).
  apply (f_equal snd) in Hlog. cbn [snd] in Hlog.
  assert (Hw2 : files w2 = files w).
  { rewrite <- Hlog, touches_nothing by frame. exact Hw1. }
  apply script_bind_OK in Hrun as ([] & w3 & Hlog3 & Hrun).
  apply (f_equal snd) in Hlog3. cbn [snd] in Hlog3.
  assert (Hw3 : files w3 = files w).
  { rewrite <- Hlog3, touches_nothing by apply touches_log_demography.
    exact Hw2. }
  exists l, l', rows. split; [exact Hfile|]. split; [exact Hconv|].
  split; [exact Hrows|].
  rewrite write_csv_run in Hrun.
  destruct (written_spec InputScript.demography_fieldnames rows)
    as (done & Hlines & _ & Hrest).
  destruct (snd (Csv.written _ rows)); [discriminate|].
  injection Hrun as <-. cbn [files]. now rewrite Hlines, Hrest, Hw3.
Qed.

(** When the sample stage returns, sample.csv holds the records that the
    loop over the samples returned for the records of the input file. *)
Lemma process_sample_file_returns w w' :
  InputScript.process_sample_file w = (OK tt, w') ->
  exists sample_data rows,
    files w !! "sample.ndJson" = Some (FNdjson sample_data) /\
    Input.process_samples sample_data = OK rows /\
    files w' =
      <["sample.csv" :=
          FCsv (Csv.writeheader InputScript.sample_fieldnames
                  :: Csv.writerows InputScript.sample_fieldnames rows)]>
        (files w).
Proof.
  intros Hrun. unfold InputScript.process_sample_file in Hrun.
  apply script_bind_OK in Hrun as (l & w1 & Hread & Hrun).
  apply read_records_OK in Hread as [Hfile Hw1];
    [|intros; apply exit_never_returns].
  apply script_bind_OK in Hrun as (rows & w2 & Hrows & Hrun).
  unfold lift in Hrows. injection Hrows as Hrows <-.
  exists l, rows. split; [exact Hfile|]. split; [exact Hrows|].
  rewrite write_csv_run in Hrun.
  destruct (written_spec InputScript.sample_fieldnames rows)
    as (done & Hlines & _ & Hrest).
  destruct (snd (Csv.written _ rows)); [discriminate|].
  injection Hrun as <-. cbn [files]. now rewrite Hlines, Hrest, Hw1.
Qed.

(** ** Process Demography: density conversion *)

Lemma id_matches_true sa k :
  Input.id_matches sa k = true <-> Dict.get "_id" sa = Some (JStr k).
Proof.
  unfold Input.id_matches.
  destruct (Dict.get "_id" sa) as [i|]; [|split; discriminate].
  destruct i; simpl; try (split; discriminate).
  rewrite String.eqb_eq. split; [now intros ->|now intros [= ->]].
Qed.

Lemma first_match_scan before sa after k :
  Forall (fun a => Dict.get "_id" a <> Some (JStr k)) before ->
  Dict.get "_id" sa = Some (JStr k) ->
  first_match (before ++ sa :: after) k = Some sa.
Proof.
  intros Hb Hsa. unfold first_match.
  induction Hb as [|a before Ha _ IH]; simpl.
  - apply id_matches_true in Hsa. now rewrite Hsa.
  - destruct (Input.id_matches a k) eqn:E; [|exact IH].
    apply id_matches_true in E. contradiction.
Qed.

Lemma first_match_none areas k :
  Forall (fun a => Dict.get "_id" a <> Some (JStr k)) areas ->
  first_match areas k = None.
Proof.
  intros H. unfold first_match.
  induction H as [|a areas Ha _ IH]; simpl; [reflexivity|].
  destruct (Input.id_matches a k) eqn:E; [|exact IH].
  apply id_matches_true in E. contradiction.
Qed.

(** One scan of the areas list, in terms of the first match. *)
Lemma convert_data_point_spec areas k v d :
  Input.convert_data_point areas k v d =
    match first_match areas k with
    | Some sa => n ← Input.new_total_population sa v; OK (Dict.set k (JInt n) d)
    | None => OK d
    end.
Proof.
  unfold first_match. induction areas as [|sa areas IH]; simpl; [reflexivity|].
  destruct (Input.id_matches sa k); [reflexivity|exact IH].
Qed.

Lemma convert_data_point_value areas k v d d' :
  Dict.get k d = Some v ->
  Input.convert_data_point areas k v d = OK d' ->
  exists v', converted_value areas k v = OK v' /\ d' = Dict.set k v' d.
Proof.
  intros Hget. rewrite convert_data_point_spec. unfold converted_value.
  destruct (first_match areas k) as [sa|].
  - intros H. inv_bind. subst d'. exists (JInt a). rewrite Ha. auto.
  - intros [= <-]. exists v. split; [reflexivity|].
    symmetry. now apply set_same.
Qed.

(** The loop over the items of one data mapping.  [items] is the part still
    to visit; the dictionary holds the original values under its keys. *)
Lemma convert_items_spec areas items : forall d d',
  List.NoDup (Dict.keys items) ->
  (forall k v, In (k, v) items -> Dict.get k d = Some v) ->
  for_each (fun d kv => Input.convert_data_point areas (fst kv) (snd kv) d)
           items d = OK d' ->
  (forall k v, In (k, v) items ->
     exists v', converted_value areas k v = OK v' /\ Dict.get k d' = Some v') /\
  (forall k, ~ In k (Dict.keys items) -> Dict.get k d' = Dict.get k d) /\
  Dict.keys d' = Dict.keys d.
Proof.
  induction items as [|[k0 v0] items IH]; intros d d' Hnd Hd Hrun; simpl in *.
  - injection Hrun as <-. split; [intros k v []|split; reflexivity].
  - apply List.NoDup_cons_iff in Hnd as [Hk0 Hnd].
    inv_bind. rename a into d1.
    apply convert_data_point_value in Ha as (v0' & Hv0 & ->);
      [|apply Hd; now left].
    assert (Hne : forall k v, In (k, v) items -> k0 <> k).
    { intros k v Hin <-. apply Hk0. change k0 with (fst (k0, v)).
      now apply in_map. }
    destruct (IH (Dict.set k0 v0' d) d' Hnd) as (Hvals & Hframe & Hkeys).
    { intros k v Hin. rewrite get_set_ne; [|eapply Hne; exact Hin].
      apply Hd. now right. }
    { exact Hrun. }
    split; [|split].
    + intros k v [Heq|Hin].
      * injection Heq as <- <-. exists v0'. split; [exact Hv0|].
        rewrite Hframe; [|exact Hk0]. apply get_set_eq.
      * now apply Hvals.
    + intros k Hk. rewrite Hframe; [|tauto].
      apply get_set_ne. intros ->. tauto.
    + rewrite Hkeys. apply keys_set_present.
      rewrite (Hd k0 v0); [discriminate|now left].
Qed.


(** The conversion of one record whose metric is the density tag. *)
Lemma convert_demo_density areas d data :
  Dict.get "metric" d = Some (JStr Input.deer_density) ->
  Dict.get "data" d = Some (JObj data) ->
  Input.convert_demo areas (JObj d) =
    data' ← Input.convert_data areas data;
    OK (JObj (Dict.set "metric" (JStr Input.converted_metric)
                (Dict.set "data" (JObj data') d))).
Proof.
  intros Hm Hd. unfold Input.convert_demo, dot_get, getitem, Dict.item.
  simpl. rewrite Hm. simpl. rewrite Hd. simpl. reflexivity.
Qed.

Lemma converted_record_fields d data' :
  let d' := Dict.set "metric" (JStr Input.converted_metric)
              (Dict.set "data" (JObj data') d) in
  Dict.get "metric" d' = Some (JStr Input.converted_metric) /\
  Dict.get "data" d' = Some (JObj data').
Proof.
  simpl. split; [apply get_set_eq|].
  rewrite get_set_ne by discriminate. apply get_set_eq.
Qed.










(** ** Process Demography: totals per area *)

Lemma for_each_app {A S : Type} (f : S -> A -> result S) l1 l2 s :
  for_each f (l1 ++ l2) s = s' ← for_each f l1 s; for_each f l2 s'.
Proof.
  revert s. induction l1 as [|x l1 IH]; intros s; simpl; [reflexivity|].
  destruct (f s x); simpl; [apply IH|reflexivity].
Qed.

Lemma existsb_eqb_In k seen :
  existsb (String.eqb k) seen = true <-> In k seen.
Proof.
  rewrite existsb_exists. split.
  - intros (x & Hin & Heq). apply String.eqb_eq in Heq. now subst.
  - intros Hin. exists k. split; [exact Hin|apply String.eqb_refl].
Qed.

Lemma first_seen_ext keys : forall s1 s2,
  (forall k, In k s1 <-> In k s2) -> first_seen s1 keys = first_seen s2 keys.
Proof.
  induction keys as [|k keys IH]; intros s1 s2 Hs; simpl; [reflexivity|].
  assert (Hb : existsb (String.eqb k) s1 = existsb (String.eqb k) s2).
  { apply eq_true_iff_eq. rewrite !existsb_eqb_In. apply Hs. }
  rewrite Hb. destruct (existsb (String.eqb k) s2).
  - now apply IH.
  - f_equal. apply IH. intros k'. simpl. rewrite Hs. tauto.
Qed.

Lemma first_seen_In keys : forall seen k,
  In k (first_seen seen keys) <-> In k keys /\ ~ In k seen.
Proof.
  induction keys as [|k0 keys IH]; intros seen k; simpl; [tauto|].
  destruct (existsb (String.eqb k0) seen) eqn:E.
  - apply existsb_eqb_In in E. rewrite IH. split; [tauto|].
    intros [[<-|H] Hn]; tauto.
  - assert (Hk0 : ~ In k0 seen).
    { intros H. apply existsb_eqb_In in H. congruence. }
    simpl. rewrite IH. simpl. split.
    + intros [<-|(H1 & H2)]; tauto.
    + intros [[<-|H] Hn]; [tauto|].
      destruct (string_dec k0 k); [tauto|right; tauto].
Qed.

Lemma first_seen_NoDup keys : forall seen,
  List.NoDup (first_seen seen keys).
Proof.
  induction keys as [|k0 keys IH]; intros seen; simpl; [constructor|].
  destruct (existsb (String.eqb k0) seen); [apply IH|].
  constructor; [|apply IH].
  rewrite first_seen_In. simpl. tauto.
Qed.

Lemma contributions_cons k k0 v0 points :
  contributions k ((k0, v0) :: points) =
    if String.eqb k0 k then v0 :: contributions k points
    else contributions k points.
Proof.
  unfold contributions. simpl. destruct (String.eqb k0 k); reflexivity.
Qed.

Lemma contributions_app k p1 p2 :
  contributions k (p1 ++ p2) = (contributions k p1 ++ contributions k p2)%list.
Proof.
  unfold contributions. now rewrite List.filter_app, List.map_app.
Qed.

Lemma contributions_In k points :
  In k (Dict.keys points) -> exists v vs, contributions k points = v :: vs.
Proof.
  induction points as [|[k0 v0] points IH]; simpl; [tauto|].
  rewrite contributions_cons. intros [->|H].
  - rewrite String.eqb_refl. eauto.
  - destruct (String.eqb k0 k); eauto.
Qed.

Lemma contributions_unique k v points :
  List.NoDup (Dict.keys points) -> In (k, v) points ->
  contributions k points = [v].
Proof.
  intros Hnd Hin. induction points as [|[k0 v0] points IH]; [destruct Hin|].
  simpl in Hnd. apply List.NoDup_cons_iff in Hnd as [Hk0 Hnd].
  rewrite contributions_cons. destruct Hin as [Heq|Hin].
  - injection Heq as -> ->. rewrite String.eqb_refl. f_equal.
    destruct (contributions k points) as [|v' vs] eqn:E; [reflexivity|].
    exfalso. apply Hk0. unfold contributions in E.
    assert (Hv : In v' (map snd (List.filter (fun kv => String.eqb (fst kv) k)
                                          points))).
    { rewrite E. now left. }
    apply in_map_iff in Hv as ([k1 v1] & _ & Hf).
    apply List.filter_In in Hf as [Hf Hk]. simpl in Hk.
    apply String.eqb_eq in Hk. subst k1.
    change k with (fst (k, v1)). now apply in_map.
  - destruct (String.eqb k0 k) eqn:E; [|auto].
    apply String.eqb_eq in E. subst k0. exfalso. apply Hk0.
    change k with (fst (k, v)). now apply in_map.
Qed.

Lemma running_Some v vs :
  running (Some v) vs = t ← sum_from v vs; OK (Some t).
Proof.
  unfold running, sum_from. revert v.
  induction vs as [|x vs IH]; intros v; simpl; [reflexivity|].
  destruct (py_iadd v x); simpl; [apply IH|reflexivity].
Qed.

(** One step of the summation, seen from one area [k]. *)
Lemma add_data_point_running totals k0 v0 totals' :
  Input.add_data_point totals (k0, v0) = OK totals' ->
  running (Dict.get k0 totals) [v0] = OK (Dict.get k0 totals') /\
  (forall k, k0 <> k -> Dict.get k totals' = Dict.get k totals) /\
  Dict.keys totals' =
    if existsb (String.eqb k0) (Dict.keys totals) then Dict.keys totals
    else (Dict.keys totals ++ [k0])%list.
Proof.
  unfold Input.add_data_point, running. simpl.
  destruct (Dict.get k0 totals) as [t|] eqn:Hget.
  - intros H. inv_bind. subst totals'. rewrite Ha. simpl.
    rewrite get_set_eq. split; [reflexivity|]. split.
    + intros k Hne. now apply get_set_ne.
    + assert (Hin : existsb (String.eqb k0) (Dict.keys totals) = true).
      { apply existsb_eqb_In. destruct (in_dec string_dec k0 (Dict.keys totals))
          as [H|H]; [exact H|]. apply get_None_keys in H. congruence. }
      rewrite Hin. apply keys_set_present. congruence.
  - intros [= <-]. rewrite get_set_eq. split; [reflexivity|]. split.
    + intros k Hne. now apply get_set_ne.
    + assert (Hin : existsb (String.eqb k0) (Dict.keys totals) = false).
      { apply not_true_is_false. rewrite existsb_eqb_In.
        now apply get_None_keys. }
      rewrite Hin. now apply keys_set_absent.
Qed.

(** The summation loop over a list of data points, started from [totals]. *)
Lemma sum_points_spec points : forall totals totals',
  for_each Input.add_data_point points totals = OK totals' ->
  Dict.keys totals' =
    (Dict.keys totals ++ first_seen (Dict.keys totals) (Dict.keys points))%list /\
  (forall k, running (Dict.get k totals) (contributions k points)
             = OK (Dict.get k totals')).
Proof.
  induction points as [|[k0 v0] points IH]; intros totals totals' Hrun;
    simpl in Hrun.
  - injection Hrun as <-. simpl. rewrite app_nil_r. auto.
  - inv_bind. rename a into totals1.
    apply add_data_point_running in Ha as (Hk0 & Hother & Hkeys).
    apply IH in Hrun as (Hkeys' & Hvals). split.
    + rewrite Hkeys', Hkeys. simpl.
      destruct (existsb (String.eqb k0) (Dict.keys totals)) eqn:E.
      * reflexivity.
      * rewrite <- app_assoc. simpl. do 2 f_equal.
        apply first_seen_ext. intros k. rewrite in_app_iff. simpl. tauto.
    + intros k. rewrite contributions_cons.
      destruct (String.eqb k0 k) eqn:E.
      * apply String.eqb_eq in E. subst k0.
        unfold running in *. simpl in *.
        destruct (Dict.get k totals) as [t|]; simpl in *.
        -- destruct (py_iadd t v0); simpl in *; [|discriminate].
           injection Hk0 as Hk0. rewrite Hk0. apply Hvals.
        -- injection Hk0 as Hk0. rewrite Hk0. apply Hvals.
      * apply String.eqb_neq in E. rewrite <- (Hother k E). apply Hvals.
Qed.

Lemma sum_points_total points : forall totals,
  (forall k, In k (Dict.keys points) ->
     exists o, running (Dict.get k totals) (contributions k points) = OK o) ->
  exists totals', for_each Input.add_data_point points totals = OK totals'.
Proof.
  induction points as [|[k0 v0] points IH]; intros totals Hok;
    cbn [for_each].
  - eauto.
  - destruct (Hok k0) as (o & Ho); [now left|].
    rewrite contributions_cons, String.eqb_refl in Ho.
    destruct (Input.add_data_point totals (k0, v0)) as [totals1|e] eqn:Hstep.
    + simpl. apply IH. intros k Hin.
      apply add_data_point_running in Hstep as (Hk0 & Hother & _).
      destruct (String.eqb k0 k) eqn:E.
      * apply String.eqb_eq in E. subst k0. exists o.
        unfold running in *. simpl in *.
        destruct (Dict.get k totals) as [t|]; simpl in *.
        -- destruct (py_iadd t v0); simpl in *; [|discriminate].
           injection Hk0 as Hk0. now rewrite <- Hk0.
        -- injection Hk0 as Hk0. now rewrite <- Hk0.
      * destruct (Hok k) as (o' & Ho'); [now right|].
        rewrite contributions_cons, E in Ho'.
        apply String.eqb_neq in E. rewrite (Hother k E). eauto.
    + exfalso. unfold Input.add_data_point, running in *. simpl in *.
      destruct (Dict.get k0 totals) as [t|]; simpl in *; [|discriminate].
      destruct (py_iadd t v0); simpl in *; discriminate.
Qed.

(** The summation over the records is the summation over their data points
    laid end to end. *)
Lemma sum_records_points demography datas : forall totals,
  Forall2 reads_data demography datas ->
  for_each Input.add_demo demography totals =
    for_each Input.add_data_point (concat datas) totals.
Proof.
  intros totals H. revert totals.
  induction H as [|demo items demography datas Hr _ IH]; intros totals;
    cbn [for_each concat]; [reflexivity|].
  rewrite for_each_app.
  assert (Hd : Input.add_demo totals demo
               = for_each Input.add_data_point items totals).
  { unfold Input.add_demo. unfold reads_data in Hr.
    destruct (getitem demo "data") as [data|]; [|discriminate].
    change (dot_items data = OK items) in Hr.
    change (OK data ≫= ?f) with (f data). cbv beta. now rewrite Hr. }
  rewrite Hd.
  destruct (for_each Input.add_data_point items totals); simpl;
    [apply IH|reflexivity].
Qed.

Lemma demography_data_points demography datas rows :
  Forall2 reads_data demography datas ->
  Input.demography_data demography = OK rows ->
  exists totals,
    for_each Input.add_data_point (concat datas) [] = OK totals /\
    rows = map Input.demography_row totals.
Proof.
  intros Hr Hrun. unfold Input.demography_data in Hrun. inv_bind.
  unfold Input.demography_data_dict in Ha.
  rewrite (sum_records_points _ _ _ Hr) in Ha. eauto.
Qed.

Lemma total_of_area points totals k :
  for_each Input.add_data_point points [] = OK totals ->
  In k (Dict.keys points) ->
  exists first rest t,
    contributions k points = first :: rest /\
    sum_from first rest = OK t /\ Dict.get k totals = Some t.
Proof.
  intros Hrun Hin. apply sum_points_spec in Hrun as [_ Hvals].
  specialize (Hvals k).
  destruct (contributions_In _ _ Hin) as (first & rest & Hc).
  rewrite Hc in Hvals. change (running (Some first) rest
                               = OK (Dict.get k totals)) in Hvals.
  rewrite running_Some in Hvals.
  destruct (sum_from first rest) as [t|] eqn:Hs; [|discriminate].
  injection Hvals as Hvals. eauto 10.
Qed.

(** C2.  When every record has a data mapping, the rows the aggregator emits
    are the pairs [{_id, value}] of a mapping of totals whose keys are the
    area ids of all the data points of all the records, one key per distinct
    area id, in the order in which the ids are first met; the total of an
    area is the sum, from left to right, of all the values given for it in
    any record.  The aggregator returns whenever each of these sums is
    defined.  The entries {X: 10}, {X: 5}, {Y: 3} give {X: 15, Y: 3}, X before
    Y. *)
Theorem C2_aggregation :
  (forall demography datas rows,
      Forall2 reads_data demography datas ->
      Input.demography_data demography = OK rows ->
      exists totals : dict,
        rows = map (fun kt => [("_id", JStr (fst kt)); ("value", snd kt)])
                   totals /\
        Dict.keys totals = first_seen [] (Dict.keys (concat datas)) /\
        List.NoDup (Dict.keys totals) /\
        (forall k, In k (Dict.keys totals) <->
                   In k (Dict.keys (concat datas))) /\
        (forall k, In k (Dict.keys (concat datas)) ->
           exists first rest t,
             contributions k (concat datas) = first :: rest /\
             sum_from first rest = OK t /\
             Dict.get k totals = Some t)) /\
  (forall demography datas,
      Forall2 reads_data demography datas ->
      (forall k first rest,
          contributions k (concat datas) = first :: rest ->
          exists t, sum_from first rest = OK t) ->
      exists rows, Input.demography_data demography = OK rows) /\
  Input.demography_data example_counts =
    OK [[("_id", JStr "X"); ("value", JInt 15)];
        [("_id", JStr "Y"); ("value", JInt 3)]].
Proof.
  split; [|split].
  - intros demography datas rows Hr Hrun.
    destruct (demography_data_points _ _ _ Hr Hrun) as (totals & Hsum & ->).
    exists totals. split; [reflexivity|].
    pose proof (sum_points_spec _ _ _ Hsum) as [Hkeys _]. simpl in Hkeys.
    split; [exact Hkeys|]. split; [|split].
    + rewrite Hkeys. apply first_seen_NoDup.
    + intros k. rewrite Hkeys, first_seen_In. simpl. tauto.
    + intros k Hin. now apply total_of_area.
  - intros demography datas Hr Hok.
    unfold Input.demography_data, Input.demography_data_dict.
    rewrite (sum_records_points _ _ _ Hr).
    destruct (sum_points_total (concat datas) []) as (totals & Hsum).
    + intros k Hin. simpl.
      destruct (contributions_In _ _ Hin) as (first & rest & Hc).
      destruct (Hok _ _ _ Hc) as (t & Ht). rewrite Hc.
      change (exists o, running (Some first) rest = OK o).
      rewrite running_Some, Ht. simpl. eauto.
    + rewrite Hsum. simpl. eauto.
  - vm_compute. reflexivity.
Qed.

(** ** The field coercer *)

Lemma coerce_text_step r f s :
  Dict.get f r = Some (JStr s) ->
  Output.coerce_text r f = OK (Dict.set f (coerced_text s) r).
Proof.
  intros H. unfold Output.coerce_text, Dict.item, coerced_text.
  rewrite H. simpl. destruct (String.eqb s "NA"); [reflexivity|].
  now rewrite set_same.
Qed.

Lemma coerce_integer_step r f s :
  Dict.get f r = Some (JStr s) ->
  Output.coerce_integer r f = OK (Dict.set f (coerced_integer s) r).
Proof.
  intros H. unfold Output.coerce_integer, Dict.item, coerced_integer.
  rewrite H. simpl. destruct (String.eqb s "NA"); [reflexivity|].
  destruct (Parse.int_of_string s); reflexivity.
Qed.

Lemma coerce_float_step r f s :
  Dict.get f r = Some (JStr s) ->
  Output.coerce_float r f = OK (Dict.set f (coerced_float s) r).
Proof.
  intros H. unfold Output.coerce_float, Dict.item, coerced_float.
  rewrite H. simpl. destruct (String.eqb s "NA"); [reflexivity|].
  destruct (Parse.float_of_string s); reflexivity.
Qed.

(** The coerced row, field by field in the order of the three loops. *)
Lemma coerce_row_text row s1 s2 s3 s4 s5 s6 s7 s8 :
  Dict.get "SubAdminID" row = Some (JStr s1) ->
  Dict.get "SubAdminName" row = Some (JStr s2) ->
  Dict.get "Result" row = Some (JStr s3) ->
  Dict.get "n" row = Some (JStr s4) ->
  Dict.get "N" row = Some (JStr s5) ->
  Dict.get "bayes" row = Some (JStr s6) ->
  Dict.get "freq" row = Some (JStr s7) ->
  Dict.get "freq.se" row = Some (JStr s8) ->
  Output.coerce_row row =
    OK (Dict.set "freq.se" (coerced_float s8)
       (Dict.set "freq" (coerced_float s7)
       (Dict.set "bayes" (coerced_float s6)
       (Dict.set "N" (coerced_integer s5)
       (Dict.set "n" (coerced_integer s4)
       (Dict.set "Result" (coerced_text s3)
       (Dict.set "SubAdminName" (coerced_text s2)
       (Dict.set "SubAdminID" (coerced_text s1) row)))))))).
Proof.
  intros H1 H2 H3 H4 H5 H6 H7 H8.
  unfold Output.coerce_row, Output.text_fields, Output.integer_fields,
    Output.float_fields.
  cbn [for_each].
  rewrite (coerce_text_step _ _ s1) by assumption.
  cbn [mbind result_bind].
  rewrite (coerce_text_step _ _ s2)
    by (rewrite ?get_set_ne by discriminate; assumption).
  cbn [mbind result_bind].
  rewrite (coerce_text_step _ _ s3)
    by (rewrite ?get_set_ne by discriminate; assumption).
  cbn [mbind result_bind].
  rewrite (coerce_integer_step _ _ s4)
    by (rewrite ?get_set_ne by discriminate; assumption).
  cbn [mbind result_bind].
  rewrite (coerce_integer_step _ _ s5)
    by (rewrite ?get_set_ne by discriminate; assumption).
  cbn [mbind result_bind].
  rewrite (coerce_float_step _ _ s6)
    by (rewrite ?get_set_ne by discriminate; assumption).
  cbn [mbind result_bind].
  rewrite (coerce_float_step _ _ s7)
    by (rewrite ?get_set_ne by discriminate; assumption).
  cbn [mbind result_bind].
  rewrite (coerce_float_step _ _ s8)
    by (rewrite ?get_set_ne by discriminate; assumption).
  reflexivity.
Qed.

Lemma all_text_fields row :
  all_text row ->
  exists s1 s2 s3 s4 s5 s6 s7 s8,
    Dict.get "SubAdminID" row = Some (JStr s1) /\
    Dict.get "SubAdminName" row = Some (JStr s2) /\
    Dict.get "Result" row = Some (JStr s3) /\
    Dict.get "n" row = Some (JStr s4) /\
    Dict.get "N" row = Some (JStr s5) /\
    Dict.get "bayes" row = Some (JStr s6) /\
    Dict.get "freq" row = Some (JStr s7) /\
    Dict.get "freq.se" row = Some (JStr s8).
Proof.
  intros H.
  destruct (H "SubAdminID") as (s1 & H1); [simpl; tauto|].
  destruct (H "SubAdminName") as (s2 & H2); [simpl; tauto|].
  destruct (H "Result") as (s3 & H3); [simpl; tauto|].
  destruct (H "n") as (s4 & H4); [simpl; tauto|].
  destruct (H "N") as (s5 & H5); [simpl; tauto|].
  destruct (H "bayes") as (s6 & H6); [simpl; tauto|].
  destruct (H "freq") as (s7 & H7); [simpl; tauto|].
  destruct (H "freq.se") as (s8 & H8); [simpl; tauto|].
  exists s1, s2, s3, s4, s5, s6, s7, s8. repeat split; assumption.
Qed.

(** The lookups of a coerced row. *)
Ltac get_coerced :=
  rewrite ?get_set_ne by discriminate; try rewrite get_set_eq;
  try congruence.

Lemma coerce_row_spec row :
  all_text row ->
  exists row',
    Output.coerce_row row = OK row' /\
    (forall f s, In f Output.text_fields -> Dict.get f row = Some (JStr s) ->
                 Dict.get f row' = Some (coerced_text s)) /\
    (forall f s, In f Output.integer_fields -> Dict.get f row = Some (JStr s) ->
                 Dict.get f row' = Some (coerced_integer s)) /\
    (forall f s, In f Output.float_fields -> Dict.get f row = Some (JStr s) ->
                 Dict.get f row' = Some (coerced_float s)) /\
    (forall f, ~ In f coerced_fields -> Dict.get f row' = Dict.get f row) /\
    Dict.keys row' = Dict.keys row.
Proof.
  intros Hrow.
  destruct (all_text_fields _ Hrow)
    as (s1 & s2 & s3 & s4 & s5 & s6 & s7 & s8 &
        H1 & H2 & H3 & H4 & H5 & H6 & H7 & H8).
  eexists. split; [eapply coerce_row_text; eassumption|].
  split; [|split; [|split; [|split]]].
  - intros f s Hf Hget. simpl in Hf.
    destruct Hf as [<-|[<-|[<-|[]]]]; get_coerced.
  - intros f s Hf Hget. simpl in Hf.
    destruct Hf as [<-|[<-|[]]]; get_coerced.
  - intros f s Hf Hget. simpl in Hf.
    destruct Hf as [<-|[<-|[<-|[]]]]; get_coerced.
  - intros f Hf. simpl in Hf.
    rewrite !get_set_ne; [reflexivity|intros <-; tauto..].
  - rewrite !keys_set_present; [reflexivity|..];
      rewrite ?get_set_ne by discriminate; congruence.
Qed.

(** The loop over the table coerces every row, in order. *)
Lemma coerce_rows_spec rows :
  Forall all_text rows ->
  exists rows',
    Output.coerce rows = OK rows' /\
    Forall2 (fun row row' =>
               Output.coerce_row row = OK row' /\ coerced_row row row')
            rows rows'.
Proof.
  unfold Output.coerce.
  induction 1 as [|row rows Hrow _ (rows' & IH & Hall)]; simpl.
  - exists []. split; [reflexivity|constructor].
  - destruct (coerce_row_spec row Hrow) as (row' & Hrow' & Hspec).
    rewrite Hrow', IH. simpl. exists (row' :: rows').
    split; [reflexivity|]. constructor; [|exact Hall].
    split; [exact Hrow'|exact Hspec].
Qed.

(** C3.  For every model-output row whose eight coerced fields arrived as
    text, the coercer returns a row in which each text field holding "NA" is
    null and any other text is kept; each integer or float field holding "NA"
    is null, one holding text that parses is the parsed number, and one
    holding text that does not parse is null; every other field and the order
    of the fields are as before.  The loop over a table of such rows
    returns a table of as many rows, each the coerced row of the row at its
    place, and rejects no row.  A failed parse of a text is a [ValueError] and
    nothing else.  A row with n = "NA", N = "12", bayes = "0.5", Result =
    "NA" becomes one with n = null, N = 12, bayes = 0.5, Result = null,
    whatever text its other fields hold. *)
Theorem C3_field_coercer :
  (forall row,
      all_text row ->
      exists row',
        Output.coerce_row row = OK row' /\
        (forall f s, In f ["SubAdminID"; "SubAdminName"; "Result"] ->
                     Dict.get f row = Some (JStr s) ->
                     Dict.get f row' = Some (coerced_text s)) /\
        (forall f s, In f ["n"; "N"] ->
                     Dict.get f row = Some (JStr s) ->
                     Dict.get f row' = Some (coerced_integer s)) /\
        (forall f s, In f ["bayes"; "freq"; "freq.se"] ->
                     Dict.get f row = Some (JStr s) ->
                     Dict.get f row' = Some (coerced_float s)) /\
        (forall f, ~ In f coerced_fields -> Dict.get f row' = Dict.get f row) /\
        Dict.keys row' = Dict.keys row) /\
  (forall rows,
      Forall all_text rows ->
      exists rows',
        Output.coerce rows = OK rows' /\ length rows' = length rows /\
        Forall2 (fun row row' =>
                   Output.coerce_row row = OK row' /\ coerced_row row row')
                rows rows') /\
  (forall s e, py_int (JStr s) = Raise e -> e = ValueError) /\
  (forall s e, py_float (JStr s) = Raise e -> e = ValueError) /\
  (forall row,
      all_text row ->
      Dict.get "n" row = Some (JStr "NA") ->
      Dict.get "N" row = Some (JStr "12") ->
      Dict.get "bayes" row = Some (JStr "0.5") ->
      Dict.get "Result" row = Some (JStr "NA") ->
      exists row',
        Output.coerce_row row = OK row' /\
        Dict.get "n" row' = Some JNull /\
        Dict.get "N" row' = Some (JInt 12) /\
        Dict.get "bayes" row' =
          Some (JFloat (Float.div (Float.of_Z 1) (Float.of_Z 2))) /\
        Dict.get "Result" row' = Some JNull) /\
  Output.coerce_row example_row =
    OK [("SubAdminID", JStr "36001"); ("SubAdminName", JStr "Albany");
        ("n", JNull); ("N", JInt 12);
        ("bayes", JFloat (Float.div (Float.of_Z 1) (Float.of_Z 2)));
        ("freq", JNull); ("freq.se", JNull); ("Result", JNull)].
Proof.
  split; [exact coerce_row_spec|]. split; [|split; [|split; [|split]]].
  - intros rows Hrows.
    destruct (coerce_rows_spec rows Hrows) as (rows' & Hrun & Hall).
    exists rows'. split; [exact Hrun|]. split; [|exact Hall].
    symmetry. eapply Forall2_length. exact Hall.
  - intros s e. simpl. destruct (Parse.int_of_string s); congruence.
  - intros s e. simpl. destruct (Parse.float_of_string s); congruence.
  - intros row Hrow Hn HN Hbayes Hresult.
    destruct (coerce_row_spec row Hrow)
      as (row' & Hrun & Htext & Hint & Hfloat & _).
    exists row'. split; [exact Hrun|].
    rewrite (Hint "n" _ ltac:(simpl; tauto) Hn).
    rewrite (Hint "N" _ ltac:(simpl; tauto) HN).
    rewrite (Hfloat "bayes" _ ltac:(simpl; tauto) Hbayes).
    rewrite (Htext "Result" _ ltac:(simpl; tauto) Hresult).
    repeat split; vm_compute; reflexivity.
  - vm_compute. reflexivity.
Qed.

(** The conversion loop never ends the process by itself. *)
Lemma for_each_no_exit {A S : Type} (f : S -> A -> result S) l : forall s c,
  (forall s x c, f s x <> Raise (SystemExit c)) ->
  for_each f l s <> Raise (SystemExit c).
Proof.
  induction l as [|x l IH]; intros s c Hf; simpl; [discriminate|].
  destruct (f s x) as [s'|e] eqn:E; simpl; [now apply IH|].
  rewrite <- E. apply Hf.
Qed.

Lemma py_int_no_exit v c : py_int v <> Raise (SystemExit c).
Proof.
  destruct v as [| | |f|s| |]; simpl; try discriminate.
  - destruct f as [| | |[] ? ?]; discriminate.
  - destruct (Parse.int_of_string s); discriminate.
Qed.

Lemma py_float_no_exit v c : py_float v <> Raise (SystemExit c).
Proof.
  destruct v as [|b|z|f|s| |]; simpl; try discriminate.
  - unfold int_to_float. destruct (Float.of_Z (Z_of_bool b)); discriminate.
  - unfold int_to_float. destruct (Float.of_Z z); discriminate.
  - destruct (Parse.float_of_string s); discriminate.
Qed.

Lemma coerce_row_no_exit row c :
  Output.coerce_row row <> Raise (SystemExit c).
Proof.
  unfold Output.coerce_row.
  destruct (for_each Output.coerce_text Output.text_fields row) as [r1|e1]
    eqn:E1; cbn [mbind result_bind].
  - destruct (for_each Output.coerce_integer Output.integer_fields r1)
      as [r2|e2] eqn:E2; cbn [mbind result_bind].
    + apply for_each_no_exit. intros s x c'.
      unfold Output.coerce_float, Dict.item.
      destruct (Dict.get x s) as [v|]; simpl; [|discriminate].
      destruct (eq_str v "NA"); [discriminate|].
      pose proof (py_float_no_exit v c') as Hv.
      destruct (py_float v) as [|[]]; congruence.
    + rewrite <- E2. apply for_each_no_exit. intros s x c'.
      unfold Output.coerce_integer, Dict.item.
      destruct (Dict.get x s) as [v|]; simpl; [|discriminate].
      destruct (eq_str v "NA"); [discriminate|].
      pose proof (py_int_no_exit v c') as Hv.
      destruct (py_int v) as [|[]]; congruence.
  - rewrite <- E1. apply for_each_no_exit. intros s x c'.
    unfold Output.coerce_text, Dict.item.
    destruct (Dict.get x s) as [v|]; simpl; [|discriminate].
    destruct (eq_str v "NA"); discriminate.
Qed.

Lemma coerce_is_Exception rows e :
  Output.coerce rows = Raise e -> is_Exception e = true.
Proof.
  unfold Output.coerce. revert e.
  induction rows as [|row rows IH]; intros e; simpl; [discriminate|].
  destruct (Output.coerce_row row) as [row'|e'] eqn:E; simpl.
  - destruct (map_result Output.coerce_row rows) as [rows'|e'']; simpl;
      [discriminate|].
    intros [= <-]. now apply IH.
  - intros [= <-]. destruct e'; try reflexivity.
    exfalso. exact (coerce_row_no_exit row code E).
Qed.

(** ** Process Samples *)

Lemma tests_selected_definitive_filter tests :
  Forall is_test tests ->
  Input.tests_selected_definitive tests
  = OK (List.filter is_definitive tests).
Proof.
  induction 1 as [|t tests (td & flag & -> & Hflag) _ IH]; simpl;
    [reflexivity|].
  unfold Dict.item. rewrite Hflag. simpl. rewrite IH. simpl.
  destruct (eq_True flag); reflexivity.
Qed.

Lemma resolve_area_result r r' :
  Input.resolve_area r = OK r' -> Dict.get "result" r' = Dict.get "result" r.
Proof.
  unfold Input.resolve_area.
  destruct (Dict.get "_sub_administrative_area" r) as [area|].
  - intros H. inv_bind. destruct a; inv_bind; subst r';
      now rewrite get_set_ne by discriminate.
  - intros [= <-]. now rewrite get_set_ne by discriminate.
Qed.

Lemma rename_id_result r :
  Dict.get "result" (Input.rename_key r "_id" "id") = Dict.get "result" r.
Proof.
  unfold Input.rename_key. destruct (Dict.get "_id" r); [|reflexivity].
  rewrite get_set_ne by discriminate. now rewrite get_remove_ne by discriminate.
Qed.

(** The resolver on one record, and the rest of the loop body. *)
Lemma resolve_result_record (sample_record : dict) (tests : list json) :
  Dict.get "tests" sample_record = Some (JArr tests) ->
  Forall is_test tests ->
  exists r',
    Input.resolve_result sample_record = OK r' /\
    (List.filter is_definitive tests = [] ->
       Dict.get "result" r' = Some JNull) /\
    (forall td,
       List.filter is_definitive tests = [JObj td] ->
       Dict.get "result" r' =
         Some (match Dict.get "result" td with Some v => v | None => JNull end))
    /\
    (forall t1 t2 more,
       List.filter is_definitive tests = t1 :: t2 :: more ->
       r' = sample_record) /\
    (forall out,
       Input.process_sample (JObj sample_record) = OK out ->
       Dict.get "result" out = Dict.get "result" r').
Proof.
  intros Htests Hall.
  assert (Hres : exists r', Input.resolve_result sample_record = OK r' /\
    (List.filter is_definitive tests = [] ->
       Dict.get "result" r' = Some JNull) /\
    (forall td,
       List.filter is_definitive tests = [JObj td] ->
       Dict.get "result" r' =
         Some (match Dict.get "result" td with Some v => v | None => JNull end))
    /\
    (forall t1 t2 more,
       List.filter is_definitive tests = t1 :: t2 :: more ->
       r' = sample_record)).
  { unfold Input.resolve_result, Dict.item. rewrite Htests. simpl.
    rewrite (tests_selected_definitive_filter _ Hall). simpl.
    destruct (List.filter is_definitive tests) as [|t1 [|t2 more]] eqn:Hsel;
      simpl.
    - eexists. split; [reflexivity|]. split; [|split]; try discriminate.
      intros _. apply get_set_eq.
    - assert (Ht1 : In t1 (List.filter is_definitive tests))
        by (rewrite Hsel; now left).
      apply List.filter_In in Ht1 as [Ht1 _].
      rewrite List.Forall_forall in Hall.
      destruct (Hall _ Ht1) as (td & flag & -> & _).
      assert (Hres : Input.result_of_test (JObj td)
                     = OK (match Dict.get "result" td with
                           | Some v => v
                           | None => JNull
                           end)).
      { unfold Input.result_of_test, contains, getitem, Dict.mem, Dict.item.
        destruct (Dict.get "result" td); reflexivity. }
      rewrite Hres. simpl.
      eexists. split; [reflexivity|]. split; [|split]; try discriminate.
      intros td' [= <-]. apply get_set_eq.
    - eexists. split; [reflexivity|]. split; [|split]; try discriminate.
      reflexivity. }
  destruct Hres as (r' & Hr' & H0 & H1 & H2).
  exists r'. repeat split; try assumption.
  intros out Hout. unfold Input.process_sample in Hout.
  rewrite Hr' in Hout. simpl in Hout. inv_bind.
  apply resolve_area_result in Ha. rewrite <- Ha. subst out.
  destruct (Dict.mem "_id" a); [apply rename_id_result|reflexivity].
Qed.

Lemma resolve_result_keeps r r' k :
  Input.resolve_result r = OK r' -> k <> "result" ->
  Dict.get k r' = Dict.get k r.
Proof.
  unfold Input.resolve_result. intros H Hk. inv_bind.
  destruct (Nat.eqb (length a1) 0).
  { injection H as <-. now apply get_set_ne. }
  destruct (Nat.ltb 1 (length a1)); [now injection H as <-|].
  destruct (Nat.eqb (length a1) 1); [|now injection H as <-].
  destruct a1 as [|test ?]; [now injection H as <-|].
  inv_bind. subst r'. now apply get_set_ne.
Qed.

(** The loop resolves each record at its place. *)
Lemma process_samples_resolved sample_data out :
  Input.process_samples sample_data = OK out ->
  Forall2 resolved sample_data out.
Proof.
  intros Hrun. unfold Input.process_samples in Hrun.
  apply map_result_Forall2 in Hrun.
  eapply Forall2_impl; [exact Hrun|].
  intros sample o Ho sample_record tests -> Htests Hall.
  destruct (resolve_result_record sample_record tests Htests Hall)
    as (r' & _ & H0 & H1 & H2 & Hout).
  rewrite (Hout o Ho). split; [exact H0|]. split; [exact H1|].
  intros t1 t2 more Hsel. now rewrite (H2 t1 t2 more Hsel).
Qed.

Lemma process_samples_total sample_data :
  Forall well_formed_sample sample_data ->
  exists out, Input.process_samples sample_data = OK out.
Proof.
  unfold Input.process_samples.
  induction 1 as [|sample l (r & tests & -> & Htests & Hall & Harea) _
                   (out & IH)]; simpl; [eauto|].
  destruct (resolve_result_record r tests Htests Hall) as (r' & Hr' & _).
  rewrite Hr'. cbn [mbind result_bind].
  assert (Hsame : Dict.get "_sub_administrative_area" r'
                  = Dict.get "_sub_administrative_area" r)
    by (eapply resolve_result_keeps; [exact Hr'|discriminate]).
  assert (Hres : exists r2, Input.resolve_area r' = OK r2).
  { unfold Input.resolve_area. rewrite Hsame.
    destruct Harea as [->|(area & ->)]; [eauto|].
    cbn [contains mbind result_bind]. unfold Dict.mem.
    destruct (Dict.get "_id" area) as [i|] eqn:Hi; [|eauto].
    unfold getitem, Dict.item. rewrite Hi. cbn [mbind result_bind]. eauto. }
  destruct Hres as (r2 & Hr2). rewrite Hr2. cbn [mbind result_bind].
  rewrite IH. cbn [mbind result_bind]. eauto.
Qed.

(** C4.  The loop over the samples resolves every record at its place: for a
    sample whose [tests] is a sequence of tests, the record it leaves has, with
    no test having [selected_definitive = true], the [result] null; with
    exactly one, that test's [result] field, or null when the test has none;
    with more than one, the [result] the sample had, or none if it had none,
    and nothing is raised.  The loop returns for every list of samples whose
    tests are sequences of tests and whose areas, where named, are
    dictionaries, and the sample stage of the script writes the records it
    returns for the records of sample.ndJson.  On one record, the resolver
    returns, leaves the record as it was in the case of several definitive
    tests, and the later steps of the loop body keep the [result]. *)
Theorem C4_definitive_test :
  (forall sample_data out,
      Input.process_samples sample_data = OK out ->
      Forall2 resolved sample_data out) /\
  (forall sample_data,
      Forall well_formed_sample sample_data ->
      exists out, Input.process_samples sample_data = OK out) /\
  (forall w w',
      InputScript.process_sample_file w = (OK tt, w') ->
      exists sample_data out,
        files w !! "sample.ndJson" = Some (FNdjson sample_data) /\
        Input.process_samples sample_data = OK out /\
        Forall2 resolved sample_data out /\
        wrote_samples out (files w) (files w')) /\
  (forall sample_record tests,
      Dict.get "tests" sample_record = Some (JArr tests) ->
      Forall is_test tests ->
      exists r',
        Input.resolve_result sample_record = OK r' /\
        (List.filter is_definitive tests = [] ->
           Dict.get "result" r' = Some JNull) /\
        (forall td,
           List.filter is_definitive tests = [JObj td] ->
           Dict.get "result" r' =
             Some (match Dict.get "result" td with
                   | Some v => v
                   | None => JNull
                   end)) /\
        (forall t1 t2 more,
           List.filter is_definitive tests = t1 :: t2 :: more ->
           r' = sample_record) /\
        (forall out,
           Input.process_sample (JObj sample_record) = OK out ->
           Dict.get "result" out = Dict.get "result" r')).
Proof.
  split; [exact process_samples_resolved|].
  split; [exact process_samples_total|].
  split; [|exact resolve_result_record].
  intros w w' Hrun.
  apply process_sample_file_returns in Hrun
    as (sample_data & out & Hfile & Hout & Hfiles).
  exists sample_data, out. split; [exact Hfile|]. split; [exact Hout|].
  split; [now apply process_samples_resolved|exact Hfiles].
Qed.

(** ** The output script when the conversion fails *)

Lemma set_keeps_None r f0 v f :
  Dict.get f0 r <> None -> Dict.get f r = None ->
  Dict.get f (Dict.set f0 v r) = None.
Proof.
  intros H0 Hf. rewrite get_set_ne; [exact Hf|]. intros ->. contradiction.
Qed.

Lemma coerce_text_reads : step_reads Output.coerce_text.
Proof.
  intros r f0 r'. unfold Output.coerce_text, Dict.item.
  destruct (Dict.get f0 r) as [v|] eqn:E; simpl; [|discriminate].
  destruct (eq_str v "NA"); intros [= <-]; (split; [discriminate|]).
  - intros f. apply set_keeps_None. congruence.
  - auto.
Qed.

Lemma coerce_integer_reads : step_reads Output.coerce_integer.
Proof.
  intros r f0 r'. unfold Output.coerce_integer, Dict.item.
  destruct (Dict.get f0 r) as [v|] eqn:E; simpl; [|discriminate].
  assert (Hset : forall x f, Dict.get f r = None ->
                             Dict.get f (Dict.set f0 x r) = None).
  { intros x f. apply set_keeps_None. congruence. }
  destruct (eq_str v "NA"); [intros [= <-]; split; [discriminate|auto]|].
  destruct (py_int v) as [z|[]]; intros [= <-]; split;
    first [discriminate | auto].
Qed.

Lemma coerce_float_reads : step_reads Output.coerce_float.
Proof.
  intros r f0 r'. unfold Output.coerce_float, Dict.item.
  destruct (Dict.get f0 r) as [v|] eqn:E; simpl; [|discriminate].
  assert (Hset : forall x f, Dict.get f r = None ->
                             Dict.get f (Dict.set f0 x r) = None).
  { intros x f. apply set_keeps_None. congruence. }
  destruct (eq_str v "NA"); [intros [= <-]; split; [discriminate|auto]|].
  destruct (py_float v) as [z|[]]; intros [= <-]; split;
    first [discriminate | auto].
Qed.

Lemma for_each_reads step fields :
  step_reads step ->
  forall r r',
    for_each step fields r = OK r' ->
    (forall f, In f fields -> Dict.get f r <> None) /\
    (forall f, Dict.get f r = None -> Dict.get f r' = None).
Proof.
  intros Hstep. induction fields as [|f0 fields IH]; intros r r' Hrun;
    simpl in Hrun.
  - injection Hrun as <-. split; [intros f []|auto].
  - inv_bind. destruct (Hstep _ _ _ Ha) as [H0 Hkeep].
    destruct (IH _ _ Hrun) as [Hin Hkeep']. split.
    + intros f [<-|Hf]; [exact H0|].
      intros Hnone. apply (Hin f Hf). now apply Hkeep.
    + intros f Hf. apply Hkeep'. now apply Hkeep.
Qed.

(** A row that lacks one of the coerced fields is not converted. *)
Lemma coerce_row_missing_field row f :
  In f coerced_fields -> Dict.get f row = None ->
  exists e, Output.coerce_row row = Raise e.
Proof.
  intros Hf Hnone.
  destruct (Output.coerce_row row) as [row'|e] eqn:Hrun; [|eauto].
  exfalso. unfold Output.coerce_row in Hrun. inv_bind.
  destruct (for_each_reads _ _ coerce_text_reads _ _ Ha) as [Ht Kt].
  destruct (for_each_reads _ _ coerce_integer_reads _ _ Ha0) as [Hi Ki].
  destruct (for_each_reads _ _ coerce_float_reads _ _ Hrun) as [Hfl _].
  unfold coerced_fields in Hf. rewrite !in_app_iff in Hf.
  destruct Hf as [Hf|[Hf|Hf]].
  - exact (Ht f Hf Hnone).
  - exact (Hi f Hf (Kt f Hnone)).
  - exact (Hfl f Hf (Ki f (Kt f Hnone))).
Qed.

Lemma coerce_missing_field rows row f :
  In row rows -> In f coerced_fields -> Dict.get f row = None ->
  exists e, Output.coerce rows = Raise e.
Proof.
  intros Hrow Hf Hnone.
  destruct (Output.coerce rows) as [rows'|e] eqn:Hrun; [|eauto].
  exfalso. unfold Output.coerce in Hrun.
  apply map_result_Forall2 in Hrun.
  induction Hrun as [|x y l l' Hx _ IH]; [destruct Hrow|].
  destruct Hrow as [->|Hrow]; [|auto].
  destruct (coerce_row_missing_field _ _ Hf Hnone) as (e & He). congruence.
Qed.

(** C5.  When the conversion of the model output raises an exception (as it
    does when some row lacks one of the coerced fields), the output script
    ends with status 1, having logged the exception as an error and added the
    error line to info.html after the heading; no file is written, so
    output.json is neither created nor changed. *)
Theorem C5_conversion_failure_is_fatal (w : world) (rows : list dict)
    (e : exn) :
  files w !! OutputScript.model_output_file = Some (FTable rows) ->
  Output.coerce rows = Raise e ->
  (forall row f,
      In row rows -> In f coerced_fields -> Dict.get f row = None ->
      exists e', Output.coerce rows = Raise e') /\
  exists w',
    OutputScript.output_processing w = (1, w') /\
    execution_log w' =
      (execution_log w ++
         [(ERROR,
           [PStr "Failed to convert model output field value to floating point.";
            PExn e])])%list /\
    info_html w' =
      (info_html w ++
         [("h3", [PStr "Model Exports"]);
          ("p", [PStr "ERROR: Failed to create output file."])])%list /\
    files w' = files w /\
    files w' !! "attachments/output.json" = files w !! "attachments/output.json".
Proof.
  intros Hfile Hfail. split.
  - intros row f. apply coerce_missing_field.
  - pose proof (coerce_is_Exception _ _ Hfail) as Hexc.
    unfold OutputScript.output_processing, run, OutputScript.main,
      OutputScript.convert_fields.
    unfold mbind, script_bind, model_log_html at 1, open_read. simpl.
    rewrite Hfile. simpl.
    unfold try_except, lift. rewrite Hfail, Hexc.
    unfold logging, model_log_html, sys_exit, raise. simpl.
    eexists. split; [reflexivity|]. simpl.
    rewrite <- app_assoc. auto.
Qed.

(** ** The written csv files *)

(** C6, as the writer behaves.  A written field is quoted exactly when its
    value is not a number: text, null, lists and dictionaries are quoted,
    while [int], [float] and [bool] values are written bare; null is written
    as the empty text between two quote characters; every name of the header
    is quoted.  Whatever a writer of the script leaves in its csv file, also
    when a row stopped it, is the header followed by lines every field of
    which is written in this way, one line per row when every row can be
    written. *)
Theorem C6_quoting_of_written_fields :
  (forall v, Csv.is_quoted (Csv.field v) = negb (Csv.is_number v)) /\
  Csv.field JNull = Csv.Quoted EmptyString /\
  Csv.render (Csv.field JNull) =
    Some (String Csv.quotechar (String Csv.quotechar EmptyString)) /\
  Csv.render (Csv.field (JInt 2000000)) = Some "2000000" /\
  (forall fieldnames c,
      In c (Csv.writeheader fieldnames) -> Csv.is_quoted c = true) /\
  (forall name fieldnames rowdicts w,
      exists r w' lines,
        InputScript.write_csv name fieldnames rowdicts w = (r, w') /\
        files w' !! name = Some (FCsv (Csv.writeheader fieldnames :: lines)) /\
        (Forall (fun row => Csv.row_error fieldnames row = None) rowdicts ->
         r = OK tt /\ lines = Csv.writerows fieldnames rowdicts) /\
        forall line c,
          In line lines -> In c line ->
          exists v,
            c = Csv.field v /\
            Csv.is_quoted c = negb (Csv.is_number v) /\
            (v = JNull -> c = Csv.Quoted EmptyString)).
Proof.
  assert (Hq : forall v, Csv.is_quoted (Csv.field v) = negb (Csv.is_number v))
    by (intros []; reflexivity).
  split; [exact Hq|]. split; [reflexivity|]. split; [reflexivity|].
  split; [reflexivity|]. split.
  - intros fieldnames c Hc. unfold Csv.writeheader in Hc.
    apply in_map_iff in Hc as (key & <- & _). reflexivity.
  - intros name fieldnames rowdicts w.
    rewrite write_csv_run.
    destruct (written_spec fieldnames rowdicts) as (done & Hlines & _ & _).
    eexists _, _, (Csv.writerows fieldnames done).
    split; [rewrite Hlines; reflexivity|]. cbn [files].
    split; [apply lookup_insert_eq|]. split.
    { intros Hall. rewrite (written_all _ _ Hall) in *. cbn [fst snd] in *.
      auto. }
    intros line c Hline Hc. unfold Csv.writerows in Hline.
    apply in_map_iff in Hline as (rowdict & <- & _).
    unfold Csv.writerow in Hc. apply in_map_iff in Hc as (v & <- & _).
    exists v. split; [reflexivity|]. split; [apply Hq|]. now intros ->.
Qed.

(** The claim of C6 fails on the example directory: the land area of the
    area file is written bare. *)
Lemma C6_counterexample :
  ~ (forall now_html now_log w,
        every_field_quoted
          (snd (InputScript.input_processing now_html now_log w))).
Proof.
  intros H.
  specialize (H EmptyString EmptyString example_world
                "sub_administrative_area.csv"
                [[Csv.Quoted "_id"; Csv.Quoted "full_name"; Csv.Quoted "name";
                  Csv.Quoted "aland"];
                 [Csv.Quoted "36001"; Csv.Quoted "Albany County";
                  Csv.Quoted "Albany"; Csv.Bare (JInt 2000000)]]
                [Csv.Quoted "36001"; Csv.Quoted "Albany County";
                 Csv.Quoted "Albany"; Csv.Bare (JInt 2000000)]
                (Csv.Bare (JInt 2000000))).
  assert (Hf : false = true); [|discriminate Hf].
  apply H.
  - simpl. tauto.
  - vm_compute. reflexivity.
  - simpl. tauto.
  - simpl. tauto.
Qed.

(** ** The input script *)

Lemma add_item_to_list path item w l :
  files w !! path = Some (FJson (JArr l)) ->
  add_item_to_json_file_list path item w =
    (OK tt, mkWorld (<[path := FJson (JArr (l ++ [item]))]> (files w))
                    (info_html w) (execution_log w) (stdout w)).
Proof.
  intros H. unfold add_item_to_json_file_list, try_except.
  unfold mbind at 1, script_bind, open_read. rewrite H.
  unfold mbind, script_bind, lift. reflexivity.
Qed.

Lemma setup_spec now_html now_log w :
  InputScript.setup now_html now_log w =
    (OK tt, mkWorld (<[attachments_json_path := setup_attachments]> (files w))
                    (setup_info_html now_html)
                    (setup_execution_log now_log) (stdout w)).
Proof.
  unfold InputScript.setup.
  unfold mbind at 1, script_bind at 1, write_file at 1.
  unfold mbind at 1, script_bind at 1.
  rewrite (add_item_to_list _ _ _ []) by apply lookup_insert_eq.
  unfold mbind at 1, script_bind at 1.
  erewrite add_item_to_list by apply lookup_insert_eq.
  cbn [files info_html execution_log stdout line_error existsb
       piece_raises piece_unencodable orb].
  rewrite !insert_insert_eq.
  reflexivity.
Qed.

Lemma process_parameters_missing w :
  files w !! InputScript.parameters_file_path = None ->
  InputScript.process_parameters w =
    (Raise (SystemExit 1),
     mkWorld (files w)
             (info_html w ++
                [("h4", [PStr "ERROR"]);
                 ("p", [PStr "Parameters (params.json) file not found."])])
             (execution_log w ++
                [(ERROR, [PStr "params.json File does not exist."])])
             (stdout w)).
Proof.
  intros H. unfold InputScript.process_parameters.
  unfold mbind at 1, script_bind at 1, try_except.
  unfold mbind at 1, script_bind at 1, open_read. rewrite H.
  cbn [is_FileNotFoundError].
  unfold mbind, script_bind, logging, model_log_html, sys_exit, raise.
  cbn [files info_html execution_log stdout line_error existsb
       piece_raises piece_unencodable orb].
  rewrite <- app_assoc. reflexivity.
Qed.

(** C8.  When params.json is absent the input script ends with status 1; the
    execution log holds, after its opening lines, the error "params.json File
    does not exist."; info.html holds, after its opening lines, the heading
    ERROR and the note that the parameters file was not found; and the only
    file written is the attachments list, so none of the four csv files is
    created or changed. *)
Theorem C8_missing_parameters_file (now_html now_log : string) (w : world) :
  files w !! "params.json" = None ->
  exists w',
    InputScript.input_processing now_html now_log w = (1, w') /\
    execution_log w' =
      (setup_execution_log now_log ++
         [(ERROR, [PStr "params.json File does not exist."])])%list /\
    info_html w' =
      (setup_info_html now_html ++
         [("h4", [PStr "ERROR"]);
          ("p", [PStr "Parameters (params.json) file not found."])])%list /\
    files w' = <["attachments.json" := setup_attachments]> (files w) /\
    (forall name,
        In name ["sub_administrative_area.csv"; "demography.csv"; "sample.csv";
                 "params.csv"] ->
        files w' !! name = files w !! name).
Proof.
  intros H.
  unfold InputScript.input_processing, run, InputScript.main.
  unfold mbind at 1, script_bind at 1. rewrite setup_spec.
  unfold mbind at 1, script_bind at 1.
  rewrite process_parameters_missing
    by (cbn [files]; rewrite lookup_insert_ne by discriminate; exact H).
  cbn [files info_html execution_log stdout line_error existsb
       piece_raises piece_unencodable orb].
  eexists. split; [reflexivity|].
  cbn [files info_html execution_log stdout line_error existsb
       piece_raises piece_unencodable orb].
  repeat split.
  intros name Hname. simpl in Hname.
  destruct Hname as [<-|[<-|[<-|[<-|[]]]]];
    now rewrite lookup_insert_ne by discriminate.
Qed.

(** ** The parameter set *)

(** The parameter set the loader hands on is the one read, less
    [_provider], and its listing went into info.html. *)
Lemma process_parameters_returns w d params w' :
  files w !! InputScript.parameters_file_path = Some (FJson (JObj d)) ->
  InputScript.process_parameters w = (OK params, w') ->
  params = Dict.remove "_provider" d /\ files w' = files w /\
  line_error (InputScript.json_stringify params) = None.
Proof.
  intros Hfile. unfold InputScript.process_parameters.
  unfold mbind at 1, script_bind at 1, try_except.
  unfold mbind at 1, script_bind at 1, open_read. rewrite Hfile.
  unfold mbind at 1, script_bind at 1, lift at 1. cbn [json_load].
  unfold mbind at 1, script_bind at 1, logging at 1.
  unfold mret at 1, script_ret at 1.
  unfold mbind at 1, script_bind at 1, lift at 1.
  destruct (getitem (JObj d) "_provider" ≫= _) as [area|e]; [|discriminate].
  unfold mbind at 1, script_bind at 1, model_log_html at 1.
  destruct (line_error [PStr "Provider area: "; PVal area]); [discriminate|].
  unfold mbind at 1, script_bind at 1.
  rewrite model_log_html_run by reflexivity.
  unfold mbind at 1, script_bind at 1, model_log_html at 1.
  destruct (line_error (InputScript.json_stringify _)) eqn:Hline;
    [discriminate|].
  unfold mret, script_ret.
  cbn [files info_html execution_log stdout].
  intros [= <- <-]. auto.
Qed.

(** The stages after the parameters leave params.json alone and the last one
    writes params.csv from the parameter set. *)
Lemma main_writes_params now_html now_log w w' d :
  files w !! "params.json" = Some (FJson (JObj d)) ->
  InputScript.main now_html now_log w = (OK tt, w') ->
  files w' !! "params.csv" =
    Some (FCsv [Csv.writeheader ["alpha"; "sensitivity"];
                Csv.writerow ["alpha"; "sensitivity"]
                             (Dict.remove "_provider" d)]).
Proof.
  intros Hfile Hrun. unfold InputScript.main in Hrun.
  apply script_bind_OK in Hrun as ([] & w1 & Hsetup & Hrun).
  rewrite setup_spec in Hsetup. injection Hsetup as <-.
  apply script_bind_OK in Hrun as (params & w2 & Hparams & Hrun).
  apply process_parameters_returns with (d := d) in Hparams as [-> _].
  2:{ cbn [files]. rewrite lookup_insert_ne by discriminate. exact Hfile. }
  apply script_bind_OK in Hrun as (areas & w3 & _ & Hrun).
  apply script_bind_OK in Hrun as ([] & w4 & _ & Hrun).
  apply script_bind_OK in Hrun as ([] & w5 & _ & Hrun).
  rewrite write_csv_run in Hrun. cbn [Csv.written] in Hrun.
  destruct (Csv.row_error _ _); [discriminate|].
  injection Hrun as <-. cbn [files fst]. apply lookup_insert_eq.
Qed.

(** C7, as the script behaves.  When the script runs to its end on a
    parameter set, the set handed to the csv writer is the one read with
    [_provider] removed and every other field unchanged; params.csv holds the
    header and one line with the two columns [alpha] and [sensitivity] only,
    each the value of that field, or the empty text when the set lacks it;
    the other fields of the set are not written. *)
Theorem C7_parameters_written (now_html now_log : string) (w w' : world)
    (d : dict) :
  files w !! "params.json" = Some (FJson (JObj d)) ->
  InputScript.main now_html now_log w = (OK tt, w') ->
  (forall k, k <> "_provider" ->
             Dict.get k (Dict.remove "_provider" d) = Dict.get k d) /\
  files w' !! "params.csv" =
    Some (FCsv [Csv.writeheader ["alpha"; "sensitivity"];
                Csv.writerow ["alpha"; "sensitivity"]
                             (Dict.remove "_provider" d)]) /\
  Csv.writeheader ["alpha"; "sensitivity"] =
    [Csv.Quoted "alpha"; Csv.Quoted "sensitivity"] /\
  Csv.writerow ["alpha"; "sensitivity"] (Dict.remove "_provider" d) =
    [Csv.field (default (JStr EmptyString) (Dict.get "alpha" d));
     Csv.field (default (JStr EmptyString) (Dict.get "sensitivity" d))].
Proof.
  intros Hfile Hrun. split; [|split; [|split]].
  - intros k Hk. apply get_remove_ne. congruence.
  - eapply main_writes_params; eassumption.
  - reflexivity.
  - unfold Csv.writerow, Csv.dict_to_list. cbn [map].
    now rewrite !get_remove_ne by discriminate.
Qed.

(** The claim of C7 fails on the example directory: the script runs to its
    end, the parameter set has the field [iterations] = 5000, and 5000 is
    nowhere in params.csv. *)
Lemma C7_counterexample :
  ~ (forall now_html now_log w w' d k v,
        files w !! "params.json" = Some (FJson (JObj d)) ->
        InputScript.main now_html now_log w = (OK tt, w') ->
        k <> "_provider" ->
        Dict.get k d = Some v ->
        Csv.is_number v = true ->
        in_params_csv w' v).
Proof.
  intros H.
  destruct (InputScript.main EmptyString EmptyString example_world)
    as [r w'] eqn:Hrun.
  assert (Hr : r = OK tt).
  { apply (f_equal fst) in Hrun. vm_compute in Hrun. congruence. }
  subst r.
  assert (Hcsv : files w' !! "params.csv" =
                 Some (FCsv [[Csv.Quoted "alpha"; Csv.Quoted "sensitivity"];
                             [Csv.Bare (JInt 1); Csv.Quoted "0.95"]])).
  { apply (f_equal (fun rw => files (snd rw) !! "params.csv")) in Hrun.
    vm_compute in Hrun. symmetry. exact Hrun. }
  destruct (H EmptyString EmptyString example_world w' _ "iterations"
              (JInt 5000) eq_refl Hrun ltac:(discriminate) eq_refl eq_refl)
    as (lines & line & Hlines & Hline & Hc).
  rewrite Hcsv in Hlines. injection Hlines as <-.
  simpl in Hline, Hc.
  destruct Hline as [<-|[<-|[]]]; simpl in Hc;
    destruct Hc as [Hc|[Hc|[]]]; discriminate Hc.
Qed.

(** ** Process Subadmin Areas *)



(** ** Density records with an area id that matches no area *)

Lemma reads_data_record d data :
  Dict.get "data" d = Some (JObj data) -> reads_data (JObj d) data.
Proof.
  intros H. unfold reads_data, getitem, Dict.item. now rewrite H.
Qed.

(** One density record with a data point that matches no area. *)
Lemma unmatched_area_record (areas : list dict) (d data : dict)
    (k : string) (v : json) :
  Dict.get "metric" d = Some (JStr "deer density") ->
  Dict.get "data" d = Some (JObj data) ->
  List.NoDup (Dict.keys data) ->
  In (k, v) data ->
  Forall (fun a => Dict.get "_id" a <> Some (JStr k)) areas ->
  (forall d0, Input.convert_data_point areas k v d0 = OK d0) /\
  (forall demo',
      Input.convert_demo areas (JObj d) = OK demo' ->
      exists d' data',
        demo' = JObj d' /\
        Dict.get "metric" d' =
          Some (JStr "total population (converted from density)") /\
        Dict.get "data" d' = Some (JObj data') /\
        Dict.get k data' = Some v /\
        forall before after datas_before datas_after rows,
          Forall2 reads_data before datas_before ->
          Forall2 reads_data after datas_after ->
          Input.demography_data (before ++ demo' :: after) = OK rows ->
          exists first rest t,
            (contributions k (concat datas_before)
               ++ v :: contributions k (concat datas_after))%list
              = first :: rest /\
            sum_from first rest = OK t /\
            In [("_id", JStr k); ("value", t)] rows).
Proof.
  intros Hm Hd Hnd Hin Hnone. split.
  - intros d0. rewrite convert_data_point_spec.
    now rewrite (first_match_none _ _ Hnone).
  - intros demo' Hrun.
    rewrite (convert_demo_density _ _ _ Hm Hd) in Hrun.
    inv_bind. rename a into data'. subst demo'.
    unfold Input.convert_data in Ha.
    apply convert_items_spec in Ha as (Hvals & _ & Hkeys); [|exact Hnd|].
    2:{ intros k' v' Hin'. now apply In_get. }
    destruct (Hvals k v Hin) as (v' & Hv' & Hget).
    unfold converted_value in Hv'.
    rewrite (first_match_none _ _ Hnone) in Hv'. injection Hv' as <-.
    destruct (converted_record_fields d data') as [H1 H2].
    eexists _, data'. split; [reflexivity|]. split; [exact H1|].
    split; [exact H2|]. split; [exact Hget|].
    intros before after datas_before datas_after rows Hb Ha Hsum.
    assert (Hr : Forall2 reads_data
                   (before ++ JObj (Dict.set "metric"
                                      (JStr Input.converted_metric)
                                      (Dict.set "data" (JObj data') d))
                           :: after)
                   (datas_before ++ data' :: datas_after)).
    { apply Forall2_app; [exact Hb|]. constructor; [|exact Ha].
      now apply reads_data_record. }
    destruct (demography_data_points _ _ _ Hr Hsum) as (totals & Htot & ->).
    destruct (total_of_area _ totals k Htot) as (first & rest & t & Hc & Hs & Ht).
    { unfold Dict.keys. rewrite concat_app, map_app, in_app_iff. right.
      simpl. rewrite map_app, in_app_iff. left.
      change k with (fst (k, v)). apply in_map. now apply get_In. }
    exists first, rest, t. split; [|split; [exact Hs|]].
    + rewrite <- Hc, concat_app, contributions_app. simpl.
      rewrite contributions_app. f_equal.
      rewrite (contributions_unique k v data'); [reflexivity| |].
      * unfold Dict.keys in *. rewrite Hkeys. exact Hnd.
      * now apply get_In.
    + apply get_In in Ht.
      change [("_id", JStr k); ("value", t)] with (Input.demography_row (k, t)).
      now apply in_map.
Qed.

Lemma convert_demography_app areas before demo after demography' :
  Input.convert_demography areas (before ++ demo :: after) = OK demography' ->
  exists before' demo' after',
    demography' = (before' ++ demo' :: after')%list /\
    Input.convert_demography areas before = OK before' /\
    Input.convert_demo areas demo = OK demo' /\
    Input.convert_demography areas after = OK after'.
Proof.
  unfold Input.convert_demography. revert demography'.
  induction before as [|b before IH]; intros demography' Hrun; simpl in *.
  - inv_bind. subst demography'. exists [], a, a0. repeat split; auto.
  - inv_bind. subst demography'.
    destruct (IH _ Ha0) as (before' & demo' & after' & -> & Hb & Hd & Hafter).
    exists (a :: before'), demo', after'. rewrite Ha, Hb. simpl.
    repeat split; auto.
Qed.

(** C10.  When the loop over the demography records returns for a list that
    holds a record whose metric is "deer density" with a pair (area id,
    value) in its data mapping whose area id is the [_id] of no area: the
    scan for that data point raises nothing and changes nothing; the list
    returned holds, at the place of the record, a record in which the value
    under that area id is still the given one and whose metric is
    nevertheless "total population (converted from density)"; in the totals
    computed from the returned list, the given value is one of the summands
    of that area, at the place of the record, added like every other value;
    and the demography stage of the script, reading such a list from
    demography.ndJson, writes these totals to demography.csv. *)
Theorem C10_unmatched_area_id (areas : list dict) (before after : list json)
    (d data : dict) (k : string) (v : json) (demography' : list json) :
  Dict.get "metric" d = Some (JStr "deer density") ->
  Dict.get "data" d = Some (JObj data) ->
  List.NoDup (Dict.keys data) ->
  In (k, v) data ->
  Forall (fun a => Dict.get "_id" a <> Some (JStr k)) areas ->
  Input.convert_demography areas (before ++ JObj d :: after)
    = OK demography' ->
  (forall d0, Input.convert_data_point areas k v d0 = OK d0) /\
  exists before' d' data' after',
    demography' = (before' ++ JObj d' :: after')%list /\
    Input.convert_demography areas before = OK before' /\
    Input.convert_demography areas after = OK after' /\
    Dict.get "metric" d' =
      Some (JStr "total population (converted from density)") /\
    Dict.get "data" d' = Some (JObj data') /\
    Dict.get k data' = Some v /\
    (forall datas_before datas_after rows,
        Forall2 reads_data before' datas_before ->
        Forall2 reads_data after' datas_after ->
        Input.demography_data demography' = OK rows ->
        exists first rest t,
          (contributions k (concat datas_before)
             ++ v :: contributions k (concat datas_after))%list
            = first :: rest /\
          sum_from first rest = OK t /\
          In [("_id", JStr k); ("value", t)] rows) /\
    (forall w w',
        files w !! "demography.ndJson"
          = Some (FNdjson (before ++ JObj d :: after)) ->
        InputScript.process_demography areas w = (OK tt, w') ->
        exists rows,
          Input.demography_data demography' = OK rows /\
          wrote_totals rows (files w) (files w')).
Proof.
  intros Hm Hd Hnd Hin Hnone Hrun.
  destruct (unmatched_area_record areas d data k v Hm Hd Hnd Hin Hnone)
    as [Hpoint Hrecord].
  split; [exact Hpoint|].
  apply convert_demography_app in Hrun
    as (before' & demo' & after' & -> & Hb & Hdemo & Ha).
  destruct (Hrecord demo' Hdemo) as (d' & data' & -> & Hm' & Hd' & Hk & Hsum).
  exists before', d', data', after'. split; [reflexivity|].
  split; [exact Hb|]. split; [exact Ha|]. split; [exact Hm'|].
  split; [exact Hd'|]. split; [exact Hk|]. split.
  - intros datas_before datas_after rows. apply Hsum.
  - intros w w' Hfile Hstage.
    apply process_demography_returns in Hstage
      as (demography & converted & rows & Hfile' & Hconv & Hrows & Hfiles).
    rewrite Hfile in Hfile'. injection Hfile' as <-.
    assert (Hconv' : Input.convert_demography areas
                       (before ++ JObj d :: after)
                     = OK (before' ++ JObj d' :: after')%list).
    { unfold Input.convert_demography in *.
      apply map_result_Forall2. apply Forall2_app.
      - now apply map_result_Forall2.
      - constructor; [exact Hdemo|]. now apply map_result_Forall2. }
    rewrite Hconv' in Hconv. injection Hconv as <-.
    exists rows. split; [exact Hrows|exact Hfiles].
Qed.

(** ** The statements at concrete inputs *)


Lemma C2_aggregation_witness :
  exists totals : dict,
    [[("_id", JStr "X"); ("value", JInt 15)];
     [("_id", JStr "Y"); ("value", JInt 3)]] =
      map (fun kt => [("_id", JStr (fst kt)); ("value", snd kt)]) totals /\
    Dict.keys totals = first_seen [] ["X"; "X"; "Y"] /\
    List.NoDup (Dict.keys totals) /\
    (forall k, In k (Dict.keys totals) <-> In k ["X"; "X"; "Y"]) /\
    (forall k, In k ["X"; "X"; "Y"] ->
       exists first rest t,
         contributions k [("X", JInt 10); ("X", JInt 5); ("Y", JInt 3)]
           = first :: rest /\
         sum_from first rest = OK t /\
         Dict.get k totals = Some t).
Proof.
  apply (proj1 C2_aggregation example_counts
           [[("X", JInt 10)]; [("X", JInt 5)]; [("Y", JInt 3)]]).
  - repeat constructor.
  - vm_compute. reflexivity.
Defined.

Lemma C3_field_coercer_witness :
  exists row',
    Output.coerce_row example_row = OK row' /\
    (forall f s, In f ["SubAdminID"; "SubAdminName"; "Result"] ->
                 Dict.get f example_row = Some (JStr s) ->
                 Dict.get f row' = Some (coerced_text s)) /\
    (forall f s, In f ["n"; "N"] ->
                 Dict.get f example_row = Some (JStr s) ->
                 Dict.get f row' = Some (coerced_integer s)) /\
    (forall f s, In f ["bayes"; "freq"; "freq.se"] ->
                 Dict.get f example_row = Some (JStr s) ->
                 Dict.get f row' = Some (coerced_float s)) /\
    (forall f, ~ In f coerced_fields ->
               Dict.get f row' = Dict.get f example_row) /\
    Dict.keys row' = Dict.keys example_row.
Proof.
  apply (proj1 C3_field_coercer example_row).
  intros f Hf. simpl in Hf.
  destruct Hf as [<-|[<-|[<-|[<-|[<-|[<-|[<-|[<-|[]]]]]]]]];
    eexists; reflexivity.
Defined.

Lemma C4_definitive_test_witness :
  Forall2 resolved [JObj example_sample; JObj example_sample_with_area]
    [[("species", JStr "deer");
      ("tests",
       JArr [JObj [("selected_definitive", JBool false);
                   ("result", JStr "negative")];
             JObj [("selected_definitive", JBool true);
                   ("result", JStr "positive")]]);
      ("result", JStr "positive"); ("sub_administrative_area_id", JNull);
      ("id", JStr "s1")];
     [("species", JStr "deer"); ("sex", JStr "female"); ("tests", JArr []);
      ("_sub_administrative_area",
       JObj [("_id", JStr "36001"); ("name", JStr "Albany")]);
      ("result", JNull); ("sub_administrative_area_id", JStr "36001");
      ("id", JStr "s2")]] /\
  exists r',
    Input.resolve_result example_sample = OK r' /\
    Dict.get "result" r' = Some (JStr "positive").
Proof.
  split.
  - apply (proj1 C4_definitive_test
             [JObj example_sample; JObj example_sample_with_area]).
    vm_compute. reflexivity.
  - destruct (proj2 (proj2 (proj2 C4_definitive_test)) example_sample
                [JObj [("selected_definitive", JBool false);
                       ("result", JStr "negative")];
                 JObj [("selected_definitive", JBool true);
                       ("result", JStr "positive")]])
      as (r' & Hr' & _ & Hone & _).
    + reflexivity.
    + repeat constructor; eexists _, _; split; reflexivity.
    + exists r'. split; [exact Hr'|].
      apply (Hone [("selected_definitive", JBool true);
                   ("result", JStr "positive")]).
      reflexivity.
Defined.

Lemma C5_conversion_failure_is_fatal_witness :
  exists w',
    OutputScript.output_processing broken_world = (1, w') /\
    execution_log w' =
      [(ERROR,
        [PStr "Failed to convert model output field value to floating point.";
         PExn KeyError])] /\
    info_html w' =
      [("h3", [PStr "Model Exports"]);
       ("p", [PStr "ERROR: Failed to create output file."])] /\
    files w' = files broken_world /\
    files w' !! "attachments/output.json" = None.
Proof.
  destruct (C5_conversion_failure_is_fatal broken_world broken_table KeyError)
    as (_ & w' & Hrun & Hlog & Hhtml & Hfiles & Hout).
  - reflexivity.
  - vm_compute. reflexivity.
  - exists w'. repeat split; assumption.
Defined.

Lemma C6_quoting_of_written_fields_witness :
  exists w',
    InputScript.write_csv "demography.csv" ["_id"; "value"]
      [[("_id", JStr "36001"); ("value", JInt 10)];
       [("_id", JStr "36003"); ("value", JNull)]] example_world
      = (OK tt, w') /\
    files w' !! "demography.csv" =
      Some (FCsv [[Csv.Quoted "_id"; Csv.Quoted "value"];
                  [Csv.Quoted "36001"; Csv.Bare (JInt 10)];
                  [Csv.Quoted "36003"; Csv.Quoted EmptyString]]).
Proof.
  destruct C6_quoting_of_written_fields as (_ & _ & _ & _ & _ & H).
  destruct (H "demography.csv" ["_id"; "value"]
              [[("_id", JStr "36001"); ("value", JInt 10)];
               [("_id", JStr "36003"); ("value", JNull)]] example_world)
    as (r & w' & lines & Hrun & Hfile & Hall & _).
  destruct Hall as [-> ->].
  - repeat (constructor; [vm_compute; reflexivity|]). constructor.
  - exists w'. split; [exact Hrun|exact Hfile].
Defined.

Lemma C7_parameters_written_witness :
  files (snd (InputScript.main EmptyString EmptyString example_world))
    !! "params.csv" =
    Some (FCsv [[Csv.Quoted "alpha"; Csv.Quoted "sensitivity"];
                [Csv.Bare (JInt 1); Csv.Quoted "0.95"]]).
Proof.
  destruct (C7_parameters_written EmptyString EmptyString example_world
              (snd (InputScript.main EmptyString EmptyString example_world))
              [("_provider",
                JObj [("_administrative_area",
                       JObj [("administrative_area", JStr "New York")])]);
               ("alpha", JInt 1); ("sensitivity", JStr "0.95");
               ("iterations", JInt 5000)])
    as (_ & Hcsv & _ & _).
  - reflexivity.
  - vm_compute. reflexivity.
  - rewrite Hcsv. reflexivity.
Defined.

Lemma C8_missing_parameters_file_witness :
  exists w',
    InputScript.input_processing "2025-01-01 00:00:00" "2025-01-01 00:00:00"
      (mkWorld ∅ [] [] []) = (1, w') /\
    files w' !! "params.csv" = None /\
    files w' !! "sample.csv" = None.
Proof.
  destruct (C8_missing_parameters_file "2025-01-01 00:00:00"
              "2025-01-01 00:00:00" (mkWorld ∅ [] [] []))
    as (w' & Hrun & _ & _ & _ & Hcsv).
  - reflexivity.
  - exists w'. split; [exact Hrun|]. split.
    + rewrite (Hcsv "params.csv") by (simpl; tauto). reflexivity.
    + rewrite (Hcsv "sample.csv") by (simpl; tauto). reflexivity.
Defined.


Lemma C10_unmatched_area_id_witness :
  exists before' d' data' after',
    [JObj [("species", JStr "deer");
           ("metric", JStr "total population (converted from density)");
           ("season_year", JStr "2023");
           ("data", JObj [("36001", JInt 10)])];
     JObj [("species", JStr "deer");
           ("metric", JStr "total population (converted from density)");
           ("season_year", JStr "2023");
           ("data", JObj [("99999", JFloat (Float.of_Z 7))])]]
    = (before' ++ JObj d' :: after')%list /\
    Dict.get "metric" d' =
      Some (JStr "total population (converted from density)") /\
    Dict.get "data" d' = Some (JObj data') /\
    Dict.get "99999" data' = Some (JFloat (Float.of_Z 7)).
Proof.
  destruct (C10_unmatched_area_id [example_area] [example_density_record] []
              unmatched_density_record
              [("99999", JFloat (Float.of_Z 7))] "99999"
              (JFloat (Float.of_Z 7))
              [JObj [("species", JStr "deer");
                     ("metric",
                      JStr "total population (converted from density)");
                     ("season_year", JStr "2023");
                     ("data", JObj [("36001", JInt 10)])];
               JObj [("species", JStr "deer");
                     ("metric",
                      JStr "total population (converted from density)");
                     ("season_year", JStr "2023");
                     ("data", JObj [("99999", JFloat (Float.of_Z 7))])]])
    as (_ & before' & d' & data' & after' & Heq & _ & _ & Hm & Hd & Hk & _).
  - reflexivity.
  - reflexivity.
  - repeat constructor. simpl. tauto.
  - left. reflexivity.
  - repeat constructor. discriminate.
  - vm_compute. reflexivity.
  - exists before', d', data', after'. auto.
Defined.

(** * Further properties of the code *)

(** ** Renaming a key *)

Lemma keys_remove_subset k k' d :
  In k' (Dict.keys (Dict.remove k d)) -> In k' (Dict.keys d).
Proof.
  unfold Dict.keys. induction d as [|[k0 v0] d IH]; simpl; [tauto|].
  destruct (String.eqb k0 k); simpl; tauto.
Qed.

Lemma NoDup_remove k d :
  List.NoDup (Dict.keys d) -> List.NoDup (Dict.keys (Dict.remove k d)).
Proof.
  unfold Dict.keys. induction d as [|[k0 v0] d IH]; simpl; [auto|].
  intros H. apply List.NoDup_cons_iff in H as [Hk0 Hnd].
  destruct (String.eqb k0 k); simpl; [exact Hnd|].
  constructor; [|auto]. intros Hin. apply Hk0.
  now apply (keys_remove_subset k).
Qed.

Lemma get_remove_eq k d :
  List.NoDup (Dict.keys d) -> Dict.get k (Dict.remove k d) = None.
Proof.
  unfold Dict.keys. induction d as [|[k0 v0] d IH]; simpl; [reflexivity|].
  intros H. apply List.NoDup_cons_iff in H as [Hk0 Hnd].
  destruct (String.eqb k0 k) eqn:E; simpl.
  - apply String.eqb_eq in E. subst k0. now apply get_None_keys.
  - rewrite E. auto.
Qed.

Lemma NoDup_snoc (k : string) (l : list string) :
  List.NoDup l -> ~ In k l -> List.NoDup (l ++ [k]).
Proof.
  induction 1 as [|x l Hx Hl IH]; simpl; intros Hk.
  - repeat constructor. simpl. tauto.
  - constructor; [|apply IH; tauto].
    rewrite in_app_iff. simpl. intros [H|[H|[]]]; [tauto|].
    apply Hk. now left.
Qed.

Lemma NoDup_set k v d :
  List.NoDup (Dict.keys d) -> List.NoDup (Dict.keys (Dict.set k v d)).
Proof.
  intros H. destruct (Dict.get k d) eqn:E.
  - rewrite keys_set_present by congruence. exact H.
  - rewrite keys_set_absent by exact E.
    apply NoDup_snoc; [exact H|]. now apply get_None_keys.
Qed.

Lemma rename_id_spec d :
  List.NoDup (Dict.keys d) ->
  (Dict.get "_id" d = None -> Input.rename_key d "_id" "id" = d) /\
  (forall v,
      Dict.get "_id" d = Some v ->
      Dict.get "id" (Input.rename_key d "_id" "id") = Some v /\
      Dict.get "_id" (Input.rename_key d "_id" "id") = None /\
      (forall k, k <> "_id" -> k <> "id" ->
                 Dict.get k (Input.rename_key d "_id" "id") = Dict.get k d) /\
      List.NoDup (Dict.keys (Input.rename_key d "_id" "id"))).
Proof.
  intros Hnd. unfold Input.rename_key. split.
  - intros ->. reflexivity.
  - intros v ->. split; [apply get_set_eq|]. split; [|split].
    + rewrite get_set_ne by discriminate. now apply get_remove_eq.
    + intros k Hk1 Hk2. rewrite get_set_ne by congruence.
      apply get_remove_ne. congruence.
    + apply NoDup_set. now apply NoDup_remove.
Qed.

(** X1.  [rename_key] leaves a dictionary without the old key as it is.  In a
    dictionary that has the old key, the new key afterwards holds the value
    the old key had, the old key is gone, every other key holds what it held,
    and the keys stay distinct. *)
Theorem rename_key_moves_value (dict_ : dict) (old_key new_key : string) :
  old_key <> new_key ->
  List.NoDup (Dict.keys dict_) ->
  (Dict.get old_key dict_ = None ->
   Input.rename_key dict_ old_key new_key = dict_) /\
  (forall v,
      Dict.get old_key dict_ = Some v ->
      Dict.get new_key (Input.rename_key dict_ old_key new_key) = Some v /\
      Dict.get old_key (Input.rename_key dict_ old_key new_key) = None /\
      (forall k, k <> old_key -> k <> new_key ->
                 Dict.get k (Input.rename_key dict_ old_key new_key)
                 = Dict.get k dict_) /\
      List.NoDup (Dict.keys (Input.rename_key dict_ old_key new_key))).
Proof.
  intros Hne Hnd. unfold Input.rename_key. split.
  - intros ->. reflexivity.
  - intros v ->. split; [apply get_set_eq|]. split; [|split].
    + rewrite get_set_ne by congruence. now apply get_remove_eq.
    + intros k Hk1 Hk2. rewrite get_set_ne by congruence.
      apply get_remove_ne. congruence.
    + apply NoDup_set. now apply NoDup_remove.
Qed.

(** ** The sample resolver on the other fields *)

Lemma resolve_result_frame r r' :
  Input.resolve_result r = OK r' ->
  (forall k, k <> "result" -> Dict.get k r' = Dict.get k r) /\
  (List.NoDup (Dict.keys r) -> List.NoDup (Dict.keys r')).
Proof.
  unfold Input.resolve_result. intros H. inv_bind.
  destruct (Nat.eqb (length a1) 0).
  { injection H as <-. split; [intros k Hk; now apply get_set_ne|].
    apply NoDup_set. }
  destruct (Nat.ltb 1 (length a1)); [injection H as <-; auto|].
  destruct (Nat.eqb (length a1) 1); [|injection H as <-; auto].
  destruct a1 as [|test ?]; [injection H as <-; auto|].
  inv_bind. subst r'. split; [intros k Hk; now apply get_set_ne|].
  apply NoDup_set.
Qed.

Lemma resolve_area_sets r r' :
  Input.resolve_area r = OK r' ->
  exists v,
    r' = Dict.set "sub_administrative_area_id" v r /\
    match Dict.get "_sub_administrative_area" r with
    | None => v = JNull
    | Some (JObj a) =>
        v = match Dict.get "_id" a with Some i => i | None => JNull end
    | Some _ => True
    end.
Proof.
  unfold Input.resolve_area.
  destruct (Dict.get "_sub_administrative_area" r) as [area|].
  - destruct (contains area "_id") as [[|]|e] eqn:Hhas;
      cbn [mbind result_bind]; [| |discriminate].
    + destruct (getitem area "_id") as [i|e] eqn:Hi;
        cbn [mbind result_bind]; [|discriminate].
      intros [= <-]. exists i. split; [reflexivity|].
      destruct area; try exact I.
      unfold getitem, Dict.item in Hi.
      destruct (Dict.get "_id" d); congruence.
    + intros [= <-]. exists JNull. split; [reflexivity|].
      destruct area; try exact I.
      unfold contains, Dict.mem in Hhas.
      destruct (Dict.get "_id" d); [discriminate|reflexivity].
  - intros [= <-]. eauto.
Qed.

Lemma get_rename_id k r :
  k <> "_id" -> k <> "id" ->
  Dict.get k (Input.rename_key r "_id" "id") = Dict.get k r.
Proof.
  intros H1 H2. unfold Input.rename_key.
  destruct (Dict.get "_id" r); [|reflexivity].
  rewrite get_set_ne by congruence. apply get_remove_ne. congruence.
Qed.

(** The three steps of the body of the sample loop. *)
Lemma process_sample_steps v out :
  Input.process_sample v = OK out ->
  exists r r1 r2,
    v = JObj r /\ Input.resolve_result r = OK r1 /\
    Input.resolve_area r1 = OK r2 /\
    out = if Dict.mem "_id" r2 then Input.rename_key r2 "_id" "id" else r2.
Proof.
  unfold Input.process_sample. destruct v; try discriminate.
  intros H. inv_bind. eauto 10.
Qed.

(** X2.  When a sample is processed, its [sub_administrative_area_id] is
    null if it has no [_sub_administrative_area]; if that field is a
    dictionary, it is the dictionary's [_id], or null when the dictionary has
    none. *)
Theorem sample_area_id_resolved (sample_record out : dict) :
  Input.process_sample (JObj sample_record) = OK out ->
  (Dict.get "_sub_administrative_area" sample_record = None ->
   Dict.get "sub_administrative_area_id" out = Some JNull) /\
  (forall area,
      Dict.get "_sub_administrative_area" sample_record = Some (JObj area) ->
      Dict.get "sub_administrative_area_id" out =
        Some (match Dict.get "_id" area with
              | Some i => i
              | None => JNull
              end)).
Proof.
  intros H. apply process_sample_steps in H
    as (r & r1 & r2 & [= <-] & Hres & Harea & ->).
  apply resolve_result_frame in Hres as [Hframe _].
  apply resolve_area_sets in Harea as (v & -> & Hv).
  rewrite (Hframe "_sub_administrative_area") in Hv by discriminate.
  assert (Hout : Dict.get "sub_administrative_area_id"
                   (if Dict.mem "_id"
                         (Dict.set "sub_administrative_area_id" v r1)
                    then Input.rename_key
                           (Dict.set "sub_administrative_area_id" v r1)
                           "_id" "id"
                    else Dict.set "sub_administrative_area_id" v r1)
                 = Some v).
  { destruct (Dict.mem _ _); [rewrite get_rename_id by discriminate|];
      apply get_set_eq. }
  rewrite Hout. split.
  - intros Hnone. rewrite Hnone in Hv. now subst v.
  - intros area Harea. rewrite Harea in Hv. now subst v.
Qed.

(** X3.  A sample whose [_sub_administrative_area] is null is not processed:
    the membership test on it raises [TypeError]. *)
Theorem sample_with_null_area_raises (sample_record : dict) :
  has_tests sample_record ->
  Dict.get "_sub_administrative_area" sample_record = Some JNull ->
  Input.process_sample (JObj sample_record) = Raise TypeError.
Proof.
  intros (tests & Htests & Hall) Hnull.
  unfold Input.process_sample.
  destruct (Input.resolve_result sample_record) as [r1|e] eqn:Hres.
  - apply resolve_result_frame in Hres as [Hframe _].
    cbn [mbind result_bind]. unfold Input.resolve_area.
    rewrite (Hframe "_sub_administrative_area") by discriminate.
    rewrite Hnull. reflexivity.
  - exfalso. unfold Input.resolve_result, Dict.item in Hres.
    rewrite Htests in Hres. simpl in Hres.
    rewrite (tests_selected_definitive_filter _ Hall) in Hres. simpl in Hres.
    destruct (List.filter is_definitive tests) as [|t1 [|t2 more]] eqn:Hsel;
      simpl in Hres; try discriminate.
    assert (Ht1 : In t1 (List.filter is_definitive tests))
      by (rewrite Hsel; now left).
    apply List.filter_In in Ht1 as [Ht1 _].
    rewrite List.Forall_forall in Hall.
    destruct (Hall _ Ht1) as (td & flag & -> & _).
    unfold Input.result_of_test, contains, getitem, Dict.mem, Dict.item
      in Hres.
    destruct (Dict.get "result" td); discriminate.
Qed.

(** X4.  When a sample (a dictionary with distinct keys) is processed, the
    record that goes to the csv writer has no [_id]; its [id] is the value
    the sample had under [_id], or whatever it had under [id] when it had no
    [_id]; it has a [sub_administrative_area_id]; and every field other than
    [result], [sub_administrative_area_id], [_id] and [id] is as it was. *)
Theorem sample_fields_after_processing (sample_record out : dict) :
  List.NoDup (Dict.keys sample_record) ->
  Input.process_sample (JObj sample_record) = OK out ->
  Dict.get "_id" out = None /\
  (forall v, Dict.get "_id" sample_record = Some v ->
             Dict.get "id" out = Some v) /\
  (Dict.get "_id" sample_record = None ->
   Dict.get "id" out = Dict.get "id" sample_record) /\
  Dict.get "sub_administrative_area_id" out <> None /\
  (forall k, ~ In k resolver_fields ->
             Dict.get k out = Dict.get k sample_record) /\
  List.NoDup (Dict.keys out).
Proof.
  intros Hnd H. apply process_sample_steps in H
    as (r & r1 & r2 & [= <-] & Hres & Harea & ->).
  apply resolve_result_frame in Hres as [Hframe Hnd1].
  specialize (Hnd1 Hnd).
  apply resolve_area_sets in Harea as (v & -> & _).
  set (r2 := Dict.set "sub_administrative_area_id" v r1).
  assert (Hnd2 : List.NoDup (Dict.keys r2)) by now apply NoDup_set.
  assert (Hid2 : Dict.get "_id" r2 = Dict.get "_id" sample_record).
  { unfold r2. rewrite get_set_ne by discriminate. now apply Hframe. }
  assert (Hi2 : Dict.get "id" r2 = Dict.get "id" sample_record).
  { unfold r2. rewrite get_set_ne by discriminate. now apply Hframe. }
  assert (Hother : forall k, ~ In k resolver_fields ->
                             Dict.get k r2 = Dict.get k sample_record).
  { intros k Hk. simpl in Hk. unfold r2.
    rewrite get_set_ne by (intros <-; tauto).
    apply Hframe. intros ->. tauto. }
  destruct (rename_id_spec r2) as [Habsent Hpresent];
    [exact Hnd2|].
  unfold Dict.mem. destruct (Dict.get "_id" r2) as [i|] eqn:Hi.
  - destruct (Hpresent i eq_refl) as (Hnew & Hold & Hrest & Hnd3).
    split; [exact Hold|]. split; [|split; [|split; [|split]]].
    + intros v' Hv'. rewrite Hnew. congruence.
    + intros Hnone. congruence.
    + rewrite Hrest by discriminate. unfold r2. rewrite get_set_eq.
      discriminate.
    + intros k Hk. rewrite Hrest by (simpl in Hk; intros ->; tauto).
      now apply Hother.
    + exact Hnd3.
  - split; [exact Hi|]. split; [|split; [|split; [|split]]].
    + intros v' Hv'. congruence.
    + intros _. exact Hi2.
    + unfold r2. rewrite get_set_eq. discriminate.
    + exact Hother.
    + exact Hnd2.
Qed.

Lemma tests_selected_definitive_returns tests selected :
  Input.tests_selected_definitive tests = OK selected ->
  Forall is_test tests.
Proof.
  revert selected. induction tests as [|t tests IH]; intros selected H;
    simpl in H; [constructor|].
  destruct (getitem t "selected_definitive") as [flag|] eqn:Hflag;
    cbn [mbind result_bind] in H; [|discriminate].
  destruct (Input.tests_selected_definitive tests) as [rest|] eqn:Hrest;
    cbn [mbind result_bind] in H; [|discriminate].
  constructor; [|eapply IH; reflexivity].
  destruct t; try discriminate. unfold getitem, Dict.item in Hflag.
  destruct (Dict.get "selected_definitive" d) as [f|] eqn:E; [|discriminate].
  exists d, f. auto.
Qed.

(** X5.  A sample is processed only if it is a dictionary that has a [tests]
    field; and when that field is a list, only if every element of it is a
    dictionary with a [selected_definitive] field, whether or not the element
    is the definitive one.  A sample without [tests] raises [KeyError]. *)
Theorem sample_needs_well_formed_tests (sample_record : json) (out : dict) :
  Input.process_sample sample_record = OK out ->
  exists r,
    sample_record = JObj r /\
    Dict.get "tests" r <> None /\
    (forall tests, Dict.get "tests" r = Some (JArr tests) ->
                   Forall is_test tests) /\
    (forall r0, Dict.get "tests" r0 = None ->
                Input.process_sample (JObj r0) = Raise KeyError).
Proof.
  intros H. apply process_sample_steps in H
    as (r & r1 & r2 & -> & Hres & _ & _).
  exists r. split; [reflexivity|].
  unfold Input.resolve_result, Dict.item in Hres.
  destruct (Dict.get "tests" r) as [tests|] eqn:Htests; [|discriminate].
  cbn [mbind result_bind] in Hres.
  split; [discriminate|]. split.
  - intros l [= ->]. cbn [iter mbind result_bind] in Hres.
    destruct (Input.tests_selected_definitive l) as [sel|] eqn:Hsel;
      [|discriminate].
    eapply tests_selected_definitive_returns. exact Hsel.
  - intros r0 Hnone. unfold Input.process_sample, Input.resolve_result,
      Dict.item. rewrite Hnone. reflexivity.
Qed.

(** ** The shape of the written files *)

Lemma row_error_None fieldnames row :
  Csv.row_error fieldnames row = None <->
  forall k v,
    In k fieldnames -> Dict.get k row = Some v ->
    Text.str_raises v = false /\ Text.unencodable v = false.
Proof.
  unfold Csv.row_error, Csv.dict_to_list.
  assert (Hex : forall p : json -> bool,
             p (JStr EmptyString) = false ->
             (existsb p (map (fun key => default (JStr EmptyString)
                                           (Dict.get key row)) fieldnames)
              = false <->
              forall k v, In k fieldnames -> Dict.get k row = Some v ->
                          p v = false)).
  { intros p Hp. induction fieldnames as [|k0 ks IH]; simpl.
    - split; [intros _ k v []|reflexivity].
    - rewrite orb_false_iff, IH. split.
      + intros [H0 Hks] k v [<-|Hk] Hv; [|now apply (Hks k)].
        now rewrite Hv in H0.
      + intros H. split; [|intros k v Hk; apply H; now right].
        destruct (Dict.get k0 row) as [v|] eqn:Hv; simpl; [|exact Hp].
        apply (H k0); auto. }
  destruct (existsb Text.str_raises _) eqn:Es.
  - split; [discriminate|]. intros H. exfalso.
    apply not_true_iff_false in Es; [exact Es|].
    apply (Hex Text.str_raises eq_refl).
    intros k v Hk Hv. now apply (H k v).
  - destruct (existsb Text.unencodable _) eqn:Eu.
    + split; [discriminate|]. intros H. exfalso.
      apply not_true_iff_false in Eu; [exact Eu|].
      apply (Hex Text.unencodable eq_refl).
      intros k v Hk Hv. now apply (H k v).
    + split; [|reflexivity]. intros _ k v Hk Hv.
      apply (Hex Text.str_raises eq_refl) with (k := k) (v := v) in Es;
        [|assumption..].
      apply (Hex Text.unencodable eq_refl) with (k := k) (v := v) in Eu;
        [|assumption..].
      auto.
Qed.

(** X6.  What a csv writer of the script leaves in its file: the header and
    one line for each row before the first row that cannot be written, in
    the order of the rows.  A row can be written exactly when none of the
    header's fields holds an integer too long to print (alone or inside a
    list or dictionary) or a text with a surrogate.  The writer returns when
    every row can be written and raises at the first row that cannot, whose
    line and all later ones are missing from the file.  Every line has as
    many fields as the header and depends on its row only through the fields
    named in the header, so that other fields never reach the file. *)
Theorem written_lines_match_header (name : string) (fieldnames : list string)
    (rowdicts : list dict) (w : world) :
  exists done,
    files (snd (InputScript.write_csv name fieldnames rowdicts w)) !! name
    = Some (FCsv (Csv.writeheader fieldnames
                    :: Csv.writerows fieldnames done)) /\
    Forall (fun row => Csv.row_error fieldnames row = None) done /\
    (fst (InputScript.write_csv name fieldnames rowdicts w) = OK tt /\
     rowdicts = done \/
     exists e bad rest,
       fst (InputScript.write_csv name fieldnames rowdicts w) = Raise e /\
       rowdicts = (done ++ bad :: rest)%list /\
       Csv.row_error fieldnames bad = Some e) /\
    (forall row,
        Csv.row_error fieldnames row = None <->
        forall k v,
          In k fieldnames -> Dict.get k row = Some v ->
          Text.str_raises v = false /\ Text.unencodable v = false) /\
    length (Csv.writerows fieldnames done) = length done /\
    Forall (fun l => length l = length fieldnames)
           (Csv.writeheader fieldnames :: Csv.writerows fieldnames done) /\
    Forall2 (fun row l =>
               forall row',
                 (forall k, In k fieldnames ->
                            Dict.get k row' = Dict.get k row) ->
                 Csv.writerow fieldnames row' = l)
            done (Csv.writerows fieldnames done).
Proof.
  rewrite write_csv_run.
  destruct (written_spec fieldnames rowdicts) as (done & Hlines & Hdone & Hrest).
  exists done. cbn [fst snd files]. rewrite Hlines.
  split; [apply lookup_insert_eq|]. split; [exact Hdone|]. split.
  { destruct (snd (Csv.written fieldnames rowdicts)) as [e|].
    - right. destruct Hrest as (bad & rest & -> & Hbad).
      exists e, bad, rest. auto.
    - left. auto. }
  split; [intros row; apply row_error_None|].
  unfold Csv.writerows. split; [apply length_map|]. split.
  - constructor.
    + unfold Csv.writeheader. apply length_map.
    + apply List.Forall_forall. intros l Hl.
      apply in_map_iff in Hl as (row & <- & _).
      unfold Csv.writerow, Csv.dict_to_list. now rewrite !length_map.
  - clear. induction done as [|row rows IH]; simpl; constructor; [|exact IH].
    intros row' Hagree. unfold Csv.writerow, Csv.dict_to_list.
    rewrite !map_map. apply map_ext_in. intros k Hk. now rewrite Hagree.
Qed.

(** ** The density conversion as a whole *)

Lemma convert_demo_cases areas demo demo' :
  Input.convert_demo areas demo = OK demo' ->
  exists d,
    demo = JObj d /\
    ((is_density demo = false /\ demo' = demo) \/
     (is_density demo = true /\
      exists items data',
        Dict.get "data" d = Some (JObj items) /\
        Input.convert_data areas items = OK data' /\
        demo' = JObj (Dict.set "metric" (JStr Input.converted_metric)
                        (Dict.set "data" (JObj data') d)))).
Proof.
  unfold Input.convert_demo, is_density.
  destruct demo as [| | | | | |d]; simpl; try discriminate.
  intros H. exists d. split; [reflexivity|].
  destruct (Dict.get "metric" d) as [m|]; [|injection H as <-; auto].
  destruct (eq_str m Input.deer_density); [|injection H as <-; auto].
  right. split; [reflexivity|].
  unfold Dict.item in H.
  destruct (Dict.get "data" d) as [data|]; [|discriminate].
  cbn [mbind result_bind] in H.
  destruct data; try discriminate. cbn [dot_items mbind result_bind] in H.
  destruct (Input.convert_data areas d0) as [data'|] eqn:Hc; [|discriminate].
  cbn [mbind result_bind] in H. injection H as <-. eauto 10.
Qed.

Lemma convert_demo_other areas demo :
  is_density demo = false ->
  (exists d, demo = JObj d) ->
  Input.convert_demo areas demo = OK demo.
Proof.
  intros Hd (d & ->). unfold Input.convert_demo, is_density in *.
  cbn [dot_get mbind result_bind].
  destruct (Dict.get "metric" d) as [m|]; [|reflexivity].
  now rewrite Hd.
Qed.

Lemma converted_not_density d data' :
  is_density (JObj (Dict.set "metric" (JStr Input.converted_metric)
                      (Dict.set "data" (JObj data') d))) = false.
Proof. unfold is_density. rewrite get_set_eq. reflexivity. Qed.

(** X7.  The first loop leaves every record that is not a density record as
    it is; no record of its result is a density record; so running the loop
    again on its result changes nothing. *)
Theorem conversion_runs_once (areas : list dict) (demography d' : list json) :
  Input.convert_demography areas demography = OK d' ->
  Forall2 (fun demo demo' => is_density demo = false -> demo' = demo)
          demography d' /\
  Forall (fun demo' => is_density demo' = false) d' /\
  Input.convert_demography areas d' = OK d'.
Proof.
  unfold Input.convert_demography. intros H.
  apply map_result_Forall2 in H.
  induction H as [|demo demo' l l' Hdemo _ (IH1 & IH2 & IH3)].
  - repeat split; constructor.
  - apply convert_demo_cases in Hdemo
      as (d & -> & [[Hd ->]|(Hd & items & data' & _ & _ & ->)]).
    + split; [constructor; auto|]. split; [constructor; auto|].
      cbn [map_result]. rewrite convert_demo_other; [|exact Hd|eauto].
      cbn [mbind result_bind]. now rewrite IH3.
    + split; [constructor; [congruence|exact IH1]|].
      split; [constructor; [apply converted_not_density|exact IH2]|].
      cbn [map_result]. rewrite convert_demo_other;
        [|apply converted_not_density|eauto].
      cbn [mbind result_bind]. now rewrite IH3.
Qed.

(** X8.  Converting a density record (with distinct area ids) adds, drops
    and reorders nothing: the converted record has the same fields in the same
    order, every field but [metric] and [data] holds what it held, the data
    mapping has the same area ids in the same order, and each value is either
    the value it was or an integer. *)
Theorem conversion_keeps_shape (areas : list dict) (d data : dict)
    (demo' : json) :
  Dict.get "metric" d = Some (JStr "deer density") ->
  Dict.get "data" d = Some (JObj data) ->
  List.NoDup (Dict.keys data) ->
  Input.convert_demo areas (JObj d) = OK demo' ->
  exists d' data',
    demo' = JObj d' /\
    Dict.keys d' = Dict.keys d /\
    (forall k, k <> "metric" -> k <> "data" -> Dict.get k d' = Dict.get k d) /\
    Dict.get "data" d' = Some (JObj data') /\
    Dict.keys data' = Dict.keys data /\
    (forall k v, In (k, v) data ->
                 Dict.get k data' = Some v \/
                 exists n, Dict.get k data' = Some (JInt n)).
Proof.
  intros Hm Hd Hnd Hrun.
  rewrite (convert_demo_density _ _ _ Hm Hd) in Hrun.
  inv_bind. rename a into data'. subst demo'.
  unfold Input.convert_data in Ha.
  apply convert_items_spec in Ha as (Hvals & _ & Hkeys); [|exact Hnd|].
  2:{ intros k' v' Hin'. now apply In_get. }
  destruct (converted_record_fields d data') as [_ H2].
  eexists _, data'. split; [reflexivity|]. split; [|split; [|split; [|split]]].
  - rewrite keys_set_present.
    + apply keys_set_present. congruence.
    + rewrite get_set_ne by discriminate. congruence.
  - intros k Hk1 Hk2. now rewrite !get_set_ne by congruence.
  - exact H2.
  - exact Hkeys.
  - intros k v Hin. destruct (Hvals k v Hin) as (v' & Hv' & Hget).
    unfold converted_value in Hv'.
    destruct (first_match areas k) as [sa|].
    + inv_bind. subst v'. eauto.
    + injection Hv' as <-. auto.
Qed.

(** ** The totals of integer counts *)

Lemma sum_from_ints a zs :
  sum_from (JInt a) (map JInt zs) = OK (JInt (a + fold_right Z.add 0 zs)).
Proof.
  unfold sum_from. revert a. induction zs as [|z zs IH]; intros a; simpl.
  - now rewrite Z.add_0_r.
  - rewrite IH. do 2 f_equal. lia.
Qed.

Lemma contributions_ints k points :
  Forall (fun kv => exists z, snd kv = JInt z) points ->
  contributions k points = map JInt (int_contributions k points).
Proof.
  induction 1 as [|[k0 v0] points (z & Hz) _ IH]; [reflexivity|].
  simpl in Hz. subst v0. rewrite contributions_cons.
  unfold int_contributions. simpl. fold (int_contributions k points).
  destruct (String.eqb k0 k); simpl; now rewrite IH.
Qed.

(** X9.  When every record has a data mapping and every value is an integer,
    the aggregator returns, and the row of each area id holds the sum of the
    integers given for it. *)
Theorem totals_of_integer_counts (demography : list json)
    (datas : list dict) :
  Forall2 reads_data demography datas ->
  Forall (fun kv => exists z, snd kv = JInt z) (concat datas) ->
  exists rows,
    Input.demography_data demography = OK rows /\
    forall k,
      In k (Dict.keys (concat datas)) ->
      In [("_id", JStr k);
          ("value",
           JInt (fold_right Z.add 0 (int_contributions k (concat datas))))]
         rows.
Proof.
  intros Hr Hints.
  destruct (sum_points_total (concat datas) []) as (totals & Hsum).
  { intros k Hin. simpl.
    destruct (contributions_In _ _ Hin) as (first & rest & Hc).
    rewrite Hc. change (exists o, running (Some first) rest = OK o).
    rewrite running_Some.
    rewrite (contributions_ints k _ Hints) in Hc.
    destruct (int_contributions k (concat datas)) as [|z zs];
      [discriminate|].
    injection Hc as <- <-. rewrite sum_from_ints. simpl. eauto. }
  exists (map Input.demography_row totals). split.
  - unfold Input.demography_data, Input.demography_data_dict.
    rewrite (sum_records_points _ _ _ Hr), Hsum. reflexivity.
  - intros k Hin.
    destruct (total_of_area _ _ k Hsum Hin) as (first & rest & t & Hc & Hs & Ht).
    rewrite (contributions_ints k _ Hints) in Hc.
    destruct (int_contributions k (concat datas)) as [|z zs];
      [discriminate|].
    injection Hc as <- <-. rewrite sum_from_ints in Hs. injection Hs as <-.
    apply get_In in Ht.
    change (In (Input.demography_row (k, JInt (z + fold_right Z.add 0 zs)))
               (map Input.demography_row totals)).
    now apply in_map.
Qed.

Lemma sum_records_reads demography : forall totals totals',
  for_each Input.add_demo demography totals = OK totals' ->
  exists datas, Forall2 reads_data demography datas.
Proof.
  induction demography as [|demo l IH]; intros totals totals' H.
  - exists []. constructor.
  - cbn [for_each] in H.
    destruct (Input.add_demo totals demo) as [t1|] eqn:Hdemo;
      cbn [mbind result_bind] in H; [|discriminate].
    destruct (IH _ _ H) as (datas & Hdatas).
    unfold Input.add_demo in Hdemo.
    destruct (getitem demo "data") as [data|] eqn:Hdata;
      cbn [mbind result_bind] in Hdemo; [|discriminate].
    destruct (dot_items data) as [items|] eqn:Hitems;
      cbn [mbind result_bind] in Hdemo; [|discriminate].
    exists (items :: datas). constructor; [|exact Hdatas].
    unfold reads_data. rewrite Hdata. exact Hitems.
Qed.

(** X10.  The aggregator returns only if every record is a dictionary whose
    [data] is a dictionary; and it emits no row for an area id that no record
    gives a value for. *)
Theorem aggregator_needs_data (demography : list json) (rows : list dict) :
  Input.demography_data demography = OK rows ->
  exists datas,
    Forall2 reads_data demography datas /\
    Forall (fun demo => exists d data,
                demo = JObj d /\ Dict.get "data" d = Some (JObj data))
           demography /\
    forall row, In row rows ->
      exists k t, row = [("_id", JStr k); ("value", t)] /\
                  In k (Dict.keys (concat datas)).
Proof.
  intros H. unfold Input.demography_data in H. inv_bind. subst rows.
  rename a into totals. unfold Input.demography_data_dict in Ha.
  destruct (sum_records_reads _ _ _ Ha) as (datas & Hr).
  exists datas. split; [exact Hr|]. split.
  - clear Ha. induction Hr as [|demo items l l' Hdemo _ IH];
      constructor; [|exact IH].
    unfold reads_data in Hdemo.
    destruct demo; try discriminate. unfold getitem, Dict.item in Hdemo.
    destruct (Dict.get "data" d) as [data|] eqn:E; [|discriminate].
    cbn [mbind result_bind] in Hdemo. destruct data; try discriminate.
    eauto.
  - rewrite (sum_records_points _ _ _ Hr) in Ha.
    apply sum_points_spec in Ha as [Hkeys _]. simpl in Hkeys.
    intros row Hrow. apply in_map_iff in Hrow as ([k t] & <- & Hin).
    exists k, t. split; [reflexivity|].
    assert (Hk : In k (Dict.keys totals)).
    { change k with (fst (k, t)). now apply in_map. }
    rewrite Hkeys in Hk. apply first_seen_In in Hk. tauto.
Qed.

(** ** The coercer on rows with missing values *)

Lemma coerce_text_keeps r f v :
  Dict.get f r = Some v -> text_or_none v ->
  exists v', Output.coerce_text r f = OK (Dict.set f v' r).
Proof.
  intros H Hv. unfold Output.coerce_text, Dict.item. rewrite H.
  cbn [mbind result_bind].
  destruct (eq_str v "NA"); [eauto|].
  exists v. now rewrite set_same.
Qed.

Lemma coerce_integer_none r f :
  Dict.get f r = Some JNull -> Output.coerce_integer r f = Raise TypeError.
Proof.
  intros H. unfold Output.coerce_integer, Dict.item. now rewrite H.
Qed.

Lemma coerce_float_none r f :
  Dict.get f r = Some JNull -> Output.coerce_float r f = Raise TypeError.
Proof.
  intros H. unfold Output.coerce_float, Dict.item. now rewrite H.
Qed.

(** Looks a field up through the assignments made to other fields. *)
Ltac through_sets :=
  rewrite ?get_set_ne by discriminate; eassumption.

Ltac step_text f v T :=
  match goal with
  | |- context [Output.coerce_text ?r f] =>
      let v' := fresh "v'" in
      destruct (coerce_text_keeps r f v) as (v' & ->);
      [through_sets | exact T | cbn [mbind result_bind]]
  end.

(** X11.  For a row whose coerced fields hold text or [None]: if one of the
    five numeric fields holds [None], the conversion of the row raises
    [TypeError], which the inner handlers do not catch; [None] in the three
    text fields does no harm. *)
Theorem none_in_numeric_field_raises (row : dict) :
  all_text_or_none row ->
  ((exists f, In f numeric_fields /\ Dict.get f row = Some JNull) ->
   Output.coerce_row row = Raise TypeError) /\
  ((forall f, In f numeric_fields -> Dict.get f row <> Some JNull) ->
   exists row', Output.coerce_row row = OK row').
Proof.
  intros Hrow.
  destruct (Hrow "SubAdminID") as (v1 & H1 & T1); [simpl; tauto|].
  destruct (Hrow "SubAdminName") as (v2 & H2 & T2); [simpl; tauto|].
  destruct (Hrow "Result") as (v3 & H3 & T3); [simpl; tauto|].
  destruct (Hrow "n") as (v4 & H4 & T4); [simpl; tauto|].
  destruct (Hrow "N") as (v5 & H5 & T5); [simpl; tauto|].
  destruct (Hrow "bayes") as (v6 & H6 & T6); [simpl; tauto|].
  destruct (Hrow "freq") as (v7 & H7 & T7); [simpl; tauto|].
  destruct (Hrow "freq.se") as (v8 & H8 & T8); [simpl; tauto|].
  assert (Hcases :
    (Output.coerce_row row = Raise TypeError /\
     exists f, In f numeric_fields /\ Dict.get f row = Some JNull) \/
    ((exists row', Output.coerce_row row = OK row') /\
     forall f, In f numeric_fields -> Dict.get f row <> Some JNull)).
  { unfold Output.coerce_row, Output.text_fields, Output.integer_fields,
      Output.float_fields.
    cbn [for_each].
    step_text "SubAdminID" v1 T1.
    step_text "SubAdminName" v2 T2.
    step_text "Result" v3 T3.
    destruct T4 as [->|(s4 & ->)].
    { rewrite coerce_integer_none by through_sets.
      left. split; [reflexivity|]. exists "n". simpl. tauto. }
    rewrite (coerce_integer_step _ _ s4) by through_sets.
    cbn [mbind result_bind].
    destruct T5 as [->|(s5 & ->)].
    { rewrite coerce_integer_none by through_sets.
      left. split; [reflexivity|]. exists "N". simpl. tauto. }
    rewrite (coerce_integer_step _ _ s5) by through_sets.
    cbn [mbind result_bind].
    destruct T6 as [->|(s6 & ->)].
    { rewrite coerce_float_none by through_sets.
      left. split; [reflexivity|]. exists "bayes". simpl. tauto. }
    rewrite (coerce_float_step _ _ s6) by through_sets.
    cbn [mbind result_bind].
    destruct T7 as [->|(s7 & ->)].
    { rewrite coerce_float_none by through_sets.
      left. split; [reflexivity|]. exists "freq". simpl. tauto. }
    rewrite (coerce_float_step _ _ s7) by through_sets.
    cbn [mbind result_bind].
    destruct T8 as [->|(s8 & ->)].
    { rewrite coerce_float_none by through_sets.
      left. split; [reflexivity|]. exists "freq.se". simpl. tauto. }
    rewrite (coerce_float_step _ _ s8) by through_sets.
    cbn [mbind result_bind].
    right. split; [eauto|].
    intros f Hf. simpl in Hf.
    destruct Hf as [<-|[<-|[<-|[<-|[<-|[]]]]]]; congruence. }
  split.
  - intros (f & Hf & Hnone).
    destruct Hcases as [[Hraise _]|[_ Hall]]; [exact Hraise|].
    exfalso. exact (Hall f Hf Hnone).
  - intros Hall. destruct Hcases as [[_ (f & Hf & Hnone)]|[Hok _]];
      [|exact Hok].
    exfalso. exact (Hall f Hf Hnone).
Qed.

(** ** The attachments list *)

(** X12.  [add_item_to_json_file_list] on a file that holds a JSON list
    appends the item after the items already there and touches nothing else.
    On a missing file, on a file that is not JSON and on JSON that is not a
    list it raises [FileNotFoundError], [JSONDecodeError] and [ValueError]
    respectively, after printing one line, and leaves every file and both
    logs as they were. *)
Theorem add_item_appends_or_raises (file_path : string) (new_item : json)
    (w : world) :
  (forall l,
      files w !! file_path = Some (FJson (JArr l)) ->
      add_item_to_json_file_list file_path new_item w =
        (OK tt,
         mkWorld (<[file_path := FJson (JArr (l ++ [new_item]))]> (files w))
                 (info_html w) (execution_log w) (stdout w))) /\
  (forall e,
      (files w !! file_path = None /\ e = FileNotFoundError) \/
      ((exists f, files w !! file_path = Some f /\
                  forall v, f <> FJson v) /\ e = JSONDecodeError) \/
      ((exists v, files w !! file_path = Some (FJson v) /\
                  forall l, v <> JArr l) /\ e = ValueError) ->
      exists w',
        add_item_to_json_file_list file_path new_item w = (Raise e, w') /\
        files w' = files w /\ info_html w' = info_html w /\
        execution_log w' = execution_log w /\
        exists msg, stdout w' = (stdout w ++ [msg])%list).
Proof.
  split.
  - intros l H. unfold add_item_to_json_file_list, try_except.
    unfold mbind at 1, script_bind, open_read. rewrite H.
    unfold mbind, script_bind, lift. reflexivity.
  - intros e He. unfold add_item_to_json_file_list, try_except.
    unfold mbind at 1, script_bind at 1, open_read.
    destruct He as [[H ->]|[[(f & H & Hf) ->]|[(v & H & Hv) ->]]];
      rewrite H.
    + unfold mbind, script_bind, print, raise. cbn. eauto 10.
    + unfold mbind at 1, script_bind at 1, lift at 1.
      destruct f as [v| | |]; [now destruct (Hf v)|..];
        unfold mbind, script_bind, print, raise; cbn; eauto 10.
    + unfold mbind at 1, script_bind at 1, lift at 1. cbn [json_load].
      destruct v; try (now edestruct Hv);
        unfold mbind, script_bind, print, raise; cbn; eauto 10.
Qed.


(** ** The files the input script writes *)

Lemma touches_setup names now_html now_log :
  In "attachments.json" names ->
  touches_only names (InputScript.setup now_html now_log).
Proof.
  intros H. unfold InputScript.setup.
  apply touches_bind; [now apply touches_write_file|intros _].
  apply touches_bind; [now apply touches_add_item|intros _].
  apply touches_bind; [now apply touches_add_item|intros _].
  apply touches_bind; [intros w name _; reflexivity|intros _].
  frame.
Qed.

Lemma touches_process_parameters names :
  touches_only names InputScript.process_parameters.
Proof.
  unfold InputScript.process_parameters. frame. destruct b; frame.
Qed.

Lemma touches_process_subadmin_areas names :
  In "sub_administrative_area.csv" names ->
  touches_only names InputScript.process_subadmin_areas.
Proof.
  intros H. unfold InputScript.process_subadmin_areas. frame.
Qed.

Lemma touches_process_demography names areas :
  In "demography.csv" names ->
  touches_only names (InputScript.process_demography areas).
Proof.
  intros H. unfold InputScript.process_demography. frame.
  apply touches_log_demography.
Qed.

Lemma touches_process_sample_file names :
  In "sample.csv" names ->
  touches_only names InputScript.process_sample_file.
Proof.
  intros H. unfold InputScript.process_sample_file. frame.
Qed.

Lemma touches_main now_html now_log :
  touches_only input_outputs (InputScript.main now_html now_log).
Proof.
  unfold InputScript.main.
  apply touches_bind; [apply touches_setup; simpl; tauto|intros _].
  apply touches_bind; [apply touches_process_parameters|intros params].
  apply touches_bind;
    [apply touches_process_subadmin_areas; simpl; tauto|intros areas].
  apply touches_bind;
    [apply touches_process_demography; simpl; tauto|intros _].
  apply touches_bind;
    [apply touches_process_sample_file; simpl; tauto|intros _].
  apply touches_write_csv. simpl. tauto.
Qed.

(** X13.  Whatever the working directory holds and however the run ends,
    the input script changes no file other than attachments.json, the four
    csv files and its two logs; in particular it never changes the files it
    reads. *)
Theorem input_script_writes_only_its_outputs (now_html now_log : string)
    (w : world) (name : string) :
  ~ In name ["attachments.json"; "sub_administrative_area.csv";
             "demography.csv"; "sample.csv"; "params.csv";
             "attachments/info.html"; "attachments/execution_log.log"] ->
  files (snd (InputScript.input_processing now_html now_log w)) !! name
  = files w !! name.
Proof.
  intros Hname.
  assert (Hout : ~ In name input_outputs) by (simpl in *; tauto).
  clear Hname. rename Hout into Hname.
  unfold InputScript.input_processing, run.
  pose proof (touches_main now_html now_log w name Hname) as Hmain.
  destruct (InputScript.main now_html now_log w) as [[[]|e] w1];
    simpl in *; [exact Hmain|].
  destruct e; exact Hmain.
Qed.

Lemma raises_within_touches {A : Type} names (m : script A) :
  touches_only names m -> raises_within names m.
Proof.
  intros H w e w' Hrun name Hname. specialize (H w name Hname).
  now rewrite Hrun in H.
Qed.

Lemma raises_within_bind {A B : Type} names (m : script B)
    (k : B -> script A) :
  touches_only names m -> (forall b, raises_within names (k b)) ->
  raises_within names (m ≫= k).
Proof.
  intros Hm Hk w e w' Hrun name Hname. unfold mbind, script_bind in Hrun.
  specialize (Hm w name Hname).
  destruct (m w) as [[b|e1] w1]; simpl in *.
  - rewrite <- Hm. eapply Hk; eassumption.
  - injection Hrun as <- <-. exact Hm.
Qed.

Lemma raises_within_bind_post {A B : Type} names (m : script B)
    (k : B -> script A) (P : B -> Prop) :
  touches_only names m ->
  (forall w b w', m w = (OK b, w') -> P b) ->
  (forall b, P b -> raises_within names (k b)) ->
  raises_within names (m ≫= k).
Proof.
  intros Hm HP Hk w e w' Hrun name Hname. unfold mbind, script_bind in Hrun.
  specialize (Hm w name Hname). specialize (HP w).
  destruct (m w) as [[b|e1] w1]; simpl in *.
  - rewrite <- Hm. eapply Hk; [|eassumption..]. eapply HP. reflexivity.
  - injection Hrun as <- <-. exact Hm.
Qed.

(** *** What the listing of the parameters shows *)

Lemma line_error_None l :
  line_error l = None <->
  forall p, In p l -> piece_raises p = false /\ piece_unencodable p = false.
Proof.
  unfold line_error.
  destruct (existsb piece_raises l) eqn:Er.
  - split; [discriminate|]. intros H.
    apply existsb_exists in Er as (p & Hp & Hr).
    destruct (H p Hp) as [Hr' _]. congruence.
  - destruct (existsb piece_unencodable l) eqn:Eu.
    + split; [discriminate|]. intros H.
      apply existsb_exists in Eu as (p & Hp & Hu).
      destruct (H p Hp) as [_ Hu']. congruence.
    + split; [|reflexivity]. intros _ p Hp. split.
      * destruct (piece_raises p) eqn:E; [|reflexivity].
        apply not_true_iff_false in Er. exfalso. apply Er.
        apply existsb_exists. eauto.
      * destruct (piece_unencodable p) eqn:E; [|reflexivity].
        apply not_true_iff_false in Eu. exfalso. apply Eu.
        apply existsb_exists. eauto.
Qed.

Lemma join_lines_In (p : piece) l ls :
  In l ls -> In p l -> In p (InputScript.join_lines ls).
Proof.
  induction ls as [|l0 ls IH]; [intros []|].
  intros Hl Hp. cbn [InputScript.join_lines].
  destruct ls as [|l1 ls].
  - destruct Hl as [->|[]]. exact Hp.
  - apply in_or_app. destruct Hl as [->|Hl]; [now left|].
    right. right. now apply IH.
Qed.

(** [str] of a value raises only if a line of its listing does. *)
Lemma format_item_printable indent :
  forall (value : json) (lvl : nat) (key : string),
    (forall l p, In l (InputScript.format_item indent lvl key value) ->
                 In p l -> piece_raises p = false) ->
    Text.str_raises value = false.
Proof.
  fix IH 1. intros value lvl key.
  destruct value as [| | | | | |d]; try reflexivity.
  - intros H. apply (H _ (PVal (JInt z)) (or_introl eq_refl)).
    simpl. tauto.
  - intros H. apply (H _ (PVal (JArr l)) (or_introl eq_refl)).
    simpl. tauto.
  - cbn [InputScript.format_item Text.str_raises]. intros H.
    assert (H' : forall l p,
               In l ((fix format_helper (data : list (string * json))
                        : list line :=
                        match data with
                        | [] => []
                        | (k, v) :: data' =>
                            (InputScript.format_item indent (lvl + indent) k v
                               ++ format_helper data')%list
                        end) d) ->
               In p l -> piece_raises p = false).
    { intros l p Hl. apply (H l p). now right. }
    clear H. revert d H'. fix IHd 1. intros [|[k v] d] H; [reflexivity|].
    cbn [existsb snd]. apply orb_false_iff. split.
    + apply (IH v (lvl + indent)%nat k). intros l p Hl.
      apply (H l p). apply in_or_app. now left.
    + apply IHd. intros l p Hl. apply (H l p). apply in_or_app. now right.
Qed.

Lemma stringify_writable fieldnames params :
  line_error (InputScript.json_stringify params) = None ->
  Csv.row_error fieldnames params = None.
Proof.
  intros Hline. apply row_error_None. intros k v _ Hv.
  apply get_In in Hv.
  pose proof (proj1 (line_error_None _) Hline) as Hp.
  assert (Hitem : forall l p,
             In l (InputScript.format_item 3 3 k v) -> In p l ->
             piece_raises p = false /\ piece_unencodable p = false).
  { intros l p Hl Hin. apply Hp.
    unfold InputScript.json_stringify. apply join_lines_In with (l := l);
      [|exact Hin].
    unfold InputScript.format_helper. apply in_flat_map.
    exists (k, v). auto. }
  split.
  - apply (format_item_printable 3 v 3%nat k).
    intros l p Hl Hin. now apply (Hitem l p).
  - destruct v; try reflexivity.
    apply (Hitem _ (PVal (JStr s)) (or_introl eq_refl)). simpl. tauto.
Qed.

Lemma process_parameters_writable w params w' :
  InputScript.process_parameters w = (OK params, w') ->
  line_error (InputScript.json_stringify params) = None.
Proof.
  destruct (files w !! InputScript.parameters_file_path) as [f|] eqn:Hfile.
  - destruct f as [v| | |].
    + destruct v as [| | | | | |d];
        try (unfold InputScript.process_parameters;
             unfold mbind at 1, script_bind at 1, try_except;
             unfold mbind at 1, script_bind at 1, open_read; rewrite Hfile;
             discriminate).
      intros Hrun.
      now apply process_parameters_returns with (d := d) in Hrun.
    + unfold InputScript.process_parameters.
      unfold mbind at 1, script_bind at 1, try_except.
      unfold mbind at 1, script_bind at 1, open_read. rewrite Hfile.
      discriminate.
    + unfold InputScript.process_parameters.
      unfold mbind at 1, script_bind at 1, try_except.
      unfold mbind at 1, script_bind at 1, open_read. rewrite Hfile.
      discriminate.
    + unfold InputScript.process_parameters.
      unfold mbind at 1, script_bind at 1, try_except.
      unfold mbind at 1, script_bind at 1, open_read. rewrite Hfile.
      discriminate.
  - intros Hrun. now rewrite process_parameters_missing in Hrun.
Qed.

(** X14.  params.csv is the last thing the input script writes: when the
    script raises anything, at any stage, params.csv has not been created or
    changed, and no file but attachments.json, the other three csv files and
    the two logs has. *)
Theorem params_csv_only_at_the_end (now_html now_log : string)
    (w w' : world) (e : exn) :
  InputScript.main now_html now_log w = (Raise e, w') ->
  files w' !! "params.csv" = files w !! "params.csv" /\
  forall name,
    ~ In name ["attachments.json"; "sub_administrative_area.csv";
               "demography.csv"; "sample.csv"; "attachments/info.html";
               "attachments/execution_log.log"] ->
    files w' !! name = files w !! name.
Proof.
  assert (H : raises_within earlier_outputs
                (InputScript.main now_html now_log)).
  { unfold InputScript.main.
    apply raises_within_bind; [apply touches_setup; simpl; tauto|intros _].
    apply raises_within_bind_post
      with (P := fun params =>
                   Csv.row_error InputScript.params_fieldnames params = None);
      [apply touches_process_parameters
      |intros w0 params w0' Hrun; apply stringify_writable;
       eapply process_parameters_writable; exact Hrun
      |intros params Hparams].
    apply raises_within_bind;
      [apply touches_process_subadmin_areas; simpl; tauto|intros areas].
    apply raises_within_bind;
      [apply touches_process_demography; simpl; tauto|intros _].
    apply raises_within_bind;
      [apply touches_process_sample_file; simpl; tauto|intros _].
    intros w0 e0 w0' Hrun. rewrite write_csv_run in Hrun.
    cbn [Csv.written] in Hrun. rewrite Hparams in Hrun. discriminate Hrun. }
  intros Hrun. split.
  - apply (H _ _ _ Hrun). simpl. intros [|[|[|[|[]]]]]; discriminate.
  - intros name Hname. apply (H _ _ _ Hrun). simpl in *. tauto.
Qed.

(** ** Failing stages of the input script *)

Lemma raises_within_nothing {A : Type} (m : script A) :
  raises_within [] m ->
  forall w e w', m w = (Raise e, w') -> files w' = files w.
Proof.
  intros H w e w' Hrun. apply map_eq. intros name.
  apply (H _ _ _ Hrun). simpl. tauto.
Qed.

Lemma write_csv_raises name fieldnames rows w e w' :
  InputScript.write_csv name fieldnames rows w = (Raise e, w') ->
  partial_csv name fieldnames rows e (files w) (files w').
Proof.
  rewrite write_csv_run.
  destruct (written_spec fieldnames rows) as (done & Hlines & Hdone & Hrest).
  destruct (snd (Csv.written fieldnames rows)) as [e1|]; [|discriminate].
  intros [= <- <-]. destruct Hrest as (bad & rest & -> & Hbad).
  exists done, bad, rest. cbn [files]. rewrite Hlines. auto.
Qed.

Lemma write_csv_last name fieldnames rows w0 w e w' :
  files w = files w0 ->
  InputScript.write_csv name fieldnames rows w = (Raise e, w') ->
  partial_csv name fieldnames rows e (files w0) (files w').
Proof. intros <-. apply write_csv_raises. Qed.

(** X15.  Each of the three stages that write a csv file writes it as its
    last step.  When the stage raises, either it has written no file at all
    (a missing input file, a record without a required field, a value of the
    wrong type), or the exception comes from its csv writer at a row that
    cannot be written: the csv file then holds the header and the lines of
    the rows before that one, so a partial file is left, and no other file
    has changed. *)
Theorem failing_stage_leaves_partial_csv :
  (forall w e w',
      InputScript.process_subadmin_areas w = (Raise e, w') ->
      files w' = files w \/
      exists subadmin_areas rows,
        files w !! "sub_administrative_area.ndJson"
          = Some (FNdjson subadmin_areas) /\
        Input.subadmin_areas_data subadmin_areas = OK rows /\
        partial_csv "sub_administrative_area.csv"
          InputScript.subadmin_fieldnames rows e (files w) (files w')) /\
  (forall areas w e w',
      InputScript.process_demography areas w = (Raise e, w') ->
      files w' = files w \/
      exists demography converted rows,
        files w !! "demography.ndJson" = Some (FNdjson demography) /\
        Input.convert_demography areas demography = OK converted /\
        Input.demography_data converted = OK rows /\
        partial_csv "demography.csv" InputScript.demography_fieldnames
          rows e (files w) (files w')) /\
  (forall w e w',
      InputScript.process_sample_file w = (Raise e, w') ->
      files w' = files w \/
      exists sample_data rows,
        files w !! "sample.ndJson" = Some (FNdjson sample_data) /\
        Input.process_samples sample_data = OK rows /\
        partial_csv "sample.csv" InputScript.sample_fieldnames rows e
          (files w) (files w')).
Proof.
  split; [|split].
  - intros w e w' Hrun. unfold InputScript.process_subadmin_areas in Hrun.
    apply script_bind_Raise in Hrun as [Hrun|(l & w1 & Hread & Hrun)].
    { left. apply (f_equal snd) in Hrun. cbn [snd] in Hrun. rewrite <- Hrun.
      apply touches_nothing. frame. }
    apply read_records_OK in Hread as [Hfile Hw1];
      [|intros; apply exit_never_returns].
    apply script_bind_Raise in Hrun as [Hrun|(rows & w2 & Hrows & Hrun)].
    { left. injection Hrun as _ <-. exact Hw1. }
    unfold lift in Hrows. injection Hrows as Hrows <-.
    apply script_bind_Raise in Hrun as [Hrun|(u & w3 & _ & Hrun)];
      [|discriminate Hrun].
    right. exists l, rows. split; [exact Hfile|]. split; [exact Hrows|].
    eapply write_csv_last; eassumption.
  - intros areas w e w' Hrun. unfold InputScript.process_demography in Hrun.
    apply script_bind_Raise in Hrun as [Hrun|(l & w1 & Hread & Hrun)].
    { left. apply (f_equal snd) in Hrun. cbn [snd] in Hrun. rewrite <- Hrun.
      apply touches_nothing. frame. }
    apply read_records_OK in Hread as [Hfile Hw1];
      [|intros; apply exit_never_returns].
    apply script_bind_Raise in Hrun as [Hrun|(l' & w2 & Hconv & Hrun)].
    { left. injection Hrun as _ <-. exact Hw1. }
    unfold lift in Hconv. injection Hconv as Hconv <-.
    apply script_bind_Raise in Hrun as [Hrun|(rows & w2 & Hrows & Hrun)].
    { left. injection Hrun as _ <-. exact Hw1. }
    unfold lift in Hrows. injection Hrows as Hrows <-.
    apply script_bind_Raise in Hrun as [Hrun|([] & w2 & Hlog & Hrun)].
    { left. apply (f_equal snd) in Hrun. cbn [snd] in Hrun. rewrite <- Hrun.
      rewrite touches_nothing by frame. exact Hw1. }
    apply (f_equal snd) in Hlog. cbn [snd] in Hlog.
    assert (Hw2 : files w2 = files w).
    { rewrite <- Hlog, touches_nothing by frame. exact Hw1. }
    apply script_bind_Raise in Hrun as [Hrun|([] & w3 & Hlog3 & Hrun)].
    { left. apply (f_equal snd) in Hrun. cbn [snd] in Hrun. rewrite <- Hrun.
      rewrite touches_nothing by apply touches_log_demography. exact Hw2. }
    apply (f_equal snd) in Hlog3. cbn [snd] in Hlog3.
    assert (Hw3 : files w3 = files w).
    { rewrite <- Hlog3, touches_nothing by apply touches_log_demography.
      exact Hw2. }
    right. exists l, l', rows. split; [exact Hfile|].
    split; [exact Hconv|]. split; [exact Hrows|].
    eapply write_csv_last; eassumption.
  - intros w e w' Hrun. unfold InputScript.process_sample_file in Hrun.
    apply script_bind_Raise in Hrun as [Hrun|(l & w1 & Hread & Hrun)].
    { left. apply (f_equal snd) in Hrun. cbn [snd] in Hrun. rewrite <- Hrun.
      apply touches_nothing. frame. }
    apply read_records_OK in Hread as [Hfile Hw1];
      [|intros; apply exit_never_returns].
    apply script_bind_Raise in Hrun as [Hrun|(rows & w2 & Hrows & Hrun)].
    { left. injection Hrun as _ <-. exact Hw1. }
    unfold lift in Hrows. injection Hrows as Hrows <-.
    right. exists l, rows. split; [exact Hfile|]. split; [exact Hrows|].
    eapply write_csv_last; eassumption.
Qed.

(** X16.  Each of the three stages, when the file it reads is absent, ends
    the run with [sys.exit(1)] after writing the error to the execution log
    and the heading ERROR and a note to info.html; it writes nothing
    else. *)
Theorem missing_input_file_exits (w : world) :
  (files w !! "sub_administrative_area.ndJson" = None ->
   InputScript.process_subadmin_areas w =
     (Raise (SystemExit 1),
      after_missing_file w
        "sub_administrative_area.ndJson File does not exist."
        "Subadmin areas (sub_administrative_area.ndJson) file was expected but not found."))
  /\
  (forall areas,
      files w !! "demography.ndJson" = None ->
      InputScript.process_demography areas w =
        (Raise (SystemExit 1),
         after_missing_file w "demography.json file does not exist."
           "Demography (demography.json) file was expected but not found."))
  /\
  (files w !! "sample.ndJson" = None ->
   InputScript.process_sample_file w =
     (Raise (SystemExit 1),
      after_missing_file w "sample.ndJjon File does not exist."
        "Sample (sample.ndJson) file was expected but not found.")).
Proof.
  split; [|split].
  - intros H. unfold InputScript.process_subadmin_areas.
    unfold mbind at 1, script_bind at 1, try_except.
    unfold mbind at 1, script_bind at 1, open_read.
    change InputScript.subadmin_file_path
      with "sub_administrative_area.ndJson".
    rewrite H. cbn [is_FileNotFoundError].
    unfold mbind, script_bind, logging, model_log_html, sys_exit, raise,
      after_missing_file.
    cbn [files info_html execution_log stdout line_error existsb
       piece_raises piece_unencodable orb].
    now rewrite <- app_assoc.
  - intros areas H. unfold InputScript.process_demography.
    unfold mbind at 1, script_bind at 1, try_except.
    unfold mbind at 1, script_bind at 1, open_read.
    change InputScript.demography_file_path with "demography.ndJson".
    rewrite H. cbn [is_FileNotFoundError].
    unfold mbind, script_bind, logging, model_log_html, sys_exit, raise,
      after_missing_file.
    cbn [files info_html execution_log stdout line_error existsb
       piece_raises piece_unencodable orb].
    now rewrite <- app_assoc.
  - intros H. unfold InputScript.process_sample_file.
    unfold mbind at 1, script_bind at 1, try_except.
    unfold mbind at 1, script_bind at 1, open_read.
    change InputScript.sample_file_path with "sample.ndJson".
    rewrite H. cbn [is_FileNotFoundError].
    unfold mbind, script_bind, logging, model_log_html, sys_exit, raise,
      after_missing_file.
    cbn [files info_html execution_log stdout line_error existsb
       piece_raises piece_unencodable orb].
    now rewrite <- app_assoc.
Qed.

Lemma getitem_raises v k e :
  getitem v k = Raise e -> e = KeyError \/ e = TypeError.
Proof.
  destruct v; simpl; try (intros [= <-]; auto).
  unfold Dict.item. destruct (Dict.get k d); [discriminate|].
  intros [= <-]. auto.
Qed.

Lemma provider_area_raises params e :
  provider_area params = Raise e -> e = KeyError \/ e = TypeError.
Proof.
  unfold provider_area.
  destruct (getitem params "_provider") as [p|e1] eqn:E1;
    cbn [mbind result_bind].
  - destruct (getitem p "_administrative_area") as [a|e2] eqn:E2;
      cbn [mbind result_bind].
    + apply getitem_raises.
    + intros [= <-]. eapply getitem_raises. exact E2.
  - intros [= <-]. eapply getitem_raises. exact E1.
Qed.

Lemma process_parameters_without_provider w params e :
  files w !! InputScript.parameters_file_path = Some (FJson params) ->
  provider_area params = Raise e ->
  InputScript.process_parameters w =
    (Raise e,
     mkWorld (files w) (info_html w)
             (execution_log w ++
                [(INFO, [PStr "Parameter file loaded successfully"])])
             (stdout w)).
Proof.
  intros Hfile Hp. unfold InputScript.process_parameters.
  unfold mbind at 1, script_bind at 1, try_except.
  unfold mbind at 1, script_bind at 1, open_read. rewrite Hfile.
  unfold mbind at 1, script_bind at 1, lift at 1. cbn [json_load].
  unfold mbind at 1, script_bind at 1, logging at 1.
  unfold mret at 1, script_ret at 1.
  unfold mbind at 1, script_bind at 1, lift at 1.
  change (getitem params "_provider" ≫= _) with (provider_area params).
  rewrite Hp. reflexivity.
Qed.

(** X17.  A parameter set from which the provider's area cannot be read (no
    [_provider], or one of another shape) ends the run with status 1 by an
    exception nobody catches: the execution log records the uncaught
    [KeyError] or [TypeError], info.html holds its opening lines only,
    without any error note, and no csv file is written. *)
Theorem parameters_without_provider (now_html now_log : string) (w : world)
    (params : json) (e : exn) :
  files w !! "params.json" = Some (FJson params) ->
  provider_area params = Raise e ->
  (e = KeyError \/ e = TypeError) /\
  exists w',
    InputScript.input_processing now_html now_log w = (1, w') /\
    execution_log w' =
      (setup_execution_log now_log ++
         [(INFO, [PStr "Parameter file loaded successfully"]);
          (ERROR, [PStr "Uncaught exception:"; PExn e])])%list /\
    info_html w' = setup_info_html now_html /\
    files w' = <["attachments.json" := setup_attachments]> (files w).
Proof.
  intros Hfile Hp.
  pose proof (provider_area_raises _ _ Hp) as He. split; [exact He|].
  unfold InputScript.input_processing, run, InputScript.main.
  unfold mbind at 1, script_bind at 1. rewrite setup_spec.
  unfold mbind at 1, script_bind at 1.
  rewrite (process_parameters_without_provider _ params e);
    [|cbn [files]; rewrite lookup_insert_ne by discriminate; exact Hfile
     |exact Hp].
  cbn [files info_html execution_log stdout line_error existsb
       piece_raises piece_unencodable orb].
  destruct He as [->| ->]; eexists; (split; [reflexivity|]);
    cbn [files info_html execution_log stdout snd
         InputScript.handle_uncaught_exception logging];
    rewrite <- app_assoc; auto.
Qed.

(** ** The output script *)

Lemma output_main_converted w rows rows' :
  files w !! OutputScript.model_output_file = Some (FTable rows) ->
  Output.coerce rows = OK rows' ->
  OutputScript.main w =
    (add_item_to_json_file_list attachments_json_path output_attachment;;
     model_log_html [PStr "Model exports successfully created."] "p")
      (mkWorld (<[OutputScript.model_output_json_path :=
                    FJson (JArr (map JObj rows'))]> (files w))
               (info_html w ++ [("h3", [PStr "Model Exports"])])
               (execution_log w) (stdout w)).
Proof.
  intros Hfile Hok. unfold OutputScript.main.
  unfold mbind at 1, script_bind at 1.
  rewrite model_log_html_run by reflexivity.
  unfold mbind at 1, script_bind at 1, open_read.
  cbn [files]. rewrite Hfile.
  unfold mbind at 1, script_bind at 1, lift at 1. cbn [DictReader].
  unfold mbind at 1, script_bind at 1, OutputScript.convert_fields,
    try_except, lift.
  rewrite Hok.
  unfold mbind at 1, script_bind at 1, write_file at 1.
  reflexivity.
Qed.

(** X18.  Given a table of rows whose coerced fields hold text and an
    attachments list, the output script ends with status 0: output.json holds
    one object per row of the table, in the order of the table, each the row
    at its place with its eight fields coerced and every other field as it
    was; the entry for output.json is appended to the attachments list;
    info.html gains the heading and the success line; the execution log
    gains nothing. *)
Theorem output_script_succeeds (w : world) (rows : list dict)
    (l : list json) :
  files w !! "attachments/SimpleUndetectedPrevalenceEstimatorOutput.csv"
    = Some (FTable rows) ->
  files w !! "attachments.json" = Some (FJson (JArr l)) ->
  Forall all_text rows ->
  exists rows' w',
    Output.coerce rows = OK rows' /\
    length rows' = length rows /\
    Forall2 coerced_row rows rows' /\
    OutputScript.output_processing w = (0, w') /\
    files w' =
      <["attachments.json" := FJson (JArr (l ++ [output_attachment]))]>
        (<["attachments/output.json" := FJson (JArr (map JObj rows'))]>
           (files w)) /\
    info_html w' =
      (info_html w ++
         [("h3", [PStr "Model Exports"]);
          ("p", [PStr "Model exports successfully created."])])%list /\
    execution_log w' = execution_log w.
Proof.
  intros Hfile Hatt Hrows.
  destruct (coerce_rows_spec rows Hrows) as (rows' & Hok & Hall).
  exists rows'. eexists. split; [exact Hok|]. split.
  { symmetry. eapply Forall2_length. exact Hall. }
  split.
  { eapply Forall2_impl; [exact Hall|]. now intros row row' [_ H]. }
  unfold OutputScript.output_processing, run.
  rewrite (output_main_converted w rows rows' Hfile Hok).
  unfold mbind at 1, script_bind at 1.
  rewrite (add_item_to_list _ _ _ l)
    by (cbn [files]; rewrite lookup_insert_ne by discriminate; exact Hatt).
  unfold model_log_html. cbn [files info_html execution_log stdout line_error existsb
       piece_raises piece_unencodable orb].
  split; [reflexivity|]. cbn [files info_html execution_log stdout line_error existsb
       piece_raises piece_unencodable orb].
  rewrite <- app_assoc. auto.
Qed.

(** X19.  Without the table of model results the output script ends with
    status 1 by an uncaught [FileNotFoundError]: the execution log gains the
    record of it, info.html gains the heading only, and nothing else is
    written. *)
Theorem output_script_without_table (w : world) :
  files w !! "attachments/SimpleUndetectedPrevalenceEstimatorOutput.csv"
    = None ->
  exists w',
    OutputScript.output_processing w = (1, w') /\
    files w' = files w /\
    info_html w' = (info_html w ++ [("h3", [PStr "Model Exports"])])%list /\
    execution_log w' =
      (execution_log w ++
         [(ERROR,
           [PExn FileNotFoundError; PStr " error has occurred with value: ";
            PExn FileNotFoundError; PStr ". Traceback: ";
            PExn FileNotFoundError])])%list.
Proof.
  intros Hfile. unfold OutputScript.output_processing, run, OutputScript.main.
  unfold mbind at 1, script_bind at 1.
  rewrite model_log_html_run by reflexivity.
  unfold mbind at 1, script_bind at 1, open_read.
  cbn [files].
  change OutputScript.model_output_file
    with "attachments/SimpleUndetectedPrevalenceEstimatorOutput.csv".
  rewrite Hfile. cbn. eauto.
Qed.

(** X20.  When the conversion succeeds but attachments.json is absent, the
    output script has already written output.json when it fails: the run
    ends with status 1, output.json holds the coerced rows, the uncaught
    [FileNotFoundError] is in the execution log, one line is printed, and
    the success line is not added to info.html. *)
Theorem output_written_before_attachments (w : world) (rows rows' : list dict) :
  files w !! "attachments/SimpleUndetectedPrevalenceEstimatorOutput.csv"
    = Some (FTable rows) ->
  Output.coerce rows = OK rows' ->
  files w !! "attachments.json" = None ->
  exists w',
    OutputScript.output_processing w = (1, w') /\
    files w' =
      <["attachments/output.json" := FJson (JArr (map JObj rows'))]>
        (files w) /\
    info_html w' = (info_html w ++ [("h3", [PStr "Model Exports"])])%list /\
    execution_log w' =
      (execution_log w ++
         [(ERROR,
           [PExn FileNotFoundError; PStr " error has occurred with value: ";
            PExn FileNotFoundError; PStr ". Traceback: ";
            PExn FileNotFoundError])])%list /\
    exists msg, stdout w' = (stdout w ++ [msg])%list.
Proof.
  intros Hfile Hok Hatt.
  unfold OutputScript.output_processing, run.
  rewrite (output_main_converted w rows rows' Hfile Hok).
  unfold mbind at 1, script_bind at 1.
  unfold add_item_to_json_file_list, try_except.
  unfold mbind at 1, script_bind at 1, open_read. cbn [files].
  rewrite lookup_insert_ne by discriminate.
  change attachments_json_path with "attachments.json".
  rewrite Hatt. cbn. eauto 10.
Qed.

Lemma touches_output_main :
  touches_only output_outputs OutputScript.main.
Proof.
  unfold OutputScript.main, OutputScript.convert_fields. frame.
Qed.

Lemma appends_output_main : appends_only OutputScript.main.
Proof.
  unfold OutputScript.main, OutputScript.convert_fields. frame.
Qed.

(** X21.  However the run ends, the output script changes no file other
    than output.json, attachments.json and the two logs, and to info.html and
    the execution log it only adds: the lines the input script and the model
    left there stay. *)
Theorem output_script_keeps_files_and_logs (w : world) :
  (forall name,
      ~ In name ["attachments/output.json"; "attachments.json";
                 "attachments/info.html"; "attachments/execution_log.log"] ->
      files (snd (OutputScript.output_processing w)) !! name
      = files w !! name) /\
  (exists more,
      info_html (snd (OutputScript.output_processing w))
      = (info_html w ++ more)%list) /\
  (exists more,
      execution_log (snd (OutputScript.output_processing w))
      = (execution_log w ++ more)%list).
Proof.
  unfold OutputScript.output_processing, run.
  assert (Hfiles : forall name,
             ~ In name ["attachments/output.json"; "attachments.json";
                        "attachments/info.html";
                        "attachments/execution_log.log"] ->
             files (snd (OutputScript.main w)) !! name = files w !! name).
  { intros name Hname. apply touches_output_main. simpl in *. tauto. }
  destruct (appends_output_main w) as [(h & Hh) (l & Hl)].
  destruct (OutputScript.main w) as [[[]|e] w1]; simpl in *.
  - eauto.
  - destruct e; simpl; rewrite ?Hh, ?Hl; repeat split;
      try exact Hfiles; eauto; rewrite <- app_assoc; eauto.
Qed.

(** ** The parameters in info.html *)

Lemma format_item_length indent :
  forall (value : json) (lvl : nat) (key : string),
    length (InputScript.format_item indent lvl key value)
    = S (count_keys value).
Proof.
  fix IH 1. intros value lvl key.
  destruct value as [| | | | | |d]; try reflexivity.
  cbn [InputScript.format_item count_keys length]. f_equal.
  revert d. fix IHd 1. intros [|[k v] d]; [reflexivity|].
  rewrite length_app, IH, IHd. reflexivity.
Qed.

(** X22.  The lines that [json_stringify] joins (those of its
    [format_helper]) list every key of the dictionary on a line of its own,
    the keys of nested dictionaries included: the number of lines is the
    number of keys at all levels; and a dictionary without nested
    dictionaries gives, for each key in order, the line made of three spaces,
    the key, a colon and a space, and the value. *)
Theorem json_stringify_one_line_per_key (data : dict) :
  InputScript.json_stringify data
  = InputScript.join_lines (InputScript.format_helper 3 3 data) /\
  length (InputScript.format_helper 3 3 data) = count_keys (JObj data) /\
  ((forall k d, ~ In (k, JObj d) data) ->
   InputScript.format_helper 3 3 data =
     map (fun kv => [PStr "   "; PVal (JStr (fst kv)); PStr ": ";
                     PVal (snd kv)]) data).
Proof.
  split; [reflexivity|]. split.
  - unfold InputScript.format_helper.
    induction data as [|[k v] data IH]; [reflexivity|].
    cbn [flat_map fst snd]. rewrite length_app, format_item_length, IH.
    reflexivity.
  - intros Hflat. unfold InputScript.format_helper.
    induction data as [|[k v] data IH]; [reflexivity|].
    cbn [flat_map map fst snd]. rewrite IH.
    + destruct v as [| | | | | |d]; try reflexivity.
      exfalso. apply (Hflat k d). now left.
    + intros k' d' Hin. apply (Hflat k' d'). now right.
Qed.

(** ** Values that are not numbers *)

Lemma append_empty (a : string) : (a ++ EmptyString)%string = a.
Proof.
  induction a as [|c a IH]; [reflexivity|].
  change (String c (a ++ EmptyString)%string = String c a). now rewrite IH.
Qed.

Lemma append_assoc (a b c : string) :
  ((a ++ b) ++ c)%string = (a ++ (b ++ c))%string.
Proof.
  induction a as [|x a IH]; [reflexivity|].
  change (String x ((a ++ b) ++ c)%string = String x (a ++ (b ++ c))%string).
  now rewrite IH.
Qed.

Lemma concat_cons (s : string) (ss : list string) :
  String.concat EmptyString (s :: ss)
  = (s ++ String.concat EmptyString ss)%string.
Proof.
  destruct ss; cbn [String.concat]; [|reflexivity].
  now rewrite append_empty.
Qed.

Lemma sum_from_strs a ss :
  sum_from (JStr a) (map JStr ss)
  = OK (JStr (a ++ String.concat EmptyString ss)).
Proof.
  unfold sum_from. revert a. induction ss as [|s ss IH]; intros a.
  - cbn. now rewrite append_empty.
  - cbn [map for_each py_iadd as_int as_float mbind result_bind].
    rewrite IH, concat_cons, append_assoc. reflexivity.
Qed.

Lemma contributions_strs k points :
  Forall (fun kv => exists s, snd kv = JStr s) points ->
  contributions k points = map JStr (str_contributions k points).
Proof.
  induction 1 as [|[k0 v0] points (s & Hs) _ IH]; [reflexivity|].
  simpl in Hs. subst v0. rewrite contributions_cons.
  unfold str_contributions. simpl. fold (str_contributions k points).
  destruct (String.eqb k0 k); simpl; now rewrite IH.
Qed.

(** X23.  The summation uses [+=] on whatever the data mappings hold: when
    every value is text, the aggregator returns and the row of each area id
    holds the texts given for it joined end to end, not a number; and when an
    integer given for an area is followed by a text for the same area, the
    aggregator does not return. *)
Theorem totals_of_text_values (demography : list json) (datas : list dict) :
  Forall2 reads_data demography datas ->
  (Forall (fun kv => exists s, snd kv = JStr s) (concat datas) ->
   exists rows,
     Input.demography_data demography = OK rows /\
     forall k,
       In k (Dict.keys (concat datas)) ->
       In [("_id", JStr k);
           ("value",
            JStr (String.concat EmptyString
                    (str_contributions k (concat datas))))]
          rows) /\
  (forall k z s rest,
      contributions k (concat datas) = JInt z :: JStr s :: rest ->
      exists e, Input.demography_data demography = Raise e).
Proof.
  intros Hr. split.
  - intros Hstrs.
    destruct (sum_points_total (concat datas) []) as (totals & Hsum).
    { intros k Hin. simpl.
      destruct (contributions_In _ _ Hin) as (first & rest & Hc).
      rewrite Hc. change (exists o, running (Some first) rest = OK o).
      rewrite running_Some.
      rewrite (contributions_strs k _ Hstrs) in Hc.
      destruct (str_contributions k (concat datas)) as [|z zs];
        [discriminate|].
      injection Hc as <- <-. rewrite sum_from_strs. simpl. eauto. }
    exists (map Input.demography_row totals). split.
    + unfold Input.demography_data, Input.demography_data_dict.
      rewrite (sum_records_points _ _ _ Hr), Hsum. reflexivity.
    + intros k Hin.
      destruct (total_of_area _ _ k Hsum Hin)
        as (first & rest & t & Hc & Hs & Ht).
      rewrite (contributions_strs k _ Hstrs) in Hc.
      destruct (str_contributions k (concat datas)) as [|z zs] eqn:Hk;
        [discriminate|].
      injection Hc as <- <-. rewrite sum_from_strs in Hs. injection Hs as <-.
      apply get_In in Ht.
      rewrite concat_cons.
      change (In (Input.demography_row
                    (k, JStr (z ++ String.concat EmptyString zs)))
                 (map Input.demography_row totals)).
      now apply in_map.
  - intros k z s rest Hc.
    destruct (Input.demography_data demography) as [rows|e] eqn:Hrun;
      [|eauto].
    exfalso.
    destruct (demography_data_points _ _ _ Hr Hrun) as (totals & Hsum & _).
    apply sum_points_spec in Hsum as [_ Hvals]. specialize (Hvals k).
    rewrite Hc in Hvals. discriminate Hvals.
Qed.

(** X24.  In a density record (with distinct area ids), a data point whose
    area id is the [_id] of an area must be a number, and so must the land
    area of the first such area: if either is text, null, a list or a
    dictionary, the conversion of the record does not return. *)
Theorem conversion_needs_numbers (areas before after : list dict)
    (sa d data : dict) (k : string) (v : json) :
  Dict.get "metric" d = Some (JStr "deer density") ->
  Dict.get "data" d = Some (JObj data) ->
  List.NoDup (Dict.keys data) ->
  In (k, v) data ->
  areas = (before ++ sa :: after)%list ->
  Forall (fun a => Dict.get "_id" a <> Some (JStr k)) before ->
  Dict.get "_id" sa = Some (JStr k) ->
  Csv.is_number v = false \/
  (forall aland, Dict.get "aland" sa = Some aland ->
                 Csv.is_number aland = false) ->
  exists e, Input.convert_demo areas (JObj d) = Raise e.
Proof.
  intros Hm Hd Hnd Hin -> Hb Hsa Hbad.
  destruct (Input.convert_demo (before ++ sa :: after) (JObj d))
    as [demo'|e] eqn:Hrun; [|eauto].
  exfalso. rewrite (convert_demo_density _ _ _ Hm Hd) in Hrun.
  inv_bind. unfold Input.convert_data in Ha.
  apply convert_items_spec in Ha as (Hvals & _ & _); [|exact Hnd|].
  2:{ intros k' v' Hin'. now apply In_get. }
  destruct (Hvals k v Hin) as (v' & Hv' & _).
  unfold converted_value in Hv'.
  rewrite (first_match_scan _ _ _ _ Hb Hsa) in Hv'.
  inv_bind. unfold Input.new_total_population, Dict.item in Ha.
  destruct (Dict.get "aland" sa) as [aland|] eqn:Haland; [|discriminate].
  apply bind_OK in Ha as (al & Hal1 & Ha). injection Hal1 as <-.
  apply bind_OK in Ha as (km & Hkm & Ha).
  apply bind_OK in Ha as (product & Hprod & _).
  destruct Hbad as [Hv|Hal].
  - destruct v; try discriminate Hv; discriminate Hprod.
  - specialize (Hal aland eq_refl).
    destruct aland; try discriminate Hal; discriminate Hkm.
Qed.

(** ** The further properties at concrete inputs *)

Lemma rename_key_moves_value_witness :
  Dict.get "id" (Input.rename_key example_sample "_id" "id")
    = Some (JStr "s1") /\
  Dict.get "_id" (Input.rename_key example_sample "_id" "id") = None.
Proof.
  destruct (rename_key_moves_value example_sample "_id" "id")
    as [_ Hpresent].
  - discriminate.
  - repeat constructor; simpl; intuition discriminate.
  - destruct (Hpresent (JStr "s1") eq_refl) as (Hnew & Hold & _).
    split; [exact Hnew|exact Hold].
Defined.

Lemma sample_area_id_resolved_witness :
  Dict.get "sub_administrative_area_id"
    [("species", JStr "deer"); ("sex", JStr "female"); ("tests", JArr []);
     ("_sub_administrative_area",
      JObj [("_id", JStr "36001"); ("name", JStr "Albany")]);
     ("result", JNull); ("sub_administrative_area_id", JStr "36001");
     ("id", JStr "s2")]
  = Some (JStr "36001").
Proof.
  destruct (sample_area_id_resolved example_sample_with_area
              [("species", JStr "deer"); ("sex", JStr "female");
               ("tests", JArr []);
               ("_sub_administrative_area",
                JObj [("_id", JStr "36001"); ("name", JStr "Albany")]);
               ("result", JNull);
               ("sub_administrative_area_id", JStr "36001");
               ("id", JStr "s2")])
    as [_ Harea].
  - vm_compute. reflexivity.
  - exact (Harea [("_id", JStr "36001"); ("name", JStr "Albany")] eq_refl).
Defined.

Lemma sample_with_null_area_raises_witness :
  Input.process_sample
    (JObj [("_id", JStr "s3"); ("tests", JArr []);
           ("_sub_administrative_area", JNull)])
  = Raise TypeError.
Proof.
  apply sample_with_null_area_raises.
  - exists []. split; [reflexivity|constructor].
  - reflexivity.
Defined.

Lemma sample_fields_after_processing_witness :
  Dict.get "_id"
    [("species", JStr "deer"); ("sex", JStr "female"); ("tests", JArr []);
     ("_sub_administrative_area",
      JObj [("_id", JStr "36001"); ("name", JStr "Albany")]);
     ("result", JNull); ("sub_administrative_area_id", JStr "36001");
     ("id", JStr "s2")] = None /\
  Dict.get "sex"
    [("species", JStr "deer"); ("sex", JStr "female"); ("tests", JArr []);
     ("_sub_administrative_area",
      JObj [("_id", JStr "36001"); ("name", JStr "Albany")]);
     ("result", JNull); ("sub_administrative_area_id", JStr "36001");
     ("id", JStr "s2")] = Dict.get "sex" example_sample_with_area.
Proof.
  destruct (sample_fields_after_processing example_sample_with_area
              [("species", JStr "deer"); ("sex", JStr "female");
               ("tests", JArr []);
               ("_sub_administrative_area",
                JObj [("_id", JStr "36001"); ("name", JStr "Albany")]);
               ("result", JNull);
               ("sub_administrative_area_id", JStr "36001");
               ("id", JStr "s2")])
    as (Hno & _ & _ & _ & Hother & _).
  - repeat constructor; simpl; intuition discriminate.
  - vm_compute. reflexivity.
  - split; [exact Hno|]. apply Hother. simpl. intuition discriminate.
Defined.

Lemma sample_needs_well_formed_tests_witness :
  exists r,
    JObj example_sample = JObj r /\
    Dict.get "tests" r <> None /\
    (forall tests, Dict.get "tests" r = Some (JArr tests) ->
                   Forall is_test tests) /\
    (forall r0, Dict.get "tests" r0 = None ->
                Input.process_sample (JObj r0) = Raise KeyError).
Proof.
  apply (sample_needs_well_formed_tests (JObj example_sample)
           [("species", JStr "deer");
            ("tests",
             JArr [JObj [("selected_definitive", JBool false);
                         ("result", JStr "negative")];
                   JObj [("selected_definitive", JBool true);
                         ("result", JStr "positive")]]);
            ("result", JStr "positive");
            ("sub_administrative_area_id", JNull); ("id", JStr "s1")]).
  vm_compute. reflexivity.
Defined.

Lemma written_lines_match_header_witness :
  exists done,
    files (snd (InputScript.write_csv "sub_administrative_area.csv"
                  InputScript.subadmin_fieldnames
                  [example_area; unwritable_area; other_area] example_world))
      !! "sub_administrative_area.csv"
    = Some (FCsv (Csv.writeheader InputScript.subadmin_fieldnames
                    :: Csv.writerows InputScript.subadmin_fieldnames done)) /\
    (fst (InputScript.write_csv "sub_administrative_area.csv"
            InputScript.subadmin_fieldnames
            [example_area; unwritable_area; other_area] example_world)
       = OK tt /\
     [example_area; unwritable_area; other_area] = done \/
     exists e bad rest,
       fst (InputScript.write_csv "sub_administrative_area.csv"
              InputScript.subadmin_fieldnames
              [example_area; unwritable_area; other_area] example_world)
         = Raise e /\
       [example_area; unwritable_area; other_area]
         = (done ++ bad :: rest)%list /\
       Csv.row_error InputScript.subadmin_fieldnames bad = Some e) /\
    Forall (fun l => length l = 4%nat)
           (Csv.writeheader InputScript.subadmin_fieldnames
              :: Csv.writerows InputScript.subadmin_fieldnames done).
Proof.
  destruct (written_lines_match_header "sub_administrative_area.csv"
              InputScript.subadmin_fieldnames
              [example_area; unwritable_area; other_area] example_world)
    as (done & Hfile & _ & Hrun & _ & _ & Hwidth & _).
  exists done. repeat split; assumption.
Defined.

Lemma conversion_runs_once_witness :
  Input.convert_demography [example_area]
    [JObj [("species", JStr "deer");
           ("metric", JStr "total population (converted from density)");
           ("season_year", JStr "2023");
           ("data", JObj [("36001", JInt 10)])]]
  = OK [JObj [("species", JStr "deer");
              ("metric", JStr "total population (converted from density)");
              ("season_year", JStr "2023");
              ("data", JObj [("36001", JInt 10)])]].
Proof.
  apply (conversion_runs_once [example_area] [example_density_record]).
  vm_compute. reflexivity.
Defined.

Lemma conversion_keeps_shape_witness :
  exists d' data',
    JObj [("species", JStr "deer");
          ("metric", JStr "total population (converted from density)");
          ("season_year", JStr "2023");
          ("data", JObj [("36001", JInt 10)])] = JObj d' /\
    Dict.keys d' = ["species"; "metric"; "season_year"; "data"] /\
    Dict.get "data" d' = Some (JObj data') /\
    Dict.keys data' = ["36001"].
Proof.
  destruct (conversion_keeps_shape [example_area]
              [("species", JStr "deer"); ("metric", JStr "deer density");
               ("season_year", JStr "2023");
               ("data", JObj [("36001", JFloat (Float.of_Z 5))])]
              [("36001", JFloat (Float.of_Z 5))]
              (JObj [("species", JStr "deer");
                     ("metric",
                      JStr "total population (converted from density)");
                     ("season_year", JStr "2023");
                     ("data", JObj [("36001", JInt 10)])]))
    as (d' & data' & Heq & Hkeys & _ & Hdata & Hdkeys & _).
  - reflexivity.
  - reflexivity.
  - repeat constructor. simpl. tauto.
  - vm_compute. reflexivity.
  - exists d', data'. repeat split; assumption.
Defined.

Lemma totals_of_integer_counts_witness :
  exists rows,
    Input.demography_data example_counts = OK rows /\
    In [("_id", JStr "X"); ("value", JInt 15)] rows.
Proof.
  destruct (totals_of_integer_counts example_counts
              [[("X", JInt 10)]; [("X", JInt 5)]; [("Y", JInt 3)]])
    as (rows & Hrun & Hrows).
  - repeat constructor.
  - repeat constructor; eexists; reflexivity.
  - exists rows. split; [exact Hrun|].
    apply (Hrows "X"). simpl. tauto.
Defined.

Lemma aggregator_needs_data_witness :
  exists datas,
    Forall2 reads_data example_counts datas /\
    Forall (fun demo => exists d data,
                demo = JObj d /\ Dict.get "data" d = Some (JObj data))
           example_counts /\
    forall row,
      In row [[("_id", JStr "X"); ("value", JInt 15)];
              [("_id", JStr "Y"); ("value", JInt 3)]] ->
      exists k t, row = [("_id", JStr k); ("value", t)] /\
                  In k (Dict.keys (concat datas)).
Proof.
  apply (aggregator_needs_data example_counts).
  vm_compute. reflexivity.
Defined.

Lemma none_in_numeric_field_raises_witness :
  Output.coerce_row short_row = Raise TypeError.
Proof.
  destruct (none_in_numeric_field_raises short_row) as [Hraise _].
  - intros f Hf. simpl in Hf.
    destruct Hf as [<-|[<-|[<-|[<-|[<-|[<-|[<-|[<-|[]]]]]]]]];
      eexists; (split; [reflexivity|]);
      first [left; reflexivity | right; eexists; reflexivity].
  - apply Hraise. exists "bayes". split; [simpl; tauto|reflexivity].
Defined.

Lemma add_item_appends_or_raises_witness :
  (exists w',
      add_item_to_json_file_list "attachments.json" output_attachment
        model_done_world = (OK tt, w')) /\
  (exists w',
      add_item_to_json_file_list "attachments.json" output_attachment
        example_world = (Raise FileNotFoundError, w') /\
      files w' = files example_world).
Proof.
  destruct (add_item_appends_or_raises "attachments.json" output_attachment
              model_done_world) as [Hok _].
  destruct (add_item_appends_or_raises "attachments.json" output_attachment
              example_world) as [_ Hraise].
  split.
  - eexists. apply Hok. reflexivity.
  - destruct (Hraise FileNotFoundError) as (w' & Hrun & Hfiles & _).
    + left. split; reflexivity.
    + exists w'. split; assumption.
Defined.

Lemma input_script_writes_only_its_outputs_witness :
  files (snd (InputScript.input_processing EmptyString EmptyString
                example_world)) !! "demography.ndJson"
  = files example_world !! "demography.ndJson".
Proof.
  apply input_script_writes_only_its_outputs.
  simpl. intuition discriminate.
Defined.

Lemma params_csv_only_at_the_end_witness :
  files (snd (InputScript.main EmptyString EmptyString bare_params_world))
    !! "params.csv" = None.
Proof.
  destruct (params_csv_only_at_the_end EmptyString EmptyString
              bare_params_world
              (snd (InputScript.main EmptyString EmptyString
                      bare_params_world))
              KeyError) as [Hcsv _].
  - vm_compute. reflexivity.
  - rewrite Hcsv. reflexivity.
Defined.

Lemma failing_stage_leaves_partial_csv_witness :
  files (snd (InputScript.process_subadmin_areas surrogate_world))
    = files surrogate_world \/
  exists subadmin_areas rows,
    files surrogate_world !! "sub_administrative_area.ndJson"
      = Some (FNdjson subadmin_areas) /\
    Input.subadmin_areas_data subadmin_areas = OK rows /\
    partial_csv "sub_administrative_area.csv"
      InputScript.subadmin_fieldnames rows UnicodeEncodeError
      (files surrogate_world)
      (files (snd (InputScript.process_subadmin_areas surrogate_world))).
Proof.
  destruct failing_stage_leaves_partial_csv as (Hareas & _ & _).
  apply (Hareas surrogate_world UnicodeEncodeError).
  vm_compute. reflexivity.
Defined.

Lemma missing_input_file_exits_witness :
  InputScript.process_sample_file bare_params_world =
    (Raise (SystemExit 1),
     after_missing_file bare_params_world
       "sample.ndJjon File does not exist."
       "Sample (sample.ndJson) file was expected but not found.").
Proof.
  destruct (missing_input_file_exits bare_params_world) as (_ & _ & Hsample).
  apply Hsample. reflexivity.
Defined.

Lemma parameters_without_provider_witness :
  exists w',
    InputScript.input_processing EmptyString EmptyString bare_params_world
      = (1, w') /\
    info_html w' = setup_info_html EmptyString.
Proof.
  destruct (parameters_without_provider EmptyString EmptyString
              bare_params_world
              (JObj [("alpha", JInt 1); ("sensitivity", JInt 1)]) KeyError)
    as (_ & w' & Hrun & _ & Hhtml & _).
  - reflexivity.
  - reflexivity.
  - exists w'. split; assumption.
Defined.

Lemma output_script_succeeds_witness :
  exists rows' w',
    Output.coerce [example_row] = OK rows' /\
    Forall2 coerced_row [example_row] rows' /\
    OutputScript.output_processing model_done_world = (0, w') /\
    execution_log w' = execution_log model_done_world.
Proof.
  destruct (output_script_succeeds model_done_world [example_row]
              [attachment "execution_log.log" "text/plain" "downloadable";
               attachment "info.html" "text/html" "feedback"])
    as (rows' & w' & Hok & _ & Hall & Hrun & _ & _ & Hlog).
  - reflexivity.
  - reflexivity.
  - constructor; [|constructor].
    intros f Hf. simpl in Hf.
    destruct Hf as [<-|[<-|[<-|[<-|[<-|[<-|[<-|[<-|[]]]]]]]]];
      eexists; reflexivity.
  - exists rows', w'. repeat split; assumption.
Defined.

Lemma output_script_without_table_witness :
  exists w',
    OutputScript.output_processing example_world = (1, w') /\
    files w' = files example_world.
Proof.
  destruct (output_script_without_table example_world)
    as (w' & Hrun & Hfiles & _).
  - reflexivity.
  - exists w'. split; assumption.
Defined.

Lemma output_written_before_attachments_witness :
  exists w',
    OutputScript.output_processing
      (mkWorld (<["attachments/SimpleUndetectedPrevalenceEstimatorOutput.csv"
                    := FTable [example_row]]> ∅) [] [] []) = (1, w') /\
    files w' !! "attachments/output.json" <> None.
Proof.
  destruct (output_written_before_attachments
              (mkWorld
                 (<["attachments/SimpleUndetectedPrevalenceEstimatorOutput.csv"
                      := FTable [example_row]]> ∅) [] [] [])
              [example_row]
              [[("SubAdminID", JStr "36001"); ("SubAdminName", JStr "Albany");
                ("n", JNull); ("N", JInt 12);
                ("bayes", JFloat (Float.div (Float.of_Z 1) (Float.of_Z 2)));
                ("freq", JNull); ("freq.se", JNull); ("Result", JNull)]])
    as (w' & Hrun & Hfiles & _).
  - reflexivity.
  - vm_compute. reflexivity.
  - reflexivity.
  - exists w'. split; [exact Hrun|]. rewrite Hfiles.
    rewrite lookup_insert_eq. discriminate.
Defined.

Lemma output_script_keeps_files_and_logs_witness :
  files (snd (OutputScript.output_processing model_done_world))
    !! "params.csv" = files model_done_world !! "params.csv".
Proof.
  destruct (output_script_keeps_files_and_logs model_done_world)
    as (Hfiles & _).
  apply Hfiles. simpl. intuition discriminate.
Defined.

Lemma json_stringify_one_line_per_key_witness :
  InputScript.format_helper 3 3
    [("alpha", JInt 1); ("sensitivity", JStr "0.95")]
  = [[PStr "   "; PVal (JStr "alpha"); PStr ": "; PVal (JInt 1)];
     [PStr "   "; PVal (JStr "sensitivity"); PStr ": ";
      PVal (JStr "0.95")]].
Proof.
  destruct (json_stringify_one_line_per_key
              [("alpha", JInt 1); ("sensitivity", JStr "0.95")])
    as (_ & _ & Hflat).
  rewrite Hflat; [reflexivity|].
  intros k d [H|[H|[]]]; discriminate H.
Defined.

Lemma totals_of_text_values_witness :
  exists rows,
    Input.demography_data text_counts = OK rows /\
    In [("_id", JStr "X"); ("value", JStr "105")] rows.
Proof.
  destruct (totals_of_text_values text_counts
              [[("X", JStr "10")]; [("X", JStr "5")]]) as [Htext _].
  - repeat constructor.
  - destruct Htext as (rows & Hrun & Hrows).
    + repeat constructor; eexists; reflexivity.
    + exists rows. split; [exact Hrun|].
      apply (Hrows "X"). simpl. tauto.
Defined.

Lemma conversion_needs_numbers_witness :
  exists e,
    Input.convert_demo [example_area] (JObj text_density_record) = Raise e.
Proof.
  apply (conversion_needs_numbers [example_area] [] [] example_area
           text_density_record [("36001", JStr "5.0")] "36001"
           (JStr "5.0")).
  - reflexivity.
  - reflexivity.
  - repeat constructor. simpl. tauto.
  - left. reflexivity.
  - reflexivity.
  - constructor.
  - reflexivity.
  - left. reflexivity.
Defined.
